(** * Mexican e-commerce dataset generator (src/data_generation.py)

    A shallow embedding of [MexicoEcommerceGenerator] and of [main], and the
    properties of the generated table: region lookup, delivery timing, cost,
    the error-injection pass and the 1000-row sample.

    Modelling conventions.
    - A Python [float] is the rational it equals ([Q]); [NaN] is [None] in
      the four columns that the injector can blank.  Float arithmetic is
      binary64: each operation of module [F64] rounds its operands and its
      exact result to the nearest double, ties to even.  A value stored after
      [round(x, 2)] is kept as its two-decimal rational, which stands for the
      double nearest to it.  Infinities are not represented.  The product
      [len(df) * porcentaje] of the injector is taken exactly; lemma
      [n_errores_binary64] shows that it truncates as the double product does
      for the fraction 0.05 the program passes.
    - [datetime] is a number of seconds since the epoch ([Z]); [timedelta(days=d)]
      is [d * 86400] seconds.
    - The three sources of non-determinism are explicit: numpy's global
      generator (a stream of variates selected by the seed), Faker's private
      generator (a stream of its own, never seeded by the program) and the
      wall clock read by [date_time_between(..., end_date='now')].
    - Every draw returns a value of the support numpy documents for it; the
      distribution over that support is not modelled.  A variate of the
      stream is any rational of that support, compared exactly with the
      literal thresholds of the program.
    - Python exceptions are [None] in the monad [M]. *)

From Stdlib Require Import ZArith QArith Qround Qabs Qpower String Ascii List Lia Lqa
  DecimalString.
From Stdlib Require DecimalNat.
From stdpp Require Import base list strings gmap.

Open Scope string_scope.
Open Scope Z_scope.

(* ===================================================================== *)
(** * Python values *)
(* ===================================================================== *)

Module Py.

(** [int(x)] on a float: truncation towards zero. *)
Definition int_of_float (x : Q) : Z :=
  if Qlt_le_dec x 0 then Qceiling x else Qfloor x.

(** [round(x)] with no digits: nearest integer, ties to even. *)
Definition round_half_even (x : Q) : Z :=
  let f := Qfloor x in
  let d := (x - inject_Z f)%Q in
  match (d ?= 1 # 2)%Q with
  | Lt => f
  | Gt => f + 1
  | Eq => if Z.even f then f else f + 1
  end.

(** [round(x, nd)]: the same rounding at [nd] decimals. *)
Definition round_nd (x : Q) (nd : nat) : Q :=
  let k := inject_Z (10 ^ Z.of_nat nd) in
  Qred (inject_Z (round_half_even (x * k)) / k).

(** [str.lower()] on the UTF-8 bytes of a string: ASCII capitals and the
    capitals of the Latin-1 supplement (the accented letters of Spanish). *)
Definition lower_ascii (c : ascii) : ascii :=
  let n := nat_of_ascii c in
  if ((65 <=? n) && (n <=? 90))%nat then ascii_of_nat (n + 32) else c.

Definition lower_latin1 (c : ascii) : ascii :=
  let n := nat_of_ascii c in
  if ((128 <=? n) && (n <=? 158) && negb (n =? 151))%nat
  then ascii_of_nat (n + 32) else c.

Fixpoint lower (s : string) : string :=
  match s with
  | EmptyString => EmptyString
  | String c rest =>
      if (nat_of_ascii c =? 195)%nat then
        match rest with
        | String c2 rest2 => String c (String (lower_latin1 c2) (lower rest2))
        | EmptyString => String c EmptyString
        end
      else String (lower_ascii c) (lower rest)
  end.

(** [str(n)] for a non-negative integer. *)
Definition str_of_nat (n : nat) : string :=
  NilZero.string_of_uint (Nat.to_uint n).

Fixpoint zeros (k : nat) : string :=
  match k with
  | O => ""
  | S k' => String "0" (zeros k')
  end.

(** [f"{n:0wd}"]: decimal, left-padded with zeros to width [w]. *)
Definition zfill (w : nat) (n : nat) : string :=
  let s := str_of_nat n in
  String.append (zeros (w - String.length s)) s.

(** ** datetime *)

Definition datetime := Z.

Definition timedelta (days : Z) : Z := days * 86400.

(** [(a - b).days] *)
Definition days_between (a b : datetime) : Z := (a - b) / 86400.

(** Month and day of month of a timestamp (proleptic Gregorian calendar,
    days counted from 1970-01-01). *)
Definition civil_of_days (z0 : Z) : Z * Z * Z :=
  let z := z0 + 719468 in
  let era := z / 146097 in
  let doe := z - era * 146097 in
  let yoe := (doe - doe / 1460 + doe / 36524 - doe / 146096) / 365 in
  let y := yoe + era * 400 in
  let doy := doe - (365 * yoe + yoe / 4 - yoe / 100) in
  let mp := (5 * doy + 2) / 153 in
  let d := doy - (153 * mp + 2) / 5 + 1 in
  let m := if mp <? 10 then mp + 3 else mp - 9 in
  (if m <=? 2 then y + 1 else y, m, d).

Definition month (t : datetime) : Z := snd (fst (civil_of_days (t / 86400))).
Definition day (t : datetime) : Z := snd (civil_of_days (t / 86400)).

(** ** os.path *)

(** [p[:p.rfind('/') + 1]] *)
Fixpoint head_of_path (p : string) : string :=
  match p with
  | EmptyString => EmptyString
  | String c rest =>
      match head_of_path rest with
      | EmptyString =>
          if (nat_of_ascii c =? 47)%nat then String c EmptyString else EmptyString
      | h => String c h
      end
  end.

(** [s.rstrip('/')] *)
Fixpoint rstrip_slash (s : string) : string :=
  match s with
  | EmptyString => EmptyString
  | String c rest =>
      match rstrip_slash rest with
      | EmptyString =>
          if (nat_of_ascii c =? 47)%nat then EmptyString else String c EmptyString
      | r => String c r
      end
  end.

(** [os.path.dirname(p)]: what precedes the last slash, without trailing
    slashes unless it consists of slashes only. *)
Definition dirname (p : string) : string :=
  let head := head_of_path p in
  match rstrip_slash head with
  | EmptyString => head
  | r => r
  end.

End Py.

(* ===================================================================== *)
(** * binary64 arithmetic *)
(* ===================================================================== *)

Module F64.

(** [2^q] for any integer [q]. *)
Definition pow2 (q : Z) : Q := (2 ^ q)%Q.

(** [floor(log2 x)] for a positive [x]. *)
Definition ilog2 (x : Q) : Z :=
  let e0 := Z.log2 (Qnum x) - Z.log2 (Z.pos (Qden x)) in
  if Qle_bool (pow2 e0) x then e0 else e0 - 1.

(** The exponent of the last bit of the double nearest to a positive [x]:
    53 significant bits, and not below the smallest subnormal. *)
Definition expo (x : Q) : Z := Z.max (ilog2 x - 52) (-1074).

(** The double nearest to a positive [x], ties to even. *)
Definition rnd_pos (x : Q) : Q :=
  (inject_Z (Py.round_half_even (x / pow2 (expo x))) * pow2 (expo x))%Q.

(** The double nearest to [x], ties to even. *)
Definition rnd (x : Q) : Q :=
  match (x ?= 0)%Q with
  | Eq => 0%Q
  | Gt => Qred (rnd_pos x)
  | Lt => Qred (- rnd_pos (- x))
  end.

(** The four operations on doubles. *)
Definition add (a b : Q) : Q := rnd (rnd a + rnd b).
Definition sub (a b : Q) : Q := rnd (rnd a - rnd b).
Definition mul (a b : Q) : Q := rnd (rnd a * rnd b).
Definition div (a b : Q) : Q := rnd (rnd a / rnd b).

(** Half the machine epsilon: [2^-53]. *)
Definition eps : Q := 1 # 9007199254740992.

End F64.

(* ===================================================================== *)
(** * Reference tables ([_setup_mexico_data]) *)
(* ===================================================================== *)

Definition estados_mexico : list string :=
  [ "Aguascalientes"; "Baja California"; "Baja California Sur";
    "Campeche"; "Chiapas"; "Chihuahua"; "Coahuila"; "Colima";
    "Ciudad de México"; "Durango"; "Guanajuato"; "Guerrero";
    "Hidalgo"; "Jalisco"; "México"; "Michoacán"; "Morelos";
    "Nayarit"; "Nuevo León"; "Oaxaca"; "Puebla"; "Querétaro";
    "Quintana Roo"; "San Luis Potosí"; "Sinaloa"; "Sonora";
    "Tabasco"; "Tamaulipas"; "Tlaxcala"; "Veracruz"; "Yucatán";
    "Zacatecas" ].

Definition regiones : list (string * list string) :=
  [ ("Centro", ["Ciudad de México"; "México"; "Puebla"; "Morelos";
                "Tlaxcala"; "Hidalgo"; "Querétaro"]);
    ("Norte", ["Nuevo León"; "Chihuahua"; "Coahuila"; "Sonora";
               "Tamaulipas"; "Baja California"; "Baja California Sur"]);
    ("Occidente", ["Jalisco"; "Michoacán"; "Guanajuato"; "Aguascalientes";
                   "Colima"; "Nayarit"; "Sinaloa"]);
    ("Sur", ["Guerrero"; "Oaxaca"; "Chiapas"; "Veracruz"; "Tabasco"]);
    ("Península", ["Yucatán"; "Quintana Roo"; "Campeche"]) ].

Record transportista_info := {
  t_prob : Q;
  costo_base : Z;
  velocidad : Q
}.

Definition transportistas : list (string * transportista_info) :=
  [ ("Estafeta", {| t_prob := 28 # 100; costo_base := 120; velocidad := 7 # 10 |});
    ("DHL", {| t_prob := 22 # 100; costo_base := 180; velocidad := 9 # 10 |});
    ("FedEx", {| t_prob := 18 # 100; costo_base := 160; velocidad := 8 # 10 |});
    ("Correos de México", {| t_prob := 15 # 100; costo_base := 80; velocidad := 4 # 10 |});
    ("UPS", {| t_prob := 10 # 100; costo_base := 170; velocidad := 85 # 100 |});
    ("Redpack", {| t_prob := 5 # 100; costo_base := 100; velocidad := 6 # 10 |});
    ("Paquetexpress", {| t_prob := 2 # 100; costo_base := 90; velocidad := 65 # 100 |}) ].

Record categoria_info := {
  c_prob : Q;
  precio_min : Z;
  precio_max : Z
}.

Definition categorias : list (string * categoria_info) :=
  [ ("Moda y Accesorios", {| c_prob := 25 # 100; precio_min := 150; precio_max := 5000 |});
    ("Electrónicos", {| c_prob := 24 # 100; precio_min := 500; precio_max := 35000 |});
    ("Hogar y Jardín", {| c_prob := 16 # 100; precio_min := 200; precio_max := 15000 |});
    ("Salud y Belleza", {| c_prob := 12 # 100; precio_min := 100; precio_max := 3000 |});
    ("Deportes", {| c_prob := 9 # 100; precio_min := 300; precio_max := 8000 |});
    ("Libros y Educación", {| c_prob := 8 # 100; precio_min := 50; precio_max := 2000 |});
    ("Juguetes y Bebés", {| c_prob := 6 # 100; precio_min := 200; precio_max := 4000 |}) ].

Record metodo_info := {
  m_prob : Q;
  monto_share : Q
}.

Definition metodos_pago : list (string * metodo_info) :=
  [ ("Tarjeta de Débito", {| m_prob := 48 # 100; monto_share := 48 # 100 |});
    ("Tarjeta de Crédito", {| m_prob := 30 # 100; monto_share := 52 # 100 |});
    ("Efectivo (OXXO)", {| m_prob := 15 # 100; monto_share := 0 |});
    ("PayPal", {| m_prob := 5 # 100; monto_share := 0 |});
    ("Transferencia", {| m_prob := 2 # 100; monto_share := 0 |}) ].

Definition canales_venta : list (string * Q) :=
  [ ("Mercado Libre", 35 # 100);
    ("Amazon México", 25 # 100);
    ("Liverpool", 10 # 100);
    ("Coppel", 8 # 100);
    ("Walmart", 7 # 100);
    ("Sitio Web Propio", 15 # 100) ].

Definition tiempos_base : list (string * list (string * Z)) :=
  [ ("Estafeta", [("local", 2); ("regional", 4); ("nacional", 6)]);
    ("DHL", [("local", 1); ("regional", 2); ("nacional", 3)]);
    ("FedEx", [("local", 2); ("regional", 3); ("nacional", 4)]);
    ("Correos de México", [("local", 5); ("regional", 8); ("nacional", 12)]);
    ("UPS", [("local", 1); ("regional", 2); ("nacional", 4)]);
    ("Redpack", [("local", 3); ("regional", 5); ("nacional", 7)]);
    ("Paquetexpress", [("local", 3); ("regional", 5); ("nacional", 8)]) ].

(** [d[k]] on a dict given as its item list; [None] is [KeyError]. *)
Fixpoint dict_get {V : Type} (d : list (string * V)) (k : string) : option V :=
  match d with
  | [] => None
  | (k', v) :: rest => if String.eqb k k' then Some v else dict_get rest k
  end.

Definition dict_keys {V : Type} (d : list (string * V)) : list string := map fst d.
Definition dict_values {V : Type} (d : list (string * V)) : list V := map snd d.

(** [x in xs] for a list of strings. *)
Definition str_in (x : string) (xs : list string) : bool :=
  existsb (String.eqb x) xs.

(** [_get_region_from_estado]: the first region whose list holds the state,
    ['Centro'] when the loop finds none. *)
Fixpoint region_loop (items : list (string * list string)) (estado : string)
  : option string :=
  match items with
  | [] => None
  | (region, estados) :: rest =>
      if str_in estado estados then Some region else region_loop rest estado
  end.

Definition _get_region_from_estado (estado : string) : string :=
  match region_loop regiones estado with
  | Some region => region
  | None => "Centro"
  end.

(* ===================================================================== *)
(** * Order records and tables *)
(* ===================================================================== *)

(** The 39 keys of the [registro] dict, in the order of the literal.  The
    four columns the injector can set to [np.nan] hold an option. *)
Record registro := {
  order_id : string;
  customer_id : string;
  order_date : Py.datetime;
  shipped_date : Py.datetime;
  delivered_date : Py.datetime;
  processing_days : Z;
  delivery_days : Z;
  promised_delivery_days : Z;
  actual_delivery_days : Z;
  delivery_delay_days : Z;
  delivery_met_promise : Z;
  product_category : string;
  product_price_mxn : option Q;
  product_weight_kg : Q;
  quantity : Z;
  total_amount_mxn : Q;
  shipping_carrier : string;
  shipping_tier : string;
  shipping_cost_mxn : option Q;
  distance_km : option Z;
  shipping_type : string;
  customer_state : string;
  customer_region : string;
  customer_age_group : string;
  customer_loyalty_months : option Z;
  purchase_frequency : Z;
  is_urban : Z;
  payment_method : string;
  transaction_status : string;
  payment_installments : Z;
  sales_channel : string;
  platform_name : string;
  is_peak_season : Z;
  customer_delivery_rating : Z;
  delivery_issue : string;
  shipping_cost_to_price_ratio : Q;
  is_frequent_customer : Z;
  is_loyal_customer : Z;
  high_value_order : Z
}.

(** The column names of a table built from such records. *)
Definition columnas : list string :=
  [ "order_id"; "customer_id"; "order_date"; "shipped_date";
    "delivered_date"; "processing_days"; "delivery_days";
    "promised_delivery_days"; "actual_delivery_days";
    "delivery_delay_days"; "delivery_met_promise";
    "product_category"; "product_price_mxn"; "product_weight_kg";
    "quantity"; "total_amount_mxn"; "shipping_carrier";
    "shipping_tier"; "shipping_cost_mxn"; "distance_km";
    "shipping_type"; "customer_state"; "customer_region";
    "customer_age_group"; "customer_loyalty_months";
    "purchase_frequency"; "is_urban"; "payment_method";
    "transaction_status"; "payment_installments";
    "sales_channel"; "platform_name"; "is_peak_season";
    "customer_delivery_rating"; "delivery_issue";
    "shipping_cost_to_price_ratio"; "is_frequent_customer";
    "is_loyal_customer"; "high_value_order" ].

(** [df.at[idx, col] = v] for the columns the injector writes: the row with
    one cell replaced. *)
Definition set_order_id (v : string) (r : registro) : registro :=
  {| order_id := v; customer_id := customer_id r;
     order_date := order_date r; shipped_date := shipped_date r;
     delivered_date := delivered_date r;
     processing_days := processing_days r; delivery_days := delivery_days r;
     promised_delivery_days := promised_delivery_days r;
     actual_delivery_days := actual_delivery_days r;
     delivery_delay_days := delivery_delay_days r;
     delivery_met_promise := delivery_met_promise r;
     product_category := product_category r;
     product_price_mxn := product_price_mxn r;
     product_weight_kg := product_weight_kg r; quantity := quantity r;
     total_amount_mxn := total_amount_mxn r;
     shipping_carrier := shipping_carrier r;
     shipping_tier := shipping_tier r;
     shipping_cost_mxn := shipping_cost_mxn r; distance_km := distance_km r;
     shipping_type := shipping_type r; customer_state := customer_state r;
     customer_region := customer_region r;
     customer_age_group := customer_age_group r;
     customer_loyalty_months := customer_loyalty_months r;
     purchase_frequency := purchase_frequency r; is_urban := is_urban r;
     payment_method := payment_method r;
     transaction_status := transaction_status r;
     payment_installments := payment_installments r;
     sales_channel := sales_channel r; platform_name := platform_name r;
     is_peak_season := is_peak_season r;
     customer_delivery_rating := customer_delivery_rating r;
     delivery_issue := delivery_issue r;
     shipping_cost_to_price_ratio := shipping_cost_to_price_ratio r;
     is_frequent_customer := is_frequent_customer r;
     is_loyal_customer := is_loyal_customer r;
     high_value_order := high_value_order r |}.

Definition set_shipped_date (v : Py.datetime) (r : registro) : registro :=
  {| order_id := order_id r; customer_id := customer_id r;
     order_date := order_date r; shipped_date := v;
     delivered_date := delivered_date r;
     processing_days := processing_days r; delivery_days := delivery_days r;
     promised_delivery_days := promised_delivery_days r;
     actual_delivery_days := actual_delivery_days r;
     delivery_delay_days := delivery_delay_days r;
     delivery_met_promise := delivery_met_promise r;
     product_category := product_category r;
     product_price_mxn := product_price_mxn r;
     product_weight_kg := product_weight_kg r; quantity := quantity r;
     total_amount_mxn := total_amount_mxn r;
     shipping_carrier := shipping_carrier r;
     shipping_tier := shipping_tier r;
     shipping_cost_mxn := shipping_cost_mxn r; distance_km := distance_km r;
     shipping_type := shipping_type r; customer_state := customer_state r;
     customer_region := customer_region r;
     customer_age_group := customer_age_group r;
     customer_loyalty_months := customer_loyalty_months r;
     purchase_frequency := purchase_frequency r; is_urban := is_urban r;
     payment_method := payment_method r;
     transaction_status := transaction_status r;
     payment_installments := payment_installments r;
     sales_channel := sales_channel r; platform_name := platform_name r;
     is_peak_season := is_peak_season r;
     customer_delivery_rating := customer_delivery_rating r;
     delivery_issue := delivery_issue r;
     shipping_cost_to_price_ratio := shipping_cost_to_price_ratio r;
     is_frequent_customer := is_frequent_customer r;
     is_loyal_customer := is_loyal_customer r;
     high_value_order := high_value_order r |}.

Definition set_delivered_date (v : Py.datetime) (r : registro) : registro :=
  {| order_id := order_id r; customer_id := customer_id r;
     order_date := order_date r; shipped_date := shipped_date r;
     delivered_date := v; processing_days := processing_days r;
     delivery_days := delivery_days r;
     promised_delivery_days := promised_delivery_days r;
     actual_delivery_days := actual_delivery_days r;
     delivery_delay_days := delivery_delay_days r;
     delivery_met_promise := delivery_met_promise r;
     product_category := product_category r;
     product_price_mxn := product_price_mxn r;
     product_weight_kg := product_weight_kg r; quantity := quantity r;
     total_amount_mxn := total_amount_mxn r;
     shipping_carrier := shipping_carrier r;
     shipping_tier := shipping_tier r;
     shipping_cost_mxn := shipping_cost_mxn r; distance_km := distance_km r;
     shipping_type := shipping_type r; customer_state := customer_state r;
     customer_region := customer_region r;
     customer_age_group := customer_age_group r;
     customer_loyalty_months := customer_loyalty_months r;
     purchase_frequency := purchase_frequency r; is_urban := is_urban r;
     payment_method := payment_method r;
     transaction_status := transaction_status r;
     payment_installments := payment_installments r;
     sales_channel := sales_channel r; platform_name := platform_name r;
     is_peak_season := is_peak_season r;
     customer_delivery_rating := customer_delivery_rating r;
     delivery_issue := delivery_issue r;
     shipping_cost_to_price_ratio := shipping_cost_to_price_ratio r;
     is_frequent_customer := is_frequent_customer r;
     is_loyal_customer := is_loyal_customer r;
     high_value_order := high_value_order r |}.

Definition set_product_price_mxn (v : option Q) (r : registro) : registro :=
  {| order_id := order_id r; customer_id := customer_id r;
     order_date := order_date r; shipped_date := shipped_date r;
     delivered_date := delivered_date r;
     processing_days := processing_days r; delivery_days := delivery_days r;
     promised_delivery_days := promised_delivery_days r;
     actual_delivery_days := actual_delivery_days r;
     delivery_delay_days := delivery_delay_days r;
     delivery_met_promise := delivery_met_promise r;
     product_category := product_category r; product_price_mxn := v;
     product_weight_kg := product_weight_kg r; quantity := quantity r;
     total_amount_mxn := total_amount_mxn r;
     shipping_carrier := shipping_carrier r;
     shipping_tier := shipping_tier r;
     shipping_cost_mxn := shipping_cost_mxn r; distance_km := distance_km r;
     shipping_type := shipping_type r; customer_state := customer_state r;
     customer_region := customer_region r;
     customer_age_group := customer_age_group r;
     customer_loyalty_months := customer_loyalty_months r;
     purchase_frequency := purchase_frequency r; is_urban := is_urban r;
     payment_method := payment_method r;
     transaction_status := transaction_status r;
     payment_installments := payment_installments r;
     sales_channel := sales_channel r; platform_name := platform_name r;
     is_peak_season := is_peak_season r;
     customer_delivery_rating := customer_delivery_rating r;
     delivery_issue := delivery_issue r;
     shipping_cost_to_price_ratio := shipping_cost_to_price_ratio r;
     is_frequent_customer := is_frequent_customer r;
     is_loyal_customer := is_loyal_customer r;
     high_value_order := high_value_order r |}.

Definition set_shipping_carrier (v : string) (r : registro) : registro :=
  {| order_id := order_id r; customer_id := customer_id r;
     order_date := order_date r; shipped_date := shipped_date r;
     delivered_date := delivered_date r;
     processing_days := processing_days r; delivery_days := delivery_days r;
     promised_delivery_days := promised_delivery_days r;
     actual_delivery_days := actual_delivery_days r;
     delivery_delay_days := delivery_delay_days r;
     delivery_met_promise := delivery_met_promise r;
     product_category := product_category r;
     product_price_mxn := product_price_mxn r;
     product_weight_kg := product_weight_kg r; quantity := quantity r;
     total_amount_mxn := total_amount_mxn r; shipping_carrier := v;
     shipping_tier := shipping_tier r;
     shipping_cost_mxn := shipping_cost_mxn r; distance_km := distance_km r;
     shipping_type := shipping_type r; customer_state := customer_state r;
     customer_region := customer_region r;
     customer_age_group := customer_age_group r;
     customer_loyalty_months := customer_loyalty_months r;
     purchase_frequency := purchase_frequency r; is_urban := is_urban r;
     payment_method := payment_method r;
     transaction_status := transaction_status r;
     payment_installments := payment_installments r;
     sales_channel := sales_channel r; platform_name := platform_name r;
     is_peak_season := is_peak_season r;
     customer_delivery_rating := customer_delivery_rating r;
     delivery_issue := delivery_issue r;
     shipping_cost_to_price_ratio := shipping_cost_to_price_ratio r;
     is_frequent_customer := is_frequent_customer r;
     is_loyal_customer := is_loyal_customer r;
     high_value_order := high_value_order r |}.

Definition set_shipping_cost_mxn (v : option Q) (r : registro) : registro :=
  {| order_id := order_id r; customer_id := customer_id r;
     order_date := order_date r; shipped_date := shipped_date r;
     delivered_date := delivered_date r;
     processing_days := processing_days r; delivery_days := delivery_days r;
     promised_delivery_days := promised_delivery_days r;
     actual_delivery_days := actual_delivery_days r;
     delivery_delay_days := delivery_delay_days r;
     delivery_met_promise := delivery_met_promise r;
     product_category := product_category r;
     product_price_mxn := product_price_mxn r;
     product_weight_kg := product_weight_kg r; quantity := quantity r;
     total_amount_mxn := total_amount_mxn r;
     shipping_carrier := shipping_carrier r;
     shipping_tier := shipping_tier r; shipping_cost_mxn := v;
     distance_km := distance_km r; shipping_type := shipping_type r;
     customer_state := customer_state r;
     customer_region := customer_region r;
     customer_age_group := customer_age_group r;
     customer_loyalty_months := customer_loyalty_months r;
     purchase_frequency := purchase_frequency r; is_urban := is_urban r;
     payment_method := payment_method r;
     transaction_status := transaction_status r;
     payment_installments := payment_installments r;
     sales_channel := sales_channel r; platform_name := platform_name r;
     is_peak_season := is_peak_season r;
     customer_delivery_rating := customer_delivery_rating r;
     delivery_issue := delivery_issue r;
     shipping_cost_to_price_ratio := shipping_cost_to_price_ratio r;
     is_frequent_customer := is_frequent_customer r;
     is_loyal_customer := is_loyal_customer r;
     high_value_order := high_value_order r |}.

Definition set_distance_km (v : option Z) (r : registro) : registro :=
  {| order_id := order_id r; customer_id := customer_id r;
     order_date := order_date r; shipped_date := shipped_date r;
     delivered_date := delivered_date r;
     processing_days := processing_days r; delivery_days := delivery_days r;
     promised_delivery_days := promised_delivery_days r;
     actual_delivery_days := actual_delivery_days r;
     delivery_delay_days := delivery_delay_days r;
     delivery_met_promise := delivery_met_promise r;
     product_category := product_category r;
     product_price_mxn := product_price_mxn r;
     product_weight_kg := product_weight_kg r; quantity := quantity r;
     total_amount_mxn := total_amount_mxn r;
     shipping_carrier := shipping_carrier r;
     shipping_tier := shipping_tier r;
     shipping_cost_mxn := shipping_cost_mxn r; distance_km := v;
     shipping_type := shipping_type r; customer_state := customer_state r;
     customer_region := customer_region r;
     customer_age_group := customer_age_group r;
     customer_loyalty_months := customer_loyalty_months r;
     purchase_frequency := purchase_frequency r; is_urban := is_urban r;
     payment_method := payment_method r;
     transaction_status := transaction_status r;
     payment_installments := payment_installments r;
     sales_channel := sales_channel r; platform_name := platform_name r;
     is_peak_season := is_peak_season r;
     customer_delivery_rating := customer_delivery_rating r;
     delivery_issue := delivery_issue r;
     shipping_cost_to_price_ratio := shipping_cost_to_price_ratio r;
     is_frequent_customer := is_frequent_customer r;
     is_loyal_customer := is_loyal_customer r;
     high_value_order := high_value_order r |}.

Definition set_customer_state (v : string) (r : registro) : registro :=
  {| order_id := order_id r; customer_id := customer_id r;
     order_date := order_date r; shipped_date := shipped_date r;
     delivered_date := delivered_date r;
     processing_days := processing_days r; delivery_days := delivery_days r;
     promised_delivery_days := promised_delivery_days r;
     actual_delivery_days := actual_delivery_days r;
     delivery_delay_days := delivery_delay_days r;
     delivery_met_promise := delivery_met_promise r;
     product_category := product_category r;
     product_price_mxn := product_price_mxn r;
     product_weight_kg := product_weight_kg r; quantity := quantity r;
     total_amount_mxn := total_amount_mxn r;
     shipping_carrier := shipping_carrier r;
     shipping_tier := shipping_tier r;
     shipping_cost_mxn := shipping_cost_mxn r; distance_km := distance_km r;
     shipping_type := shipping_type r; customer_state := v;
     customer_region := customer_region r;
     customer_age_group := customer_age_group r;
     customer_loyalty_months := customer_loyalty_months r;
     purchase_frequency := purchase_frequency r; is_urban := is_urban r;
     payment_method := payment_method r;
     transaction_status := transaction_status r;
     payment_installments := payment_installments r;
     sales_channel := sales_channel r; platform_name := platform_name r;
     is_peak_season := is_peak_season r;
     customer_delivery_rating := customer_delivery_rating r;
     delivery_issue := delivery_issue r;
     shipping_cost_to_price_ratio := shipping_cost_to_price_ratio r;
     is_frequent_customer := is_frequent_customer r;
     is_loyal_customer := is_loyal_customer r;
     high_value_order := high_value_order r |}.

Definition set_customer_loyalty_months (v : option Z) (r : registro) : registro :=
  {| order_id := order_id r; customer_id := customer_id r;
     order_date := order_date r; shipped_date := shipped_date r;
     delivered_date := delivered_date r;
     processing_days := processing_days r; delivery_days := delivery_days r;
     promised_delivery_days := promised_delivery_days r;
     actual_delivery_days := actual_delivery_days r;
     delivery_delay_days := delivery_delay_days r;
     delivery_met_promise := delivery_met_promise r;
     product_category := product_category r;
     product_price_mxn := product_price_mxn r;
     product_weight_kg := product_weight_kg r; quantity := quantity r;
     total_amount_mxn := total_amount_mxn r;
     shipping_carrier := shipping_carrier r;
     shipping_tier := shipping_tier r;
     shipping_cost_mxn := shipping_cost_mxn r; distance_km := distance_km r;
     shipping_type := shipping_type r; customer_state := customer_state r;
     customer_region := customer_region r;
     customer_age_group := customer_age_group r;
     customer_loyalty_months := v;
     purchase_frequency := purchase_frequency r; is_urban := is_urban r;
     payment_method := payment_method r;
     transaction_status := transaction_status r;
     payment_installments := payment_installments r;
     sales_channel := sales_channel r; platform_name := platform_name r;
     is_peak_season := is_peak_season r;
     customer_delivery_rating := customer_delivery_rating r;
     delivery_issue := delivery_issue r;
     shipping_cost_to_price_ratio := shipping_cost_to_price_ratio r;
     is_frequent_customer := is_frequent_customer r;
     is_loyal_customer := is_loyal_customer r;
     high_value_order := high_value_order r |}.

(** Cell comparison: floats by value, a blank cell equal only to a blank. *)
Definition float_eqb (a b : option Q) : bool :=
  match a, b with
  | Some x, Some y => Qeq_bool x y
  | None, None => true
  | _, _ => false
  end.

Definition int_eqb (a b : option Z) : bool :=
  match a, b with
  | Some x, Some y => Z.eqb x y
  | None, None => true
  | _, _ => false
  end.

(** Two rows agree on every one of the 39 fields. *)
Definition fila_eqb (a b : registro) : bool :=
  String.eqb (order_id a) (order_id b)
  && String.eqb (customer_id a) (customer_id b)
  && Z.eqb (order_date a) (order_date b)
  && Z.eqb (shipped_date a) (shipped_date b)
  && Z.eqb (delivered_date a) (delivered_date b)
  && Z.eqb (processing_days a) (processing_days b)
  && Z.eqb (delivery_days a) (delivery_days b)
  && Z.eqb (promised_delivery_days a) (promised_delivery_days b)
  && Z.eqb (actual_delivery_days a) (actual_delivery_days b)
  && Z.eqb (delivery_delay_days a) (delivery_delay_days b)
  && Z.eqb (delivery_met_promise a) (delivery_met_promise b)
  && String.eqb (product_category a) (product_category b)
  && float_eqb (product_price_mxn a) (product_price_mxn b)
  && Qeq_bool (product_weight_kg a) (product_weight_kg b)
  && Z.eqb (quantity a) (quantity b)
  && Qeq_bool (total_amount_mxn a) (total_amount_mxn b)
  && String.eqb (shipping_carrier a) (shipping_carrier b)
  && String.eqb (shipping_tier a) (shipping_tier b)
  && float_eqb (shipping_cost_mxn a) (shipping_cost_mxn b)
  && int_eqb (distance_km a) (distance_km b)
  && String.eqb (shipping_type a) (shipping_type b)
  && String.eqb (customer_state a) (customer_state b)
  && String.eqb (customer_region a) (customer_region b)
  && String.eqb (customer_age_group a) (customer_age_group b)
  && int_eqb (customer_loyalty_months a) (customer_loyalty_months b)
  && Z.eqb (purchase_frequency a) (purchase_frequency b)
  && Z.eqb (is_urban a) (is_urban b)
  && String.eqb (payment_method a) (payment_method b)
  && String.eqb (transaction_status a) (transaction_status b)
  && Z.eqb (payment_installments a) (payment_installments b)
  && String.eqb (sales_channel a) (sales_channel b)
  && String.eqb (platform_name a) (platform_name b)
  && Z.eqb (is_peak_season a) (is_peak_season b)
  && Z.eqb (customer_delivery_rating a) (customer_delivery_rating b)
  && String.eqb (delivery_issue a) (delivery_issue b)
  && Qeq_bool (shipping_cost_to_price_ratio a) (shipping_cost_to_price_ratio b)
  && Z.eqb (is_frequent_customer a) (is_frequent_customer b)
  && Z.eqb (is_loyal_customer a) (is_loyal_customer b)
  && Z.eqb (high_value_order a) (high_value_order b).

(** A [DataFrame] with the default [RangeIndex]: its rows in order. *)
Abbreviation DataFrame := (list registro).

(** Column labels: none for a table built from an empty list of dicts. *)
Definition df_columns (df : DataFrame) : list string :=
  match df with
  | [] => []
  | _ :: _ => columnas
  end.

(* ===================================================================== *)
(** * The run-time environment *)
(* ===================================================================== *)

(** What the program does not control: the variate stream numpy's generator
    yields for each seed, the stream of Faker's own generator, and the
    successive readings of the wall clock. *)
Record entorno := {
  mt19937 : Z -> nat -> Q;
  fk_draws : nat -> Z;
  reloj : nat -> Z
}.

Definition loc := nat.

(** The mutable state of a run: the position of numpy's global generator,
    the seed given to the [random] module, the positions in Faker's stream
    and in the clock readings, the table objects and the files written. *)
Record estado := {
  np_seed : Z;
  np_pos : nat;
  py_seed : Z;
  fk_pos : nat;
  reloj_pos : nat;
  objetos : list DataFrame;
  archivos : gmap string DataFrame
}.

Definition M (A : Type) : Type := entorno -> estado -> option (A * estado).

Definition ret {A} (a : A) : M A := fun _ st => Some (a, st).

Definition bind {A B} (m : M A) (k : A -> M B) : M B :=
  fun e st =>
    match m e st with
    | Some (a, st') => k a e st'
    | None => None
    end.

(** An uncaught exception. *)
Definition raise {A} : M A := fun _ _ => None.

Notation "'let*' x ':=' m 'in' k" := (bind m (fun x => k))
  (at level 10, x pattern, m at level 200, k at level 200).

Definition lift {A} (o : option A) : M A :=
  match o with
  | Some a => ret a
  | None => raise
  end.

(** [for x in xs: body(x)] *)
Fixpoint for_each {A} (xs : list A) (body : A -> M unit) : M unit :=
  match xs with
  | [] => ret tt
  | x :: rest => let* _ := body x in for_each rest body
  end.

Definition Qltb (x y : Q) : bool := negb (Qle_bool y x).

(* ===================================================================== *)
(** * numpy's global generator *)
(* ===================================================================== *)

Module Np.

(** [np.random.seed(s)] *)
Definition seed (s : Z) : M unit :=
  fun _ st =>
    Some (tt, {| np_seed := s; np_pos := 0; py_seed := py_seed st;
                 fk_pos := fk_pos st; reloj_pos := reloj_pos st;
                 objetos := objetos st; archivos := archivos st |}).

(** The next variate of the stream. *)
Definition next : M Q :=
  fun e st =>
    Some (mt19937 e (np_seed st) (np_pos st),
          {| np_seed := np_seed st; np_pos := S (np_pos st);
             py_seed := py_seed st; fk_pos := fk_pos st;
             reloj_pos := reloj_pos st; objetos := objetos st;
             archivos := archivos st |}).

(** The fractional part of a variate, in [0, 1). *)
Definition frac (x : Q) : Q := (x - inject_Z (Qfloor x))%Q.

(** [np.random.random()] *)
Definition random : M Q := let* x := next in ret (frac x).

(** [np.random.uniform(low, high)]: [low + (high - low) * u]. *)
Definition uniform (low high : Q) : M Q :=
  let* u := random in ret (F64.add low (F64.mul (F64.sub high low) u)).

(** [np.random.normal(loc, scale)]: [loc + scale * x] for any real [x]. *)
Definition normal (mu sigma : Q) : M Q :=
  let* x := next in ret (F64.add mu (F64.mul sigma x)).

(** [np.random.exponential(scale)]: [scale * x] for a non-negative [x]. *)
Definition exponential (scale : Q) : M Q :=
  let* x := next in ret (F64.mul scale (Qabs x)).

(** [np.random.poisson(lam)]: a non-negative integer. *)
Definition poisson (lam : Q) : M Z :=
  let* x := next in ret (Z.abs (Qfloor x)).

(** [np.random.randint(low, high)]: an integer of [low, high);
    [ValueError] when the range is empty. *)
Definition randint (low high : Z) : M Z :=
  if low <? high then
    let* x := next in ret (low + Qfloor x mod (high - low))
  else raise.

(** [np.random.choice(a)]: a uniform pick; [ValueError] on an empty list. *)
Definition choice {A} (a : list A) : M A :=
  let* j := randint 0 (Z.of_nat (length a)) in
  lift (a !! Z.to_nat j).

Fixpoint cumsum (acc : Q) (p : list Q) : list Q :=
  match p with
  | [] => []
  | x :: rest => (acc + x)%Q :: cumsum (acc + x)%Q rest
  end.

Definition Qsum (p : list Q) : Q := fold_right Qplus 0%Q p.

(** [cdf.searchsorted(u, side='right')] on the increasing [cdf]. *)
Fixpoint searchsorted_right (cdf : list Q) (u : Q) : nat :=
  match cdf with
  | [] => O
  | c :: rest => if Qle_bool c u then S (searchsorted_right rest u) else O
  end.

(** [np.random.choice(a, p=p)]: numpy checks the sizes, that no
    probability is negative and that they sum to 1, then inverts the
    cumulative distribution at a uniform sample. *)
Definition choice_p {A} (a : list A) (p : list Q) : M A :=
  if negb (length a =? length p)%nat then raise
  else if negb (forallb (Qle_bool 0) p) then raise
  else if negb (Qeq_bool (Qsum p) 1) then raise
  else
    let* u := random in
    lift (a !! searchsorted_right (cumsum 0 p) u).

(** [np.random.choice(a, size, replace=False)]: [size] picks, each one
    removed from the pool; [ValueError] when the pool is too small. *)
Fixpoint draw_without_replacement {A} (pool : list A) (size : nat) : M (list A) :=
  match size with
  | O => ret []
  | S size' =>
      let* j := randint 0 (Z.of_nat (length pool)) in
      let* x := lift (pool !! Z.to_nat j) in
      let* rest := draw_without_replacement (delete (Z.to_nat j) pool) size' in
      ret (x :: rest)
  end.

Definition choice_no_replace {A} (a : list A) (size : Z) : M (list A) :=
  if size <? 0 then raise
  else if Z.of_nat (length a) <? size then raise
  else draw_without_replacement a (Z.to_nat size).

End Np.

(* ===================================================================== *)
(** * Faker and the clock *)
(* ===================================================================== *)

Module Fk.

(** [random.seed(s)]: seeds the [random] module's global generator, which
    is not the generator Faker draws from. *)
Definition py_random_seed (s : Z) : M unit :=
  fun _ st =>
    Some (tt, {| np_seed := np_seed st; np_pos := np_pos st; py_seed := s;
                 fk_pos := fk_pos st; reloj_pos := reloj_pos st;
                 objetos := objetos st; archivos := archivos st |}).

Definition next : M Z :=
  fun e st =>
    Some (fk_draws e (fk_pos st),
          {| np_seed := np_seed st; np_pos := np_pos st; py_seed := py_seed st;
             fk_pos := S (fk_pos st); reloj_pos := reloj_pos st;
             objetos := objetos st; archivos := archivos st |}).

(** [datetime.now()], as a timestamp. *)
Definition now : M Z :=
  fun e st =>
    Some (reloj e (reloj_pos st),
          {| np_seed := np_seed st; np_pos := np_pos st; py_seed := py_seed st;
             fk_pos := fk_pos st; reloj_pos := S (reloj_pos st);
             objetos := objetos st; archivos := archivos st |}).

(** [fake.random_int(min, max)]: both ends included. *)
Definition random_int (lo hi : Z) : M Z :=
  if lo <=? hi then
    let* x := next in ret (lo + x mod (hi - lo + 1))
  else raise.

(** One year in Faker's date arithmetic: 365.24 days, in seconds. *)
Definition un_anio : Z := 31556736.

(** [fake.date_time_between(start_date='-1y', end_date='now')]: a timestamp
    drawn between one year before the clock reading and the reading. *)
Definition date_time_between_last_year : M Py.datetime :=
  let* ahora := now in
  random_int (ahora - un_anio) ahora.

End Fk.

(* ===================================================================== *)
(** * pandas tables as objects *)
(* ===================================================================== *)

Module Pd.

Definition set_objetos (h : list DataFrame) (st : estado) : estado :=
  {| np_seed := np_seed st; np_pos := np_pos st; py_seed := py_seed st;
     fk_pos := fk_pos st; reloj_pos := reloj_pos st;
     objetos := h; archivos := archivos st |}.

Definition set_archivos (fs : gmap string DataFrame) (st : estado) : estado :=
  {| np_seed := np_seed st; np_pos := np_pos st; py_seed := py_seed st;
     fk_pos := fk_pos st; reloj_pos := reloj_pos st;
     objetos := objetos st; archivos := fs |}.

(** A new table object holding [rows]. *)
Definition alloc (rows : DataFrame) : M loc :=
  fun _ st => Some (length (objetos st), set_objetos (objetos st ++ [rows]) st).

(** The rows of the object at [l]. *)
Definition deref (l : loc) : M DataFrame :=
  fun _ st =>
    match objetos st !! l with
    | Some df => Some (df, st)
    | None => None
    end.

(** Replaces the rows of the object at [l], which stays the same object. *)
Definition store (l : loc) (rows : DataFrame) : M unit :=
  fun _ st =>
    match objetos st !! l with
    | Some _ => Some (tt, set_objetos (<[l := rows]> (objetos st)) st)
    | None => None
    end.

(** [pd.DataFrame(datos)] *)
Definition DataFrame_of (datos : list registro) : M loc := alloc datos.

(** [df.copy()] *)
Definition copy (df : loc) : M loc :=
  let* rows := deref df in alloc rows.

(** [len(df)] *)
Definition len (df : loc) : M nat :=
  let* rows := deref df in ret (length rows).

(** [df.index] *)
Definition index (df : loc) : M (list nat) :=
  let* rows := deref df in ret (seq 0 (length rows)).

(** [df.at[idx, col]] and [df.iloc[idx]]; a label or position outside the
    table raises. *)
Definition iloc (df : loc) (idx : nat) : M registro :=
  let* rows := deref df in lift (rows !! idx).

Definition at_ {A} (df : loc) (idx : nat) (col : registro -> A) : M A :=
  let* r := iloc df idx in ret (col r).

(** [df[col]]: the column labelled [col], read through the field [campo];
    [KeyError] when the table has no such label. *)
Definition getitem {A} (df : loc) (col : string) (campo : registro -> A)
  : M (list A) :=
  let* rows := deref df in
  if str_in col (df_columns rows) then ret (map campo rows) else raise.

(** [df.iloc[idx] = r] *)
Definition iloc_set (df : loc) (idx : nat) (r : registro) : M unit :=
  let* rows := deref df in
  if (idx <? length rows)%nat then store df (<[idx := r]> rows) else raise.

(** [df.at[idx, col] = v], [poner] being the write of [v] in column [col];
    only labels of the index are written. *)
Definition at_set (df : loc) (idx : nat) (poner : registro -> registro) : M unit :=
  let* rows := deref df in
  if (idx <? length rows)%nat then store df (alter poner idx rows) else raise.

(** [df.to_csv(path, index=False)]: the file holds the table. *)
Definition to_csv (df : loc) (path : string) : M unit :=
  let* rows := deref df in
  fun _ st => Some (tt, set_archivos (<[path := rows]> (archivos st)) st).

(** The state of a generator of its own, freshly seeded with [s]. *)
Definition random_state (s : Z) (st : estado) : estado :=
  {| np_seed := s; np_pos := 0; py_seed := py_seed st;
     fk_pos := fk_pos st; reloj_pos := reloj_pos st;
     objetos := objetos st; archivos := archivos st |}.

(** [df.sample(n, random_state=s)]: [n] distinct row positions drawn from a
    generator of its own seeded with [s]; numpy's global generator is left
    where it was.  [ValueError] when [n] exceeds the row count. *)
Definition sample (df : loc) (n : Z) (s : Z) : M loc :=
  let* rows := deref df in
  fun e st =>
    match Np.choice_no_replace (seq 0 (length rows)) n e (random_state s st) with
    | Some (locs, _) => alloc (omap (fun i => rows !! i) locs) e st
    | None => None
    end.

End Pd.

Module Os.

(** [os.makedirs(name, exist_ok=True)]: [FileNotFoundError] on the empty
    path; the directories themselves are not modelled. *)
Definition makedirs (name : string) : M unit :=
  if String.eqb name "" then raise else ret tt.

End Os.

(* ===================================================================== *)
(** * [MexicoEcommerceGenerator] *)
(* ===================================================================== *)

(** The instance attributes set by [__init__]; the reference tables are the
    constants above. *)
Record MexicoEcommerceGenerator := {
  self_seed : Z;
  n_records : nat
}.

(** [__init__]: seeds numpy and the [random] module, builds the Faker. *)
Definition __init__ (seed : Z) (n : nat) : M MexicoEcommerceGenerator :=
  let* _ := Np.seed seed in
  let* _ := Fk.py_random_seed seed in
  ret {| self_seed := seed; n_records := n |}.

Definition _get_random_transportista : M string :=
  let transportistas_ := dict_keys transportistas in
  let probabilidades := map t_prob (dict_values transportistas) in
  Np.choice_p transportistas_ probabilidades.

Definition _get_random_categoria : M string :=
  let categorias_ := dict_keys categorias in
  let probabilidades := map c_prob (dict_values categorias) in
  Np.choice_p categorias_ probabilidades.

(** The distance class of a shipment from [estado_origen]. *)
Definition tipo_envio_de (estado_origen estado_destino : string) : string :=
  if String.eqb estado_origen estado_destino then "local"
  else if String.eqb (_get_region_from_estado estado_origen)
                     (_get_region_from_estado estado_destino) then "regional"
  else "nacional".

Definition _calcular_tiempo_entrega (transportista estado_origen estado_destino : string)
    (es_temporada_alta : bool) : M Z :=
  let tipo_envio := tipo_envio_de estado_origen estado_destino in
  let* por_tipo := lift (dict_get tiempos_base transportista) in
  let* tiempo_base := lift (dict_get por_tipo tipo_envio) in
  let* variabilidad := Np.normal 0 (1 # 2) in
  let* impacto_temporada :=
    (if es_temporada_alta then Np.uniform (12 # 10) 2 else ret 1%Q) in
  let tiempo_final :=
    Z.max 1 (Py.round_half_even
               (F64.add (F64.mul (inject_Z tiempo_base) impacto_temporada)
                        variabilidad)) in
  ret tiempo_final.

Definition _es_temporada_alta (fecha : Py.datetime) : bool :=
  let mes := Py.month fecha in
  if (mes =? 5) || (mes =? 11) || (mes =? 12) then true
  else if (mes =? 4) && (Py.day fecha =? 30) then true
  else if (mes =? 2) && (Py.day fecha =? 14) then true
  else false.

Record fechas_t := {
  f_order_date : Py.datetime;
  f_shipped_date : Py.datetime;
  f_delivered_date : Py.datetime;
  f_processing_days : Z;
  f_delivery_days : Z
}.

Definition _generar_fechas_realistas (transportista estado_destino : string) : M fechas_t :=
  let* fecha_pedido := Fk.date_time_between_last_year in
  let dias_procesamiento_opciones := [1; 2; 3] in
  let* dias_procesamiento :=
    Np.choice_p dias_procesamiento_opciones [7 # 10; 2 # 10; 1 # 10] in
  let fecha_envio := fecha_pedido + Py.timedelta dias_procesamiento in
  let es_temporada_alta := _es_temporada_alta fecha_pedido in
  let estado_origen := "Ciudad de México" in
  let* dias_entrega0 :=
    _calcular_tiempo_entrega transportista estado_origen estado_destino
                             es_temporada_alta in
  let* ajuste := Np.randint (-1) 2 in
  let dias_entrega := dias_entrega0 + ajuste in
  let fecha_entrega := fecha_envio + Py.timedelta (Z.max 1 dias_entrega) in
  ret {| f_order_date := fecha_pedido;
         f_shipped_date := fecha_envio;
         f_delivered_date := fecha_entrega;
         f_processing_days := dias_procesamiento;
         f_delivery_days := dias_entrega |}.

Record producto_t := {
  p_product_price_mxn : Q;
  p_product_weight_kg : Q;
  p_quantity : Z
}.

Definition _generar_datos_producto (categoria : string) : M producto_t :=
  let* cat_info := lift (dict_get categorias categoria) in
  let* precio := Np.uniform (inject_Z (precio_min cat_info))
                            (inject_Z (precio_max cat_info)) in
  let* peso :=
    (if String.eqb categoria "Electrónicos" then Np.uniform (1 # 2) 5
     else if String.eqb categoria "Moda y Accesorios" then Np.uniform (1 # 10) 2
     else if String.eqb categoria "Hogar y Jardín" then Np.uniform 1 15
     else Np.uniform (2 # 10) 3) in
  let* u := Np.random in
  let* cantidad := (if Qltb u (95 # 100) then Np.randint 1 6 else Np.randint 6 11) in
  ret {| p_product_price_mxn := Py.round_nd precio 2;
         p_product_weight_kg := Py.round_nd peso 2;
         p_quantity := cantidad |}.

Record cliente_t := {
  c_customer_age_group : string;
  c_customer_loyalty_months : Z;
  c_purchase_frequency : Z
}.

Definition _generar_datos_cliente : M cliente_t :=
  let grupos_edad := ["18-24"; "25-34"; "35-44"; "45-54"; "55+"] in
  let prob_grupos := [15 # 100; 35 # 100; 25 # 100; 15 # 100; 10 # 100] in
  let* edad_grupo := Np.choice_p grupos_edad prob_grupos in
  let* lealtad := Np.exponential 12 in
  let lealtad_meses := Z.min (Py.int_of_float lealtad) 60 in
  let* frecuencia := Np.poisson (25 # 10) in
  ret {| c_customer_age_group := edad_grupo;
         c_customer_loyalty_months := lealtad_meses;
         c_purchase_frequency := frecuencia |}.

Record pago_t := {
  g_payment_method : string;
  g_transaction_status : string;
  g_payment_installments : Z
}.

Definition _generar_datos_pago (monto_total : Q) : M pago_t :=
  let metodos := dict_keys metodos_pago in
  let probabilidades := map m_prob (dict_values metodos_pago) in
  let* metodo := Np.choice_p metodos probabilidades in
  let* u := Np.random in
  let* status :=
    (if Qltb u (67 # 100) then ret "Autorizada"
     else
       let* u2 := Np.random in
       if Qltb u2 (8 # 10) then ret "En revisión" else ret "Rechazada") in
  let* msi :=
    (if String.eqb metodo "Tarjeta de Crédito" && String.eqb status "Autorizada"
     then Np.choice_p [1; 3; 6; 12; 18] [3 # 10; 25 # 100; 2 # 10; 15 # 100; 1 # 10]
     else ret 1) in
  ret {| g_payment_method := metodo;
         g_transaction_status := status;
         g_payment_installments := msi |}.

Definition ajuste_distancia (distancia : string) : Q :=
  if String.eqb distancia "local" then 1
  else if String.eqb distancia "regional" then 15 # 10
  else 2.

Definition ajuste_express (es_express : bool) : Q :=
  if es_express then 2 else 1.

Definition _calcular_costo_envio (transportista : string) (peso : Q)
    (distancia : string) (es_express : bool) : M Q :=
  let* info := lift (dict_get transportistas transportista) in
  let costo_base_ := inject_Z (costo_base info) in
  let costo_peso := F64.mul peso 15 in
  let costo_final :=
    F64.mul (F64.mul (F64.add costo_base_ costo_peso) (ajuste_distancia distancia))
            (ajuste_express es_express) in
  let* variacion := Np.uniform (9 # 10) (11 # 10) in
  ret (Py.round_nd (F64.mul costo_final variacion) 2).

(** The write [df.at[idx, columna] = np.nan] for the four candidate columns. *)
Definition set_nan (columna : string) : option (registro -> registro) :=
  if String.eqb columna "product_price_mxn" then Some (set_product_price_mxn None)
  else if String.eqb columna "shipping_cost_mxn" then Some (set_shipping_cost_mxn None)
  else if String.eqb columna "customer_loyalty_months"
       then Some (set_customer_loyalty_months None)
  else if String.eqb columna "distance_km" then Some (set_distance_km None)
  else None.

(** The five branches of the loop of [_agregar_errores_controlados], each
    one a defect on row [idx] of the table object [df_con_errores]. *)
Definition error_missing (df_con_errores : loc) (idx : nat) : M unit :=
  let* columna :=
    Np.choice ["product_price_mxn"; "shipping_cost_mxn";
               "customer_loyalty_months"; "distance_km"] in
  let* poner := lift (set_nan columna) in
  Pd.at_set df_con_errores idx poner.

Definition error_outlier (df_con_errores : loc) (idx : nat) : M unit :=
  let* u := Np.random in
  if Qltb (1 # 2) u then
    let* precio := Pd.at_ df_con_errores idx product_price_mxn in
    Pd.at_set df_con_errores idx
      (set_product_price_mxn (option_map (fun x => F64.mul x 100) precio))
  else
    let* d := Np.randint 5000 10000 in
    Pd.at_set df_con_errores idx (set_distance_km (Some d)).

Definition error_typo (df_con_errores : loc) (idx : nat) : M unit :=
  let* u := Np.random in
  if Qltb (1 # 2) u then
    let* c := Pd.at_ df_con_errores idx shipping_carrier in
    Pd.at_set df_con_errores idx (set_shipping_carrier (String.append " " c))
  else
    let* e := Pd.at_ df_con_errores idx customer_state in
    Pd.at_set df_con_errores idx (set_customer_state (Py.lower e)).

Definition error_duplicate (df_con_errores : loc) (idx : nat) : M unit :=
  if (0 <? idx)%nat then
    let* anterior := Pd.iloc df_con_errores (idx - 1) in
    let* _ := Pd.iloc_set df_con_errores idx anterior in
    let* original_id := Pd.at_ df_con_errores idx order_id in
    Pd.at_set df_con_errores idx (set_order_id (String.append "DUPE-" original_id))
  else ret tt.

Definition error_inconsistent (df_con_errores : loc) (idx : nat) : M unit :=
  let* u := Np.random in
  if Qltb (1 # 2) u then
    let* enviado := Pd.at_ df_con_errores idx shipped_date in
    Pd.at_set df_con_errores idx (set_delivered_date (enviado - Py.timedelta 2))
  else
    let* pedido := Pd.at_ df_con_errores idx order_date in
    Pd.at_set df_con_errores idx (set_shipped_date (pedido - Py.timedelta 1)).

Definition tipos_error : list string :=
  ["missing"; "outlier"; "typo"; "duplicate"; "inconsistent"].

(** The body of the loop: the kind of defect is drawn, then applied. *)
Definition aplicar_error (df_con_errores : loc) (idx : nat) : M unit :=
  let* tipo_error := Np.choice tipos_error in
  if String.eqb tipo_error "missing" then error_missing df_con_errores idx
  else if String.eqb tipo_error "outlier" then error_outlier df_con_errores idx
  else if String.eqb tipo_error "typo" then error_typo df_con_errores idx
  else if String.eqb tipo_error "duplicate" then error_duplicate df_con_errores idx
  else if String.eqb tipo_error "inconsistent" then error_inconsistent df_con_errores idx
  else ret tt.

(** [_agregar_errores_controlados]; the size of the selection is the
    truncated exact product [len(df) * porcentaje], which for the fraction
    0.05 of the program is the truncated double product
    ([n_errores_binary64]). *)
Definition _agregar_errores_controlados (df : loc) (porcentaje : Q) : M loc :=
  let* df_con_errores := Pd.copy df in
  let* n := Pd.len df in
  let n_errores := Py.int_of_float (inject_Z (Z.of_nat n) * porcentaje) in
  let* indice := Pd.index df in
  let* indices_errores := Np.choice_no_replace indice n_errores in
  let* _ := for_each indices_errores (aplicar_error df_con_errores) in
  ret df_con_errores.

(** The body of the loop of [generate_dataset]: the record of order [i]. *)
Definition generar_registro (i : nat) : M registro :=
  let order_id_ := String.append "ECOMMX-2024-" (Py.zfill 5 i) in
  let* cust := Fk.random_int 10000 99999 in
  let customer_id_ := String.append "CUST-" (Py.str_of_nat (Z.to_nat cust)) in
  let* datos_cliente := _generar_datos_cliente in
  let* estado_cliente := Np.choice estados_mexico in
  let region_cliente := _get_region_from_estado estado_cliente in
  let* categoria := _get_random_categoria in
  let* datos_producto := _generar_datos_producto categoria in
  let* transportista := _get_random_transportista in
  let* u := Np.random in
  let es_express := Qltb u (15 # 100) in
  let* fechas := _generar_fechas_realistas transportista estado_cliente in
  let* (distancia_km, tipo_distancia) :=
    (if String.eqb estado_cliente "Ciudad de México" then
       let* d := Np.randint 0 50 in ret (d, "local")
     else if String.eqb region_cliente "Centro" then
       let* d := Np.randint 50 300 in ret (d, "regional")
     else
       let* d := Np.randint 300 1500 in ret (d, "nacional")) in
  let* costo_envio :=
    _calcular_costo_envio transportista (p_product_weight_kg datos_producto)
                          tipo_distancia es_express in
  let monto_total :=
    F64.add (F64.mul (p_product_price_mxn datos_producto)
                     (inject_Z (p_quantity datos_producto)))
            costo_envio in
  let* datos_pago := _generar_datos_pago monto_total in
  let canales := dict_keys canales_venta in
  let probabilidades := dict_values canales_venta in
  let* canal_venta := Np.choice_p canales probabilidades in
  let* por_tipo := lift (dict_get tiempos_base transportista) in
  let* dias_prometidos_base := lift (dict_get por_tipo tipo_distancia) in
  let dias_prometidos :=
    if es_express then Z.max 1 (dias_prometidos_base - 2) else dias_prometidos_base in
  let dias_reales :=
    Py.days_between (f_delivered_date fechas) (f_shipped_date fechas) in
  let diferencia_dias := dias_reales - dias_prometidos in
  let calificacion_base :=
    if diferencia_dias <=? 0 then 5
    else if diferencia_dias <=? 2 then 4
    else if diferencia_dias <=? 5 then 3
    else if diferencia_dias <=? 10 then 2
    else 1 in
  let* jitter := Np.randint (-1) 2 in
  let calificacion := Z.max 1 (Z.min 5 (calificacion_base + jitter)) in
  let problemas := ["Ninguno"; "Retraso"; "Paquete dañado"; "Extraviado";
                    "Entregado en lugar equivocado"] in
  let probabilidades_problemas :=
    if 2 <? diferencia_dias
    then [70 # 100; 20 # 100; 5 # 100; 3 # 100; 2 # 100]
    else [85 # 100; 10 # 100; 3 # 100; 1 # 100; 1 # 100] in
  let* problema_entrega := Np.choice_p problemas probabilidades_problemas in
  let* u_urbano := Np.random in
  (* [costo_envio / price]: ZeroDivisionError on a zero price *)
  if Qeq_bool (p_product_price_mxn datos_producto) 0 then raise
  else
  ret {| order_id := order_id_;
         customer_id := customer_id_;
         order_date := f_order_date fechas;
         shipped_date := f_shipped_date fechas;
         delivered_date := f_delivered_date fechas;
         processing_days := f_processing_days fechas;
         delivery_days := f_delivery_days fechas;
         promised_delivery_days := dias_prometidos;
         actual_delivery_days := dias_reales;
         delivery_delay_days := diferencia_dias;
         delivery_met_promise := (if diferencia_dias <=? 0 then 1 else 0);
         product_category := categoria;
         product_price_mxn := Some (p_product_price_mxn datos_producto);
         product_weight_kg := p_product_weight_kg datos_producto;
         quantity := p_quantity datos_producto;
         total_amount_mxn := Py.round_nd monto_total 2;
         shipping_carrier := transportista;
         shipping_tier := (if es_express then "Express" else "Estándar");
         shipping_cost_mxn := Some costo_envio;
         distance_km := Some distancia_km;
         shipping_type := tipo_distancia;
         customer_state := estado_cliente;
         customer_region := region_cliente;
         customer_age_group := c_customer_age_group datos_cliente;
         customer_loyalty_months := Some (c_customer_loyalty_months datos_cliente);
         purchase_frequency := c_purchase_frequency datos_cliente;
         is_urban := (if Qltb u_urbano (75 # 100) then 1 else 0);
         payment_method := g_payment_method datos_pago;
         transaction_status := g_transaction_status datos_pago;
         payment_installments := g_payment_installments datos_pago;
         sales_channel :=
           (if negb (String.eqb canal_venta "Sitio Web Propio")
            then "Marketplace" else "D2C");
         platform_name := canal_venta;
         is_peak_season :=
           (if _es_temporada_alta (f_order_date fechas) then 1 else 0);
         customer_delivery_rating := calificacion;
         delivery_issue := problema_entrega;
         shipping_cost_to_price_ratio :=
           Py.round_nd (F64.div costo_envio (p_product_price_mxn datos_producto)) 4;
         is_frequent_customer :=
           (if 3 <? c_purchase_frequency datos_cliente then 1 else 0);
         is_loyal_customer :=
           (if 12 <? c_customer_loyalty_months datos_cliente then 1 else 0);
         high_value_order :=
           (if Qltb 5000 monto_total then 1 else 0) |}.

(** [for i in range(n): datos.append(registro)], from index [i]. *)
Fixpoint generar_datos (i n : nat) : M (list registro) :=
  match n with
  | O => ret []
  | S n' =>
      let* registro_ := generar_registro i in
      let* resto := generar_datos (S i) n' in
      ret (registro_ :: resto)
  end.

Definition generate_dataset (self : MexicoEcommerceGenerator) (include_errors : bool)
  : M loc :=
  let* datos := generar_datos 0 (n_records self) in
  let* df := Pd.DataFrame_of datos in
  if include_errors then _agregar_errores_controlados df (5 # 100)
  else ret df.

Definition save_dataset (df : loc) (filepath : string) : M string :=
  let* _ := Os.makedirs (Py.dirname filepath) in
  let* _ := Pd.to_csv df filepath in
  ret filepath.

(** Step 4 of [main]: the statistics it prints, read from five columns. *)
Definition estadisticas_basicas (df : loc) : M unit :=
  let* dist_transp := Pd.getitem df "shipping_carrier" shipping_carrier in
  let* dias := Pd.getitem df "actual_delivery_days" actual_delivery_days in
  let* retraso := Pd.getitem df "delivery_delay_days" delivery_delay_days in
  let* a_tiempo := Pd.getitem df "delivery_met_promise" delivery_met_promise in
  let* calificacion :=
    Pd.getitem df "customer_delivery_rating" customer_delivery_rating in
  ret tt.

(** Step 6 of [main]: the 1000-row sample file. *)
Definition guardar_muestra (df : loc) : M unit :=
  let* n := Pd.len df in
  if (1000 <? n)%nat then
    let* sample_df := Pd.sample df 1000 42 in
    let sample_path := "data/raw/dataset_sample_1000.csv" in
    Pd.to_csv sample_df sample_path
  else ret tt.

(** [main] for a generator built with [seed] and [n]; the program runs it
    with seed 42 and 10000 records. *)
Definition main_con (seed : Z) (n : nat) : M loc :=
  let* generator := __init__ seed n in
  let* df := generate_dataset generator true in
  let* _ := estadisticas_basicas df in
  let* filepath := save_dataset df "data/raw/dataset_raw.csv" in
  let* _ := guardar_muestra df in
  ret df.


(* ===================================================================== *)
(** * Specification vocabulary *)
(* ===================================================================== *)

(** [m] returns from state [st], and its result and final state satisfy [Q]. *)
Definition wp {A} (m : M A) (e : entorno) (st : estado)
    (Q : A -> estado -> Prop) : Prop :=
  exists a st', m e st = Some (a, st') /\ Q a st'.

(** [m] returns from every state with a result satisfying [P], and leaves
    the table objects and the files as they were. *)
Definition sale {A} (e : entorno) (m : M A) (P : A -> Prop) : Prop :=
  forall st,
    wp m e st (fun a st' =>
      P a /\ objetos st' = objetos st /\ archivos st' = archivos st).

(** The states of the 32-state list that no region of the table lists. *)
Definition estados_sin_region : list string :=
  filter (fun estado => negb (existsb (fun item => str_in estado (snd item)) regiones))
         estados_mexico.

(** The three shipment classes. *)
Definition tipos_distancia : list string := ["local"; "regional"; "nacional"].

(** What every record built by [generar_registro i] satisfies. *)
Record registro_limpio (e : entorno) (i : nat) (r : registro) : Prop := {
  rl_order_id : order_id r = String.append "ECOMMX-2024-" (Py.zfill 5 i);
  rl_order_date :
    exists k, reloj e k - Fk.un_anio <= order_date r <= reloj e k;
  rl_processing : 1 <= processing_days r <= 3;
  rl_shipped :
    shipped_date r = order_date r + Py.timedelta (processing_days r);
  rl_delivery_days : 0 <= delivery_days r;
  rl_delivered :
    delivered_date r
    = shipped_date r + Py.timedelta (Z.max 1 (delivery_days r));
  rl_state : customer_state r ∈ estados_mexico;
  rl_region : customer_region r = _get_region_from_estado (customer_state r);
  rl_carrier : shipping_carrier r ∈ dict_keys transportistas;
  rl_tier : shipping_tier r = "Express" \/ shipping_tier r = "Estándar";
  rl_type :
    shipping_type r
    = (if String.eqb (customer_state r) "Ciudad de México" then "local"
       else if String.eqb (customer_region r) "Centro" then "regional"
       else "nacional");
  rl_promised :
    exists por_tipo base,
      dict_get tiempos_base (shipping_carrier r) = Some por_tipo
      /\ dict_get por_tipo (shipping_type r) = Some base
      /\ promised_delivery_days r
         = (if String.eqb (shipping_tier r) "Express"
            then Z.max 1 (base - 2) else base);
  rl_actual :
    actual_delivery_days r
    = Py.days_between (delivered_date r) (shipped_date r);
  rl_delay :
    delivery_delay_days r
    = actual_delivery_days r - promised_delivery_days r;
  rl_met :
    delivery_met_promise r = (if delivery_delay_days r <=? 0 then 1 else 0);
  rl_price : exists p, product_price_mxn r = Some p /\ (50 <= p)%Q;
  rl_quantity : 1 <= quantity r <= 10;
  rl_cost :
    exists info variacion,
      dict_get transportistas (shipping_carrier r) = Some info
      /\ (F64.rnd (9 # 10) <= variacion)%Q
      /\ (variacion <= F64.rnd (11 # 10))%Q
      /\ (F64.rnd variacion == variacion)%Q
      /\ shipping_cost_mxn r
         = Some (Py.round_nd
                   (F64.mul
                      (F64.mul
                         (F64.mul (F64.add (inject_Z (costo_base info))
                                           (F64.mul (product_weight_kg r) 15))
                                  (ajuste_distancia (shipping_type r)))
                         (ajuste_express (String.eqb (shipping_tier r) "Express")))
                      variacion) 2);
  rl_weight :
    (1 # 10 <= product_weight_kg r)%Q /\ (product_weight_kg r <= 15)%Q;
  rl_total :
    exists p c,
      product_price_mxn r = Some p /\ shipping_cost_mxn r = Some c
      /\ total_amount_mxn r = Py.round_nd (p * inject_Z (quantity r) + c) 2;
  rl_total_f64 :
    exists p c,
      product_price_mxn r = Some p /\ shipping_cost_mxn r = Some c
      /\ total_amount_mxn r
         = Py.round_nd (F64.add (F64.mul p (inject_Z (quantity r))) c) 2;
  rl_distance : exists d, distance_km r = Some d /\ 0 <= d < 1500;
  rl_loyalty : exists m, customer_loyalty_months r = Some m /\ 0 <= m <= 60;
  rl_rating : 1 <= customer_delivery_rating r <= 5
}.

(** The defect one pass of the loop applies to a row. *)
Inductive defecto : Type :=
| Missing (columna : string)
| OutlierPrecio
| OutlierDistancia (d : Z)
| TypoTransportista
| TypoEstado
| Duplicado
| FechaEntrega
| FechaEnvio.

(** The table after defect [d] on row [idx]. *)
Definition con_defecto (d : defecto) (idx : nat) (rows : DataFrame) : DataFrame :=
  match d with
  | Missing columna =>
      match set_nan columna with
      | Some poner => alter poner idx rows
      | None => rows
      end
  | OutlierPrecio =>
      alter (fun r => set_product_price_mxn
                        (option_map (fun x => F64.mul x 100) (product_price_mxn r)) r)
            idx rows
  | OutlierDistancia d => alter (set_distance_km (Some d)) idx rows
  | TypoTransportista =>
      alter (fun r => set_shipping_carrier (String.append " " (shipping_carrier r)) r)
            idx rows
  | TypoEstado =>
      alter (fun r => set_customer_state (Py.lower (customer_state r)) r) idx rows
  | Duplicado =>
      match idx with
      | O => rows
      | S i =>
          match rows !! i with
          | Some anterior =>
              <[idx := set_order_id (String.append "DUPE-" (order_id anterior))
                                    anterior]> rows
          | None => rows
          end
      end
  | FechaEntrega =>
      alter (fun r => set_delivered_date (shipped_date r - Py.timedelta 2) r) idx rows
  | FechaEnvio =>
      alter (fun r => set_shipped_date (order_date r - Py.timedelta 1) r) idx rows
  end.

(** The values a defect can carry. *)
Definition defecto_valido (d : defecto) : Prop :=
  match d with
  | Missing columna =>
      columna ∈ ["product_price_mxn"; "shipping_cost_mxn";
                 "customer_loyalty_months"; "distance_km"]
  | OutlierDistancia km => 5000 <= km < 10000
  | _ => True
  end.

(** The state reached by a pass that applies [d]: only the table object [l]
    has changed. *)
Definition tras_defecto (l : loc) (idx : nat) (rows : DataFrame) (st : estado)
    (d : defecto) (st' : estado) : Prop :=
  defecto_valido d
  /\ objetos st' = <[l := con_defecto d idx rows]> (objetos st)
  /\ archivos st' = archivos st.

(** What the injector relies on in a row to make a visible change. *)
Record fila_limpia (r : registro) : Prop := {
  fl_order_id : exists resto, order_id r = String "E" resto;
  fl_price : exists p, product_price_mxn r = Some p /\ (50 <= p)%Q;
  fl_cost : exists c, shipping_cost_mxn r = Some c;
  fl_loyalty : exists m, customer_loyalty_months r = Some m;
  fl_distance : exists d, distance_km r = Some d /\ 0 <= d < 1500;
  fl_state : customer_state r ∈ estados_mexico;
  fl_shipped : order_date r < shipped_date r;
  fl_delivered : shipped_date r < delivered_date r
}.

(** The number of rows that differ between two tables of equal length. *)
Definition filas_distintas (a b : DataFrame) : nat :=
  length (filter (fun p => negb (fila_eqb (fst p) (snd p))) (zip a b)).

(** The table after the defects of [plan], applied in order; each entry is
    a row label and the defect that falls on it. *)
Definition aplicar_defectos (plan : list (nat * defecto)) (rows : DataFrame)
  : DataFrame :=
  fold_left (fun acc p => con_defecto (snd p) (fst p) acc) plan rows.

(** The number of rows the pass selects: [int(len(df) * porcentaje)]. *)
Definition n_errores_de (n : nat) (porcentaje : Q) : Z :=
  Py.int_of_float (inject_Z (Z.of_nat n) * porcentaje).

(** ** Vocabulary for the record fields *)

(** The order id of row [i]: [f"ECOMMX-2024-{i:05d}"]. *)
Definition clean_id (i : nat) : string :=
  String.append "ECOMMX-2024-" (Py.zfill 5 i).

(** [m] times the prefix the duplicate defect puts before an id. *)
Fixpoint dupes (m : nat) (s : string) : string :=
  match m with
  | O => s
  | S m' => String.append "DUPE-" (dupes m' s)
  end.

(** [int(s)] on a string of decimal digits. *)
Definition int_of_str (s : string) : option nat :=
  option_map Nat.of_uint (NilZero.uint_of_string s).

(** Every id of the table is the clean id of a row at or above it, behind
    as many "DUPE-" prefixes as rows lie between. *)
Definition ids_con_dupes (rows : DataFrame) : Prop :=
  forall i r, rows !! i = Some r ->
    exists m, (m <= i)%nat /\ order_id r = dupes m (clean_id (i - m)).

(** The weight range of a category, in kg. *)
Definition rango_peso (categoria : string) : Q * Q :=
  if String.eqb categoria "Electrónicos" then (1 # 2, 5)%Q
  else if String.eqb categoria "Moda y Accesorios" then (1 # 10, 2)%Q
  else if String.eqb categoria "Hogar y Jardín" then (1, 15)%Q
  else (2 # 10, 3)%Q.

(** The rating before its jitter, as a function of the delay. *)
Definition calificacion_base_de (diferencia_dias : Z) : Z :=
  if diferencia_dias <=? 0 then 5
  else if diferencia_dias <=? 2 then 4
  else if diferencia_dias <=? 5 then 3
  else if diferencia_dias <=? 10 then 2
  else 1.

(** Row [b] is row [a] with one cell rewritten, in one of the eight columns
    the injector writes by label. *)
Definition una_celda (a b : registro) : Prop :=
  (exists v, b = set_product_price_mxn v a)
  \/ (exists v, b = set_shipping_cost_mxn v a)
  \/ (exists v, b = set_customer_loyalty_months v a)
  \/ (exists v, b = set_distance_km v a)
  \/ (exists v, b = set_shipping_carrier v a)
  \/ (exists v, b = set_customer_state v a)
  \/ (exists v, b = set_delivered_date v a)
  \/ (exists v, b = set_shipped_date v a).

(** Further facts of every record built by [generar_registro]. *)
Record registro_detalle (r : registro) : Prop := {
  rd_category :
    exists info p,
      dict_get categorias (product_category r) = Some info
      /\ product_price_mxn r = Some p
      /\ (inject_Z (precio_min info) <= p)%Q
      /\ (p <= inject_Z (precio_max info))%Q;
  rd_weight :
    (fst (rango_peso (product_category r)) <= product_weight_kg r)%Q
    /\ (product_weight_kg r <= snd (rango_peso (product_category r)))%Q;
  rd_age :
    customer_age_group r ∈ ["18-24"; "25-34"; "35-44"; "45-54"; "55+"];
  rd_loyal :
    exists m, customer_loyalty_months r = Some m
              /\ is_loyal_customer r = (if 12 <? m then 1 else 0);
  rd_frequent :
    0 <= purchase_frequency r
    /\ is_frequent_customer r = (if 3 <? purchase_frequency r then 1 else 0);
  rd_urban : is_urban r = 1 \/ is_urban r = 0;
  rd_high_value :
    exists p c,
      product_price_mxn r = Some p /\ shipping_cost_mxn r = Some c
      /\ high_value_order r
         = (if Qltb 5000 (F64.add (F64.mul p (inject_Z (quantity r))) c)
            then 1 else 0);
  rd_distance :
    exists d,
      distance_km r = Some d
      /\ (shipping_type r = "local" /\ 0 <= d < 50
          \/ shipping_type r = "regional" /\ 50 <= d < 300
          \/ shipping_type r = "nacional" /\ 300 <= d < 1500);
  rd_method : payment_method r ∈ dict_keys metodos_pago;
  rd_status :
    transaction_status r ∈ ["Autorizada"; "En revisión"; "Rechazada"];
  rd_installments : payment_installments r ∈ [1; 3; 6; 12; 18];
  rd_installments_credit :
    payment_installments r <> 1 ->
    payment_method r = "Tarjeta de Crédito"
    /\ transaction_status r = "Autorizada";
  rd_platform : platform_name r ∈ dict_keys canales_venta;
  rd_channel :
    sales_channel r
    = (if String.eqb (platform_name r) "Sitio Web Propio"
       then "D2C" else "Marketplace");
  rd_rating :
    exists jitter,
      -1 <= jitter <= 1
      /\ customer_delivery_rating r
         = Z.max 1 (Z.min 5 (calificacion_base_de (delivery_delay_days r) + jitter));
  rd_issue :
    delivery_issue r ∈ ["Ninguno"; "Retraso"; "Paquete dañado"; "Extraviado";
                        "Entregado en lugar equivocado"]
}.

(** ** Vocabulary for the clock *)

(** [m] takes no reading of the clock. *)
Definition sin_reloj {A} (m : M A) : Prop :=
  forall e st a st', m e st = Some (a, st') -> reloj_pos st' = reloj_pos st.

(** Every result of [m] satisfies [P]. *)
Definition devuelve {A} (m : M A) (P : A -> Prop) : Prop :=
  forall e st a st', m e st = Some (a, st') -> P a.

(** [m] takes one reading of the clock, the next one, and the date [fecha]
    of its result lies in the year before that reading. *)
Definition lee_una_vez {A} (m : M A) (fecha : A -> Z) : Prop :=
  forall e st a st',
    m e st = Some (a, st') ->
    reloj_pos st' = S (reloj_pos st)
    /\ reloj e (reloj_pos st) - Fk.un_anio <= fecha a <= reloj e (reloj_pos st).

(** ** Sample environments *)

(** A variate stream, a Faker stream and a clock that reads 2026-01-01. *)
Definition e_demo : entorno :=
  {| mt19937 := fun s k => (Z.of_nat k * 7919 + s * 31 # 1000)%Q;
     fk_draws := fun k => Z.of_nat k * 104729 + 17;
     reloj := fun _ => 1767225600 |}.

(** The same streams with a clock that reads 2028-01-01. *)
Definition e_demo_tarde : entorno :=
  {| mt19937 := mt19937 e_demo;
     fk_draws := fk_draws e_demo;
     reloj := fun _ => 1830297600 |}.

(** Streams that lead to a one-day transit estimate adjusted by -1. *)
Definition e_cero : entorno :=
  {| mt19937 := fun _ _ => (-201 # 1)%Q;
     fk_draws := fun _ => 0;
     reloj := fun _ => 1767225600 |}.

Definition st_inicial : estado :=
  {| np_seed := 0; np_pos := 0; py_seed := 0; fk_pos := 0; reloj_pos := 0;
     objetos := []; archivos := ∅ |}.

(** A 20-row table built by the synthesizer, and a state that holds it as
    object 0. *)
Definition tabla_demo : DataFrame :=
  Eval vm_compute in
    match generar_datos 0 20 e_demo st_inicial with
    | Some (datos, _) => datos
    | None => []
    end.

Definition st_demo : estado :=
  {| np_seed := 42; np_pos := 0; py_seed := 42; fk_pos := 0; reloj_pos := 0;
     objetos := [tabla_demo]; archivos := ∅ |}.

(** A state that holds the first 19 rows of that table as object 0. *)
Definition st_corta : estado :=
  {| np_seed := 42; np_pos := 0; py_seed := 42; fk_pos := 0; reloj_pos := 0;
     objetos := [take 19 tabla_demo]; archivos := ∅ |}.

(** The count the rounding [round(N * 0.05)] would give. *)
Definition n_errores_redondeado (n : nat) : Z :=
  Py.round_half_even (inject_Z (Z.of_nat n) * (5 # 100)).

(** A run of the generator with the injector on: the row counts of the
    clean table (the object built just before the returned one) and of the
    returned table, and the number of rows in which they differ. *)
Definition resumen_corrida (seed : Z) (n : nat) (e : entorno) (st : estado)
  : option (nat * nat * nat) :=
  match (let* g := __init__ seed n in generate_dataset g true) e st with
  | Some (df, st') =>
      match objetos st' !! (df - 1)%nat, objetos st' !! df with
      | Some limpio, Some sucio =>
          Some (length limpio, length sucio, filas_distintas limpio sucio)
      | _, _ => None
      end
  | None => None
  end.

(** The path of the sample file and of the main file. *)
Definition sample_path : string := "data/raw/dataset_sample_1000.csv".
Definition raw_path : string := "data/raw/dataset_raw.csv".

(** The rows [df.sample(1000, random_state=42)] takes from [rows]: a function
    of the table and of the variate stream of seed 42. *)
Definition muestra_de (e : entorno) (rows : DataFrame) : option DataFrame :=
  match Np.choice_no_replace (seq 0 (length rows)) 1000 e
          (Pd.random_state 42 st_inicial) with
  | Some (locs, _) => Some (omap (fun i => rows !! i) locs)
  | None => None
  end.

(** A table of 1001 copies of one row, and a state that holds it. *)
Definition tabla_grande : DataFrame :=
  match tabla_demo !! 0%nat with
  | Some r => replicate 1001 r
  | None => []
  end.

Definition st_grande : estado :=
  {| np_seed := 42; np_pos := 0; py_seed := 42; fk_pos := 0; reloj_pos := 0;
     objetos := [tabla_grande]; archivos := ∅ |}.

(* ===================================================================== *)
(** * Properties *)
(* ===================================================================== *)

(** ** The model on small inputs *)

Example round_nd_2675 : Py.round_nd (2675 # 1000) 2 = (67 # 25)%Q.
Proof. reflexivity. Qed.

Example round_half_even_ties :
  map Py.round_half_even [1 # 2; 3 # 2; 5 # 2; -5 # 2]%Q = [0; 2; 2; -2].
Proof. reflexivity. Qed.

Example int_of_float_truncates :
  map Py.int_of_float [39 # 20; -5 # 2]%Q = [1; -2].
Proof. reflexivity. Qed.

Example zfill_order_ids :
  map (Py.zfill 5) [7; 42; 4321]%nat = ["00007"; "00042"; "04321"].
Proof. reflexivity. Qed.

Example lower_estado : Py.lower "Ciudad de México" = "ciudad de méxico".
Proof. reflexivity. Qed.

Example valentines_day_2024 :
  Py.civil_of_days 19767 = (2024, 2, 14)
  /\ _es_temporada_alta (19767 * 86400 + 3600) = true
  /\ _es_temporada_alta (19768 * 86400) = false.
Proof. repeat split; reflexivity. Qed.

Example region_de_jalisco : _get_region_from_estado "Jalisco" = "Occidente".
Proof. reflexivity. Qed.

Example ids_tabla_demo :
  map order_id (take 2 tabla_demo) = ["ECOMMX-2024-00000"; "ECOMMX-2024-00001"].
Proof. reflexivity. Qed.

(** ** The monad *)

Lemma wp_ret {A} (a : A) e st (Q : A -> estado -> Prop) :
  Q a st -> wp (ret a) e st Q.
Proof. intros H. exists a, st. split; [reflexivity | exact H]. Qed.

Lemma wp_bind {A B} (m : M A) (k : A -> M B) e st (Q : B -> estado -> Prop) :
  wp m e st (fun a st' => wp (k a) e st' Q) -> wp (bind m k) e st Q.
Proof.
  intros (a & st' & Hm & b & st'' & Hk & HQ).
  exists b, st''. split; [| exact HQ].
  unfold bind. rewrite Hm. exact Hk.
Qed.

Lemma wp_mono {A} (m : M A) e st (Q Q' : A -> estado -> Prop) :
  wp m e st Q -> (forall a st', Q a st' -> Q' a st') -> wp m e st Q'.
Proof.
  intros (a & st' & Hm & HQ) Himp. exists a, st'. split; [exact Hm | auto].
Qed.

Lemma wp_lift {A} (o : option A) (a : A) e st (Q : A -> estado -> Prop) :
  o = Some a -> Q a st -> wp (lift o) e st Q.
Proof. intros -> HQ. apply wp_ret. exact HQ. Qed.

Lemma wp_inv {A} (m : M A) e st (Q : A -> estado -> Prop) a st' :
  wp m e st Q -> m e st = Some (a, st') -> Q a st'.
Proof.
  intros (a0 & st0 & Hm & HQ) Heq. rewrite Hm in Heq.
  injection Heq as <- <-. exact HQ.
Qed.

Lemma sale_ret {A} e (a : A) (P : A -> Prop) : P a -> sale e (ret a) P.
Proof. intros H st. apply wp_ret. auto. Qed.

Lemma sale_bind {A B} e (m : M A) (k : A -> M B) (P : A -> Prop) (Q : B -> Prop) :
  sale e m P -> (forall a, P a -> sale e (k a) Q) -> sale e (bind m k) Q.
Proof.
  intros Hm Hk st. apply wp_bind.
  eapply wp_mono; [apply Hm |].
  intros a st1 (HP & Ho & Ha). cbn beta.
  eapply wp_mono; [apply (Hk a HP) |].
  intros b st2 (HQ & Ho2 & Ha2). cbn beta.
  repeat split; [exact HQ | congruence | congruence].
Qed.

Lemma sale_mono {A} e (m : M A) (P P' : A -> Prop) :
  sale e m P -> (forall a, P a -> P' a) -> sale e m P'.
Proof.
  intros Hm Himp st. eapply wp_mono; [apply Hm |].
  intros a st' (HP & Ho & Ha). auto.
Qed.

Lemma sale_lift {A} e (o : option A) (a : A) (P : A -> Prop) :
  o = Some a -> P a -> sale e (lift o) P.
Proof. intros -> HP. apply sale_ret. exact HP. Qed.

(** A call that [sale] describes can be stepped over inside [wp]. *)
Lemma wp_sale_bind {A B} e st (m : M A) (k : A -> M B) (P : A -> Prop)
    (Q : B -> estado -> Prop) :
  sale e m P ->
  (forall a st', P a -> objetos st' = objetos st -> archivos st' = archivos st ->
                 wp (k a) e st' Q) ->
  wp (bind m k) e st Q.
Proof.
  intros Hm Hk. apply wp_bind.
  eapply wp_mono; [apply Hm |].
  intros a st' (HP & Ho & Ha). cbn beta. auto.
Qed.

(** ** Arithmetic of the Python values *)

Lemma frac_range (x : Q) : (0 <= Np.frac x)%Q /\ (Np.frac x < 1)%Q.
Proof.
  unfold Np.frac.
  pose proof (Qfloor_le x) as Hlo.
  pose proof (Qlt_floor x) as Hhi.
  rewrite inject_Z_plus in Hhi. change (inject_Z 1) with 1%Q in Hhi.
  split; lra.
Qed.

Lemma round_half_even_ge (n : Z) (x : Q) :
  (inject_Z n <= x)%Q -> n <= Py.round_half_even x.
Proof.
  intros H. unfold Py.round_half_even.
  assert (n <= Qfloor x) as Hf.
  { rewrite <- (Qfloor_Z n). apply Qfloor_resp_le. exact H. }
  destruct (_ ?= _)%Q; [destruct (Z.even _) | |]; lia.
Qed.

Lemma pow10_pos (nd : nat) : 0 < 10 ^ Z.of_nat nd.
Proof. apply Z.pow_pos_nonneg; lia. Qed.

Lemma round_nd_ge (n : Z) (x : Q) (nd : nat) :
  (inject_Z n <= x)%Q -> (inject_Z n <= Py.round_nd x nd)%Q.
Proof.
  intros H. unfold Py.round_nd. rewrite Qred_correct.
  set (k := 10 ^ Z.of_nat nd).
  assert (0 < k) as Hk by apply pow10_pos.
  assert (0 < inject_Z k)%Q as HkQ.
  { change 0%Q with (inject_Z 0). rewrite <- Zlt_Qlt. exact Hk. }
  apply Qle_shift_div_l; [exact HkQ |].
  rewrite <- inject_Z_mult. rewrite <- Zle_Qle.
  apply round_half_even_ge.
  rewrite inject_Z_mult.
  apply Qmult_le_compat_r; [exact H | apply Qlt_le_weak; exact HkQ].
Qed.

(** ** Rounding is monotone *)

Lemma round_half_even_bounds (x : Q) :
  Qfloor x <= Py.round_half_even x <= Qfloor x + 1.
Proof.
  unfold Py.round_half_even.
  destruct (_ ?= _)%Q; [destruct (Z.even _) | |]; lia.
Qed.

Lemma round_half_even_mono (x y : Q) :
  (x <= y)%Q -> Py.round_half_even x <= Py.round_half_even y.
Proof.
  intros Hxy.
  pose proof (Qfloor_resp_le x y Hxy) as Hf.
  destruct (Z.eq_dec (Qfloor x) (Qfloor y)) as [Heq | Hne].
  - unfold Py.round_half_even. rewrite <- Heq.
    destruct (Qcompare_spec (x - inject_Z (Qfloor x)) (1 # 2)) as [Hx | Hx | Hx];
      destruct (Qcompare_spec (y - inject_Z (Qfloor x)) (1 # 2)) as [Hy | Hy | Hy];
      try (destruct (Z.even (Qfloor x))); try lia; exfalso; lra.
  - pose proof (round_half_even_bounds x). pose proof (round_half_even_bounds y).
    lia.
Qed.

Lemma round_half_even_inject_Z (n : Z) : Py.round_half_even (inject_Z n) = n.
Proof.
  unfold Py.round_half_even. rewrite Qfloor_Z.
  destruct (Qcompare_spec (inject_Z n - inject_Z n) (1 # 2)) as [H | H | H];
    [exfalso; lra | reflexivity | exfalso; lra].
Qed.

Lemma round_nd_mono (x y : Q) (nd : nat) :
  (x <= y)%Q -> (Py.round_nd x nd <= Py.round_nd y nd)%Q.
Proof.
  intros H. unfold Py.round_nd. rewrite !Qred_correct.
  set (k := 10 ^ Z.of_nat nd).
  assert (0 < k) as Hk by apply pow10_pos.
  assert (0 < inject_Z k)%Q as HkQ.
  { change 0%Q with (inject_Z 0). rewrite <- Zlt_Qlt. exact Hk. }
  apply Qmult_le_compat_r.
  - rewrite <- Zle_Qle. apply round_half_even_mono.
    apply Qmult_le_compat_r; [exact H | apply Qlt_le_weak; exact HkQ].
  - apply Qlt_le_weak. apply Qinv_lt_0_compat. exact HkQ.
Qed.

Lemma round_nd_inject_Z (n : Z) (nd : nat) :
  (Py.round_nd (inject_Z n) nd == inject_Z n)%Q.
Proof.
  unfold Py.round_nd. rewrite Qred_correct.
  set (k := 10 ^ Z.of_nat nd).
  assert (0 < k) as Hk by apply pow10_pos.
  rewrite <- inject_Z_mult, round_half_even_inject_Z, inject_Z_mult.
  apply Qdiv_mult_l.
  intros H.
  assert (0 < inject_Z k)%Q as HkQ.
  { change 0%Q with (inject_Z 0). rewrite <- Zlt_Qlt. exact Hk. }
  lra.
Qed.

Lemma round_nd_le_Z (x : Q) (n : Z) (nd : nat) :
  (x <= inject_Z n)%Q -> (Py.round_nd x nd <= inject_Z n)%Q.
Proof.
  intros H. rewrite <- (round_nd_inject_Z n nd). apply round_nd_mono. exact H.
Qed.

(* ===================================================================== *)
(** * binary64 rounding *)
(* ===================================================================== *)

(** ** Rounding to the nearest integer *)

Lemma round_half_even_comp (x y : Q) :
  (x == y)%Q -> Py.round_half_even x = Py.round_half_even y.
Proof.
  intros H.
  pose proof (round_half_even_mono x y) as H1.
  pose proof (round_half_even_mono y x) as H2.
  assert (x <= y)%Q by (rewrite H; apply Qle_refl).
  assert (y <= x)%Q by (rewrite H; apply Qle_refl).
  specialize (H1 ltac:(assumption)). specialize (H2 ltac:(assumption)). lia.
Qed.

Lemma round_half_even_error (x : Q) :
  (x - (1 # 2) <= inject_Z (Py.round_half_even x))%Q
  /\ (inject_Z (Py.round_half_even x) <= x + (1 # 2))%Q.
Proof.
  unfold Py.round_half_even.
  pose proof (Qfloor_le x) as Hlo.
  pose proof (Qlt_floor x) as Hhi.
  rewrite inject_Z_plus in Hhi. change (inject_Z 1) with 1%Q in Hhi.
  destruct (Qcompare_spec (x - inject_Z (Qfloor x)) (1 # 2)) as [H | H | H];
    [destruct (Z.even _) | |];
    rewrite ?inject_Z_plus; change (inject_Z 1) with 1%Q; split; lra.
Qed.

(** ** Powers of two *)

Lemma pow2_pos (q : Z) : (0 < F64.pow2 q)%Q.
Proof. apply Qpower_0_lt. reflexivity. Qed.

Lemma pow2_plus (a b : Z) : (F64.pow2 (a + b) == F64.pow2 a * F64.pow2 b)%Q.
Proof. apply Qpower_plus. discriminate. Qed.

Lemma pow2_minus (a b : Z) : (F64.pow2 (a - b) == F64.pow2 a / F64.pow2 b)%Q.
Proof. apply Qpower_minus. discriminate. Qed.

Lemma pow2_le (a b : Z) : a <= b -> (F64.pow2 a <= F64.pow2 b)%Q.
Proof. intros H. apply Qpower_le_compat_l; [exact H | discriminate]. Qed.

Lemma pow2_lt (a b : Z) : a < b -> (F64.pow2 a < F64.pow2 b)%Q.
Proof. intros H. apply Qpower_lt_compat_l; [exact H | reflexivity]. Qed.

Lemma pow2_lt_inv (a b : Z) : (F64.pow2 a < F64.pow2 b)%Q -> a < b.
Proof. intros H. apply (Qpower_lt_compat_l_inv 2); [exact H | reflexivity]. Qed.

Lemma pow2_Z (q : Z) : 0 <= q -> (F64.pow2 q == inject_Z (2 ^ q))%Q.
Proof. intros H. unfold F64.pow2. rewrite Zpower_Qpower by exact H. reflexivity. Qed.

(** ** The exponent *)

Lemma ilog2_spec (x : Q) :
  (0 < x)%Q ->
  (F64.pow2 (F64.ilog2 x) <= x)%Q /\ (x < F64.pow2 (F64.ilog2 x + 1))%Q.
Proof.
  intros Hx. unfold F64.ilog2.
  destruct x as [n d]. cbn [Qnum Qden].
  assert (0 < n) as Hn by (unfold Qlt in Hx; cbn in Hx; lia).
  set (ln := Z.log2 n). set (ld := Z.log2 (Z.pos d)).
  pose proof (Z.log2_spec n Hn) as [Hn1 Hn2]. fold ln in Hn1, Hn2.
  pose proof (Z.log2_spec (Z.pos d) ltac:(lia)) as [Hd1 Hd2]. fold ld in Hd1, Hd2.
  assert (0 <= ln) as Hln by apply Z.log2_nonneg.
  assert (0 <= ld) as Hld by apply Z.log2_nonneg.
  assert (0 < 2 ^ ln) as Hpn by (apply Z.pow_pos_nonneg; lia).
  assert (0 < 2 ^ ld) as Hpd by (apply Z.pow_pos_nonneg; lia).
  assert (forall a b, 0 <= a -> 0 <= b ->
            (F64.pow2 (a - b) == inject_Z (2 ^ a) / inject_Z (2 ^ b))%Q) as Hfrac.
  { intros a b Ha Hb. rewrite pow2_minus, !pow2_Z by assumption. reflexivity. }
  assert (n # d == inject_Z n / inject_Z (Z.pos d))%Q as Hnd by apply Qmake_Qdiv.
  assert (0 < inject_Z (Z.pos d))%Q as HdQ by reflexivity.
  assert (forall k, 0 < k -> (0 < inject_Z k)%Q) as Hinj.
  { intros k Hk. change 0%Q with (inject_Z 0). rewrite <- Zlt_Qlt. exact Hk. }
  (* upper bound with e0 + 1, lower bound with e0 - 1 *)
  assert (n # d < F64.pow2 (ln - ld + 1))%Q as Hup.
  { replace (ln - ld + 1) with ((ln + 1) - ld) by lia.
    rewrite Hfrac by lia. rewrite Hnd.
    apply Qlt_shift_div_l; [apply Hinj; exact Hpd |].
    unfold Qdiv. rewrite <- Qmult_assoc, (Qmult_comm (/ _)), Qmult_assoc.
    apply Qlt_shift_div_r; [exact HdQ |].
    rewrite <- !inject_Z_mult, <- Zlt_Qlt.
    replace (Z.succ ln) with (ln + 1) in Hn2 by lia. nia. }
  assert (F64.pow2 (ln - ld - 1) <= n # d)%Q as Hlow.
  { replace (ln - ld - 1) with (ln - (ld + 1)) by lia.
    rewrite Hfrac by lia. rewrite Hnd.
    assert (0 < 2 ^ (ld + 1)) by (apply Z.pow_pos_nonneg; lia).
    apply Qle_shift_div_r; [apply Hinj; assumption |].
    unfold Qdiv. rewrite <- Qmult_assoc, (Qmult_comm (/ _)), Qmult_assoc.
    apply Qle_shift_div_l; [exact HdQ |].
    rewrite <- !inject_Z_mult, <- Zle_Qle.
    replace (Z.succ ld) with (ld + 1) in Hd2 by lia. nia. }
  destruct (Qle_bool (F64.pow2 (ln - ld)) (n # d)) eqn:E.
  - apply Qle_bool_iff in E. split; [exact E | exact Hup].
  - split; [exact Hlow |].
    replace (ln - ld - 1 + 1) with (ln - ld) by lia.
    apply Qnot_le_lt. intros Hle. apply Qle_bool_iff in Hle. congruence.
Qed.

Lemma ilog2_unique (x : Q) (e : Z) :
  (F64.pow2 e <= x)%Q -> (x < F64.pow2 (e + 1))%Q -> F64.ilog2 x = e.
Proof.
  intros H1 H2.
  assert (0 < x)%Q as Hx by (eapply Qlt_le_trans; [apply (pow2_pos e) | exact H1]).
  destruct (ilog2_spec x Hx) as [H3 H4].
  assert (F64.ilog2 x < e + 1).
  { apply pow2_lt_inv. eapply Qle_lt_trans; [exact H3 | exact H2]. }
  assert (e < F64.ilog2 x + 1).
  { apply pow2_lt_inv. eapply Qle_lt_trans; [exact H1 | exact H4]. }
  lia.
Qed.

Lemma ilog2_comp (x y : Q) : (0 < x)%Q -> (x == y)%Q -> F64.ilog2 x = F64.ilog2 y.
Proof.
  intros Hx Hxy. symmetry.
  destruct (ilog2_spec x Hx) as [H1 H2].
  apply ilog2_unique; rewrite <- Hxy; assumption.
Qed.

Lemma ilog2_mono (x y : Q) : (0 < x)%Q -> (x <= y)%Q -> F64.ilog2 x <= F64.ilog2 y.
Proof.
  intros Hx Hxy.
  assert (0 < y)%Q as Hy by (eapply Qlt_le_trans; eassumption).
  destruct (ilog2_spec x Hx) as [H1 _].
  destruct (ilog2_spec y Hy) as [_ H2].
  assert (F64.ilog2 x < F64.ilog2 y + 1); [| lia].
  apply pow2_lt_inv.
  eapply Qle_lt_trans; [exact H1 |]. eapply Qle_lt_trans; eassumption.
Qed.

(** ** Rounding a positive rational *)

Lemma rnd_pos_eq (x : Q) :
  F64.rnd_pos x
  = (inject_Z (Py.round_half_even (x / F64.pow2 (F64.expo x))) * F64.pow2 (F64.expo x))%Q.
Proof. reflexivity. Qed.

Lemma rnd_pos_comp (x y : Q) :
  (0 < x)%Q -> (x == y)%Q -> (F64.rnd_pos x == F64.rnd_pos y)%Q.
Proof.
  intros Hx Hxy. rewrite !rnd_pos_eq. unfold F64.expo.
  rewrite (ilog2_comp x y Hx Hxy).
  rewrite (round_half_even_comp (x / _) (y / F64.pow2 (Z.max (F64.ilog2 y - 52) (-1074)))).
  - reflexivity.
  - rewrite Hxy. reflexivity.
Qed.

Lemma rnd_pos_error (x : Q) :
  (x - F64.pow2 (F64.expo x) * (1 # 2) <= F64.rnd_pos x)%Q
  /\ (F64.rnd_pos x <= x + F64.pow2 (F64.expo x) * (1 # 2))%Q.
Proof.
  rewrite rnd_pos_eq.
  set (p := F64.pow2 (F64.expo x)).
  assert (0 < p)%Q as Hp by apply pow2_pos.
  destruct (round_half_even_error (x / p)) as [H1 H2].
  set (m := inject_Z (Py.round_half_even (x / p))) in *.
  assert (x / p * p == x)%Q as Hxp by (field; lra).
  set (z := (x / p)%Q) in *. clearbody z m.
  assert ((z - (1 # 2)) * p <= m * p)%Q as G1
    by (apply Qmult_le_compat_r; [exact H1 | lra]).
  assert (m * p <= (z + (1 # 2)) * p)%Q as G2
    by (apply Qmult_le_compat_r; [exact H2 | lra]).
  rewrite <- Hxp.
  setoid_replace ((z - (1 # 2)) * p)%Q with (z * p - p * (1 # 2))%Q
    using relation Qeq in G1 by ring.
  setoid_replace ((z + (1 # 2)) * p)%Q with (z * p + p * (1 # 2))%Q
    using relation Qeq in G2 by ring.
  split; assumption.
Qed.

Lemma rnd_pos_nonneg (x : Q) : (0 < x)%Q -> (0 <= F64.rnd_pos x)%Q.
Proof.
  intros Hx. rewrite rnd_pos_eq.
  set (p := F64.pow2 (F64.expo x)).
  assert (0 < p)%Q as Hp by apply pow2_pos.
  apply Qmult_le_0_compat; [| lra].
  change 0%Q with (inject_Z 0). rewrite <- Zle_Qle.
  rewrite <- (round_half_even_inject_Z 0). apply round_half_even_mono.
  change (inject_Z 0) with 0%Q. apply Qle_shift_div_l; [exact Hp | lra].
Qed.

Lemma rnd_pos_mono (x y : Q) :
  (0 < x)%Q -> (x <= y)%Q -> (F64.rnd_pos x <= F64.rnd_pos y)%Q.
Proof.
  intros Hx Hxy.
  assert (0 < y)%Q as Hy by (eapply Qlt_le_trans; eassumption).
  pose proof (ilog2_mono x y Hx Hxy) as He.
  rewrite !rnd_pos_eq.
  destruct (Z.eq_dec (F64.expo x) (F64.expo y)) as [Heq | Hne].
  - rewrite Heq. set (p := F64.pow2 (F64.expo y)).
    assert (0 < p)%Q as Hp by apply pow2_pos.
    apply Qmult_le_compat_r; [| lra].
    rewrite <- Zle_Qle. apply round_half_even_mono.
    apply Qmult_le_compat_r; [exact Hxy |].
    apply Qlt_le_weak, Qinv_lt_0_compat. exact Hp.
  - assert (F64.expo x < F64.expo y) as Hlt by (unfold F64.expo in *; lia).
    assert (F64.expo y = F64.ilog2 y - 52) as Hqy by (unfold F64.expo in *; lia).
    assert (F64.ilog2 x + 1 <= F64.ilog2 y) as Hex by (unfold F64.expo in *; lia).
    set (ey := F64.ilog2 y) in *.
    destruct (ilog2_spec x Hx) as [_ Hx2].
    destruct (ilog2_spec y Hy) as [Hy1 _]. fold ey in Hy1.
    apply Qle_trans with (F64.pow2 ey).
    + (* rnd_pos x <= 2^ey *)
      set (qx := F64.expo x) in *.
      assert (0 < F64.pow2 qx)%Q as Hp by apply pow2_pos.
      assert (0 <= ey - qx) as Hk by lia.
      assert (F64.pow2 ey == inject_Z (2 ^ (ey - qx)) * F64.pow2 qx)%Q as Hey.
      { rewrite <- pow2_Z by exact Hk. rewrite <- pow2_plus.
        replace (ey - qx + qx) with ey by lia. reflexivity. }
      rewrite Hey. apply Qmult_le_compat_r; [| lra].
      rewrite <- Zle_Qle.
      rewrite <- (round_half_even_inject_Z (2 ^ (ey - qx))).
      apply round_half_even_mono.
      apply Qle_shift_div_r; [exact Hp |]. rewrite <- Hey.
      apply Qlt_le_weak. eapply Qlt_le_trans; [exact Hx2 |].
      apply pow2_le. exact Hex.
    + (* 2^ey <= rnd_pos y *)
      rewrite Hqy.
      assert (0 < F64.pow2 (ey - 52))%Q as Hp by apply pow2_pos.
      assert (F64.pow2 ey == inject_Z (2 ^ 52) * F64.pow2 (ey - 52))%Q as Hey.
      { rewrite <- pow2_Z by lia. rewrite <- pow2_plus.
        replace (52 + (ey - 52)) with ey by lia. reflexivity. }
      rewrite Hey at 1. apply Qmult_le_compat_r; [| lra].
      rewrite <- Zle_Qle.
      rewrite <- (round_half_even_inject_Z (2 ^ 52)) at 1.
      apply round_half_even_mono.
      apply Qle_shift_div_l; [exact Hp |]. rewrite <- Hey. exact Hy1.
Qed.

Lemma rnd_pos_rel (x : Q) :
  (F64.pow2 (-1022) <= x)%Q ->
  (x * (1 - F64.eps) <= F64.rnd_pos x)%Q /\ (F64.rnd_pos x <= x * (1 + F64.eps))%Q.
Proof.
  intros Hx.
  assert (0 < x)%Q as Hx0 by (eapply Qlt_le_trans; [apply (pow2_pos (-1022)) | exact Hx]).
  destruct (ilog2_spec x Hx0) as [H1 H2].
  assert (-1022 <= F64.ilog2 x) as He.
  { assert (-1022 < F64.ilog2 x + 1); [| lia].
    apply pow2_lt_inv. eapply Qle_lt_trans; eassumption. }
  destruct (rnd_pos_error x) as [E1 E2].
  assert (F64.expo x = F64.ilog2 x - 52) as Hq by (unfold F64.expo; lia).
  rewrite Hq in E1, E2.
  assert (F64.pow2 (F64.ilog2 x - 52) * (1 # 2) == F64.pow2 (F64.ilog2 x) * F64.eps)%Q as Hp.
  { replace (F64.ilog2 x - 52) with (F64.ilog2 x + (-52)) by lia.
    rewrite pow2_plus. unfold F64.eps.
    assert (F64.pow2 (-52) == 1 # 4503599627370496)%Q as -> by reflexivity.
    rewrite <- Qmult_assoc. apply Qmult_comp; reflexivity. }
  rewrite Hp in E1, E2.
  assert (0 < F64.eps)%Q by reflexivity.
  split; nra.
Qed.

Lemma rnd_pos_fix (m q : Z) :
  0 < m <= 2 ^ 53 -> -1074 <= q ->
  (F64.rnd_pos (inject_Z m * F64.pow2 q) == inject_Z m * F64.pow2 q)%Q.
Proof.
  intros [Hm0 Hm1] Hq.
  set (x := (inject_Z m * F64.pow2 q)%Q).
  pose proof (Z.log2_spec m Hm0) as [Hl1 Hl2].
  set (lm := Z.log2 m) in *.
  assert (0 <= lm) as Hlm by apply Z.log2_nonneg.
  assert (0 < F64.pow2 q)%Q as Hpq by apply pow2_pos.
  assert (F64.ilog2 x = lm + q) as He.
  { apply ilog2_unique; unfold x.
    - rewrite pow2_plus, (pow2_Z lm) by exact Hlm.
      apply Qmult_le_compat_r; [rewrite <- Zle_Qle; exact Hl1 | lra].
    - replace (lm + q + 1) with (Z.succ lm + q) by lia.
      rewrite pow2_plus, (pow2_Z (Z.succ lm)) by lia.
      apply Qmult_lt_compat_r; [exact Hpq | rewrite <- Zlt_Qlt; exact Hl2]. }
  rewrite rnd_pos_eq. unfold F64.expo. rewrite He.
  set (qx := Z.max (lm + q - 52) (-1074)).
  assert (0 < F64.pow2 qx)%Q as Hpx by apply pow2_pos.
  assert (exists k, x / F64.pow2 qx == inject_Z k)%Q as [k Hk].
  { destruct (Z_le_gt_dec qx q) as [Hle | Hgt].
    - exists (m * 2 ^ (q - qx)).
      rewrite inject_Z_mult. rewrite <- (pow2_Z (q - qx)) by lia. rewrite pow2_minus.
      unfold x. field. lra.
    - assert (lm = 53) as Hlm53.
      { assert (lm <= 53); [| unfold qx in *; lia].
        pose proof (Z.log2_le_mono m (2 ^ 53) Hm1) as Hlog.
        rewrite Z.log2_pow2 in Hlog by lia. exact Hlog. }
      assert (m = 2 ^ 53) as -> by (rewrite Hlm53 in Hl1; lia).
      assert (qx = q + 1) as -> by (unfold qx; lia).
      exists (2 ^ 52). unfold x.
      rewrite pow2_plus. change (F64.pow2 1) with 2%Q.
      change (inject_Z (2 ^ 53)) with (inject_Z (2 ^ 52) * 2)%Q.
      field. lra. }
  rewrite (round_half_even_comp _ _ Hk), round_half_even_inject_Z, <- Hk.
  field. lra.
Qed.

(** ** Rounding to binary64 *)

Lemma rnd_0 : F64.rnd 0 = 0%Q.
Proof. reflexivity. Qed.

Lemma rnd_pos_case (x : Q) : (0 < x)%Q -> (F64.rnd x == F64.rnd_pos x)%Q.
Proof.
  intros H. unfold F64.rnd.
  destruct (Qcompare_spec x 0) as [E | E | E]; [lra | lra |].
  apply Qred_correct.
Qed.

Lemma rnd_neg_case (x : Q) : (x < 0)%Q -> (F64.rnd x == - F64.rnd_pos (- x))%Q.
Proof.
  intros H. unfold F64.rnd.
  destruct (Qcompare_spec x 0) as [E | E | E]; [lra | | lra].
  apply Qred_correct.
Qed.

Lemma rnd_zero_case (x : Q) : (x == 0)%Q -> (F64.rnd x == 0)%Q.
Proof.
  intros H. unfold F64.rnd.
  destruct (Qcompare_spec x 0) as [E | E | E]; [reflexivity | lra | lra].
Qed.

#[global] Instance rnd_comp : Proper (Qeq ==> Qeq) F64.rnd.
Proof.
  intros x y Hxy.
  destruct (Q_dec x 0) as [[Hx | Hx] | Hx].
  - rewrite (rnd_neg_case x Hx), (rnd_neg_case y) by lra.
    apply Qopp_comp. apply rnd_pos_comp; [lra | rewrite Hxy; reflexivity].
  - rewrite (rnd_pos_case x Hx), (rnd_pos_case y) by lra.
    apply rnd_pos_comp; assumption.
  - rewrite (rnd_zero_case x Hx), (rnd_zero_case y) by lra. reflexivity.
Qed.

Lemma rnd_opp (x : Q) : (F64.rnd (- x) == - F64.rnd x)%Q.
Proof.
  destruct (Q_dec x 0) as [[Hx | Hx] | Hx].
  - rewrite (rnd_neg_case x Hx), (rnd_pos_case (- x)) by lra. ring.
  - rewrite (rnd_pos_case x Hx), (rnd_neg_case (- x)) by lra.
    apply Qopp_comp. apply rnd_pos_comp; [lra | ring].
  - rewrite (rnd_zero_case x Hx), (rnd_zero_case (- x)) by lra. reflexivity.
Qed.

Lemma rnd_nonneg (x : Q) : (0 <= x)%Q -> (0 <= F64.rnd x)%Q.
Proof.
  intros H. destruct (Qle_lt_or_eq _ _ H) as [Hx | Hx].
  - rewrite rnd_pos_case by exact Hx. apply rnd_pos_nonneg. exact Hx.
  - rewrite rnd_zero_case by (symmetry; exact Hx). apply Qle_refl.
Qed.

Lemma rnd_mono (x y : Q) : (x <= y)%Q -> (F64.rnd x <= F64.rnd y)%Q.
Proof.
  intros Hxy.
  destruct (Q_dec x 0) as [[Hx | Hx] | Hx].
  - rewrite (rnd_neg_case x Hx).
    pose proof (rnd_pos_nonneg (- x) ltac:(lra)) as Hnx.
    destruct (Q_dec y 0) as [[Hy | Hy] | Hy].
    + rewrite (rnd_neg_case y Hy).
      pose proof (rnd_pos_mono (- y) (- x) ltac:(lra) ltac:(lra)). lra.
    + pose proof (rnd_nonneg y ltac:(lra)). lra.
    + rewrite (rnd_zero_case y Hy). lra.
  - rewrite (rnd_pos_case x Hx), (rnd_pos_case y) by lra.
    apply rnd_pos_mono; assumption.
  - rewrite (rnd_zero_case x Hx). apply rnd_nonneg. lra.
Qed.

Lemma rnd_rel (x : Q) :
  (F64.pow2 (-1022) <= x)%Q ->
  (x * (1 - F64.eps) <= F64.rnd x)%Q /\ (F64.rnd x <= x * (1 + F64.eps))%Q.
Proof.
  intros Hx.
  assert (0 < x)%Q as Hx0 by (eapply Qlt_le_trans; [apply (pow2_pos (-1022)) | exact Hx]).
  rewrite rnd_pos_case by exact Hx0. apply rnd_pos_rel. exact Hx.
Qed.

(** A number with at most 53 significant bits is its own rounding. *)
Lemma rnd_fix (m q : Z) :
  Z.abs m <= 2 ^ 53 -> -1074 <= q ->
  (F64.rnd (inject_Z m * F64.pow2 q) == inject_Z m * F64.pow2 q)%Q.
Proof.
  intros Hm Hq.
  assert (0 < F64.pow2 q)%Q as Hpq by apply pow2_pos.
  destruct (Z.lt_trichotomy m 0) as [Hneg | [-> | Hpos]].
  - assert (inject_Z m * F64.pow2 q == - (inject_Z (- m) * F64.pow2 q))%Q as ->
      by (rewrite inject_Z_opp; ring).
    rewrite rnd_opp. apply Qopp_comp.
    assert (0 < inject_Z (- m))%Q
      by (change 0%Q with (inject_Z 0); rewrite <- Zlt_Qlt; lia).
    rewrite rnd_pos_case by nra.
    apply rnd_pos_fix; lia.
  - change (inject_Z 0) with 0%Q. rewrite rnd_zero_case by ring. ring.
  - assert (0 < inject_Z m)%Q
      by (change 0%Q with (inject_Z 0); rewrite <- Zlt_Qlt; lia).
    rewrite rnd_pos_case by nra.
    apply rnd_pos_fix; lia.
Qed.

Lemma rnd_inject_Z (k : Z) :
  Z.abs k <= 2 ^ 53 -> (F64.rnd (inject_Z k) == inject_Z k)%Q.
Proof.
  intros H. pose proof (rnd_fix k 0 H ltac:(lia)) as Hf.
  change (F64.pow2 0) with 1%Q in Hf. rewrite Qmult_1_r in Hf. exact Hf.
Qed.

Lemma rnd_idem (x : Q) : (F64.rnd (F64.rnd x) == F64.rnd x)%Q.
Proof.
  assert (forall y, (0 < y)%Q ->
            F64.rnd (F64.rnd_pos y) == F64.rnd_pos y)%Q as Hpos.
  { intros y Hy. rewrite rnd_pos_eq.
    apply rnd_fix; [| unfold F64.expo; lia].
    set (p := F64.pow2 (F64.expo y)).
    assert (0 < p)%Q as Hp by apply pow2_pos.
    destruct (ilog2_spec y Hy) as [_ H2].
    assert (0 <= Py.round_half_even (y / p)) as Hm0.
    { rewrite <- (round_half_even_inject_Z 0). apply round_half_even_mono.
      change (inject_Z 0) with 0%Q. apply Qle_shift_div_l; [exact Hp | lra]. }
    assert (Py.round_half_even (y / p) <= 2 ^ 53) as Hm1.
    { rewrite <- (round_half_even_inject_Z (2 ^ 53)). apply round_half_even_mono.
      apply Qle_shift_div_r; [exact Hp |].
      rewrite <- (pow2_Z 53) by lia. unfold p. rewrite <- pow2_plus.
      apply Qlt_le_weak. eapply Qlt_le_trans; [exact H2 |].
      apply pow2_le. unfold F64.expo. lia. }
    lia. }
  destruct (Q_dec x 0) as [[Hx | Hx] | Hx].
  - rewrite (rnd_neg_case x Hx), rnd_opp. apply Qopp_comp. apply Hpos. lra.
  - rewrite (rnd_pos_case x Hx). apply Hpos. exact Hx.
  - rewrite (rnd_zero_case x Hx). reflexivity.
Qed.

(** ** The operations *)

Lemma rnd_1 : (F64.rnd 1 == 1)%Q.
Proof. reflexivity. Qed.

Lemma add_mono (a a' b b' : Q) :
  (a <= a')%Q -> (b <= b')%Q -> (F64.add a b <= F64.add a' b')%Q.
Proof.
  intros Ha Hb. unfold F64.add. apply rnd_mono.
  pose proof (rnd_mono _ _ Ha). pose proof (rnd_mono _ _ Hb). lra.
Qed.

Lemma mul_mono (a a' b b' : Q) :
  (0 <= a)%Q -> (a <= a')%Q -> (0 <= b)%Q -> (b <= b')%Q ->
  (F64.mul a b <= F64.mul a' b')%Q.
Proof.
  intros Ha0 Ha Hb0 Hb. unfold F64.mul. apply rnd_mono.
  pose proof (rnd_nonneg _ Ha0). pose proof (rnd_nonneg _ Hb0).
  pose proof (rnd_mono _ _ Ha). pose proof (rnd_mono _ _ Hb). nra.
Qed.

Lemma rnd_add (a b : Q) : (F64.rnd (F64.add a b) == F64.add a b)%Q.
Proof. apply rnd_idem. Qed.

Lemma rnd_mul (a b : Q) : (F64.rnd (F64.mul a b) == F64.mul a b)%Q.
Proof. apply rnd_idem. Qed.

Lemma rnd_sub (a b : Q) : (F64.rnd (F64.sub a b) == F64.sub a b)%Q.
Proof. apply rnd_idem. Qed.

Lemma mul_nonneg (a b : Q) :
  (0 <= F64.rnd a)%Q -> (0 <= F64.rnd b)%Q -> (0 <= F64.mul a b)%Q.
Proof.
  intros Ha Hb. unfold F64.mul. apply rnd_nonneg.
  apply Qmult_le_0_compat; assumption.
Qed.

Lemma add_nonneg (a b : Q) : (0 <= a)%Q -> (0 <= b)%Q -> (0 <= F64.add a b)%Q.
Proof.
  intros Ha Hb. unfold F64.add. apply rnd_nonneg.
  pose proof (rnd_nonneg _ Ha). pose proof (rnd_nonneg _ Hb). lra.
Qed.

Lemma pow2_min_le_1 : (F64.pow2 (-1022) <= 1)%Q.
Proof. vm_compute. discriminate. Qed.

(** The relative error of one rounding, for a number that is at least 1. *)
Lemma rnd_rel_1 (x : Q) :
  (1 <= x)%Q ->
  (x * (1 - F64.eps) <= F64.rnd x)%Q /\ (F64.rnd x <= x * (1 + F64.eps))%Q.
Proof.
  intros H. apply rnd_rel. pose proof pow2_min_le_1. lra.
Qed.

(** ** Rounding to decimals *)

Lemma round_half_even_near (k : Z) (x : Q) :
  (inject_Z k - (1 # 2) < x)%Q -> (x < inject_Z k + (1 # 2))%Q ->
  Py.round_half_even x = k.
Proof.
  intros H1 H2. unfold Py.round_half_even.
  destruct (Qlt_le_dec x (inject_Z k)) as [Hlt | Hge].
  - assert (Qfloor x = k - 1) as Hf.
    { symmetry. apply Z.le_antisymm.
      - rewrite <- (Qfloor_Z (k - 1)). apply Qfloor_resp_le.
        unfold Z.sub. rewrite inject_Z_plus, inject_Z_opp. change (inject_Z 1) with 1%Q. lra.
      - assert (Qfloor x < k); [| lia].
        rewrite Zlt_Qlt. eapply Qle_lt_trans; [apply Qfloor_le | exact Hlt]. }
    rewrite Hf.
    assert (inject_Z (k - 1) == inject_Z k - 1)%Q as Hinj.
    { unfold Z.sub. rewrite inject_Z_plus, inject_Z_opp. reflexivity. }
    destruct (Qcompare_spec (x - inject_Z (k - 1)) (1 # 2)) as [E | E | E];
      [exfalso; rewrite Hinj in E; lra | exfalso; rewrite Hinj in E; lra | lia].
  - assert (Qfloor x = k) as Hf.
    { apply Z.le_antisymm.
      - assert (Qfloor x < k + 1); [| lia].
        rewrite Zlt_Qlt. eapply Qle_lt_trans; [apply Qfloor_le |].
        rewrite inject_Z_plus. change (inject_Z 1) with 1%Q. lra.
      - rewrite <- (Qfloor_Z k). apply Qfloor_resp_le. exact Hge. }
    rewrite Hf.
    destruct (Qcompare_spec (x - inject_Z k) (1 # 2)) as [E | E | E];
      [exfalso; lra | reflexivity | exfalso; lra].
Qed.

(** A value rounded to two decimals is a whole number of hundredths. *)
Lemma round_nd_2_centavos (x : Q) :
  (Py.round_nd x 2 * 100 == inject_Z (Py.round_half_even (x * 100)))%Q.
Proof.
  unfold Py.round_nd. rewrite Qred_correct.
  change (inject_Z (10 ^ Z.of_nat 2)) with 100%Q. field.
Qed.

(** The order amount: the double sum of a price times a quantity and a
    cost, all within the ranges of the generator, rounds to the exact sum
    of the two-decimal values. *)
Lemma total_exacto (p c x y : Q) (q : Z) :
  p = Py.round_nd x 2 -> c = Py.round_nd y 2 ->
  (50 <= p)%Q -> (p <= 35000)%Q -> (72 <= c)%Q -> (c <= 1782)%Q ->
  1 <= q <= 10 ->
  Py.round_nd (F64.add (F64.mul p (inject_Z q)) c) 2
  = Py.round_nd (p * inject_Z q + c) 2.
Proof.
  intros Hp Hc Hp1 Hp2 Hc1 Hc2 [Hq1 Hq2].
  pose proof (round_nd_2_centavos x) as Hzp. rewrite <- Hp in Hzp.
  pose proof (round_nd_2_centavos y) as Hzc. rewrite <- Hc in Hzc.
  set (zp := Py.round_half_even (x * 100)) in *.
  set (zc := Py.round_half_even (y * 100)) in *.
  clearbody zp zc. clear Hp Hc x y.
  assert (0 < F64.eps)%Q as He by reflexivity.
  assert (F64.eps <= 1 # 1000000000000000)%Q as He' by (vm_compute; discriminate).
  assert (F64.rnd (inject_Z q) == inject_Z q)%Q as Hrq by (apply rnd_inject_Z; lia).
  rewrite Zle_Qle in Hq1, Hq2.
  change (inject_Z 1) with 1%Q in Hq1. change (inject_Z 10) with 10%Q in Hq2.
  assert (F64.add (F64.mul p (inject_Z q)) c
          == F64.rnd (F64.rnd (F64.rnd p * inject_Z q) + F64.rnd c))%Q as HS.
  { unfold F64.add, F64.mul. rewrite Hrq, rnd_idem. reflexivity. }
  set (qq := inject_Z q) in *.
  (* the three roundings *)
  destruct (rnd_rel_1 p ltac:(lra)) as [P1 P2].
  set (p1 := F64.rnd p) in *.
  assert (1 <= p1 * qq)%Q as Hy1 by nra.
  assert (p1 * qq <= 350001)%Q as Hy2 by nra.
  destruct (rnd_rel_1 (p1 * qq) Hy1) as [M1 M2].
  destruct (rnd_rel_1 c ltac:(lra)) as [C1 C2].
  set (c1 := F64.rnd c) in *.
  set (m := F64.rnd (p1 * qq)) in *.
  assert (1 <= m + c1)%Q as Hz1 by nra.
  destruct (rnd_rel_1 (m + c1) Hz1) as [S1 S2].
  set (s := F64.rnd (m + c1)) in *.
  assert (p * qq + c - (1 # 1000) < s)%Q as B1 by nra.
  assert (s < p * qq + c + (1 # 1000))%Q as B2 by nra.
  assert ((p * qq + c) * 100 == inject_Z (zp * q + zc))%Q as HT.
  { rewrite inject_Z_plus, inject_Z_mult, <- Hzp, <- Hzc. fold qq. ring. }
  unfold Py.round_nd. change (inject_Z (10 ^ Z.of_nat 2)) with 100%Q.
  rewrite (round_half_even_comp _ _ HT), round_half_even_inject_Z.
  rewrite (round_half_even_near (zp * q + zc)); [reflexivity | |];
    rewrite <- HT, HS; lra.
Qed.

(** The shipping cost before its rounding to two decimals, evaluated as the
    program does, lies between its values at the ends of every range. *)
Lemma costo_rango (base : Z) (peso ad ae v : Q) :
  80 <= base <= 180 ->
  (1 # 10 <= peso)%Q -> (peso <= 15)%Q ->
  (1 <= ad)%Q -> (ad <= 2)%Q -> (1 <= ae)%Q -> (ae <= 2)%Q ->
  (F64.rnd (9 # 10) <= v)%Q -> (v <= F64.rnd (11 # 10))%Q ->
  (72 <= Py.round_nd
           (F64.mul (F64.mul (F64.mul (F64.add (inject_Z base) (F64.mul peso 15)) ad)
                             ae) v) 2)%Q
  /\ (Py.round_nd
        (F64.mul (F64.mul (F64.mul (F64.add (inject_Z base) (F64.mul peso 15)) ad)
                          ae) v) 2 <= 1782)%Q.
Proof.
  intros [Hb1 Hb2] Hw1 Hw2 Hd1 Hd2 He1 He2 Hv1 Hv2.
  rewrite Zle_Qle in Hb1, Hb2.
  change (inject_Z 80) with 80%Q in Hb1. change (inject_Z 180) with 180%Q in Hb2.
  assert (9 # 10 <= F64.rnd (9 # 10))%Q as H09 by (vm_compute; discriminate).
  set (A := F64.mul peso 15).
  assert (F64.mul (1 # 10) 15 <= A)%Q as A1 by (apply mul_mono; lra).
  assert (A <= F64.mul 15 15)%Q as A2 by (apply mul_mono; lra).
  assert (0 <= F64.mul (1 # 10) 15)%Q as A0 by (vm_compute; discriminate).
  set (B := F64.add (inject_Z base) A).
  assert (F64.add 80 (F64.mul (1 # 10) 15) <= B)%Q as B1 by (apply add_mono; lra).
  assert (B <= F64.add 180 (F64.mul 15 15))%Q as B2 by (apply add_mono; lra).
  assert (0 <= F64.add 80 (F64.mul (1 # 10) 15))%Q as B0 by (vm_compute; discriminate).
  set (C := F64.mul B ad).
  assert (F64.mul (F64.add 80 (F64.mul (1 # 10) 15)) 1 <= C)%Q as C1
    by (apply mul_mono; lra).
  assert (C <= F64.mul (F64.add 180 (F64.mul 15 15)) 2)%Q as C2
    by (apply mul_mono; lra).
  assert (0 <= F64.mul (F64.add 80 (F64.mul (1 # 10) 15)) 1)%Q as C0
    by (vm_compute; discriminate).
  set (D := F64.mul C ae).
  assert (F64.mul (F64.mul (F64.add 80 (F64.mul (1 # 10) 15)) 1) 1 <= D)%Q as D1
    by (apply mul_mono; lra).
  assert (D <= F64.mul (F64.mul (F64.add 180 (F64.mul 15 15)) 2) 2)%Q as D2
    by (apply mul_mono; lra).
  assert (0 <= F64.mul (F64.mul (F64.add 80 (F64.mul (1 # 10) 15)) 1) 1)%Q as D0
    by (vm_compute; discriminate).
  split.
  - eapply Qle_trans; [| apply round_nd_mono; apply mul_mono;
                         [exact D0 | exact D1 | | exact Hv1]];
      vm_compute; discriminate.
  - eapply Qle_trans; [apply round_nd_mono; apply mul_mono;
                       [lra | exact D2 | lra | exact Hv2] |].
    vm_compute. discriminate.
Qed.

Lemma Qltb_true (x y : Q) : Qltb x y = true <-> (x < y)%Q.
Proof.
  unfold Qltb. rewrite negb_true_iff.
  split.
  - intros H. apply Qnot_le_lt. intros Hle.
    apply Qle_bool_iff in Hle. congruence.
  - intros H. destruct (Qle_bool y x) eqn:E; [| reflexivity].
    apply Qle_bool_iff in E. exfalso. apply (Qlt_not_le _ _ H E).
Qed.

(** ** The draws *)

Lemma sale_np_next e : sale e Np.next (fun _ => True).
Proof. intros st. eexists _, _. split; [reflexivity |]. cbn. auto. Qed.

Lemma sale_np_random e :
  sale e Np.random (fun u => (0 <= u)%Q /\ (u < 1)%Q).
Proof.
  unfold Np.random. eapply sale_bind; [apply sale_np_next |].
  intros x _. apply sale_ret. apply frac_range.
Qed.

(** [low + (high - low) * u] in doubles, for [u] in [0, 1): a double
    between the double [low] and the double sum [low + (high - low)]. *)
Lemma uniform_range (lo hi u : Q) :
  (lo <= hi)%Q -> (0 <= u)%Q -> (u < 1)%Q ->
  (F64.rnd lo <= F64.add lo (F64.mul (F64.sub hi lo) u))%Q
  /\ (F64.add lo (F64.mul (F64.sub hi lo) u) <= F64.add lo (F64.sub hi lo))%Q
  /\ (F64.rnd (F64.add lo (F64.mul (F64.sub hi lo) u))
      == F64.add lo (F64.mul (F64.sub hi lo) u))%Q.
Proof.
  intros Hle Hu0 Hu1.
  pose proof (rnd_mono lo hi Hle) as Hlh.
  assert (0 <= F64.rnd (F64.sub hi lo))%Q as Hs.
  { apply rnd_nonneg. unfold F64.sub. apply rnd_nonneg. lra. }
  assert (0 <= F64.rnd u)%Q as Hru0 by (apply rnd_nonneg; exact Hu0).
  assert (F64.rnd u <= 1)%Q as Hru1.
  { rewrite <- rnd_1. apply rnd_mono. lra. }
  assert (0 <= F64.mul (F64.sub hi lo) u)%Q as Hm0
    by (apply mul_nonneg; assumption).
  assert (F64.mul (F64.sub hi lo) u <= F64.rnd (F64.sub hi lo))%Q as Hm1.
  { unfold F64.mul. rewrite <- (rnd_idem (F64.sub hi lo)) at 2.
    apply rnd_mono. nra. }
  split; [| split; [| apply rnd_add]].
  - unfold F64.add. rewrite <- (rnd_idem lo) at 1. apply rnd_mono.
    pose proof (rnd_nonneg _ Hm0). lra.
  - unfold F64.add. apply rnd_mono.
    pose proof (rnd_mono _ _ Hm1) as H. rewrite rnd_idem in H. lra.
Qed.

Lemma sale_np_uniform e (lo hi : Q) :
  (lo <= hi)%Q ->
  sale e (Np.uniform lo hi)
       (fun x => (F64.rnd lo <= x)%Q
                 /\ (x <= F64.add lo (F64.sub hi lo))%Q
                 /\ (F64.rnd x == x)%Q).
Proof.
  intros Hle. unfold Np.uniform.
  eapply sale_bind; [apply sale_np_random |].
  intros u [H0 H1]. apply sale_ret. apply uniform_range; assumption.
Qed.

(** Between integer bounds the sum [low + (high - low)] is [high]. *)
Lemma uniform_upper_Z (lo hi : Z) :
  Z.abs lo <= 2 ^ 52 -> Z.abs hi <= 2 ^ 52 ->
  (F64.add (inject_Z lo) (F64.sub (inject_Z hi) (inject_Z lo)) == inject_Z hi)%Q.
Proof.
  intros Hlo Hhi. unfold F64.add, F64.sub.
  rewrite (rnd_inject_Z lo), (rnd_inject_Z hi) by lia.
  assert (inject_Z hi - inject_Z lo == inject_Z (hi - lo))%Q as ->.
  { unfold Zminus. rewrite inject_Z_plus, inject_Z_opp. reflexivity. }
  rewrite rnd_idem, (rnd_inject_Z (hi - lo)) by lia.
  rewrite <- inject_Z_plus. replace (lo + (hi - lo)) with hi by lia.
  apply rnd_inject_Z. lia.
Qed.

Lemma sale_np_normal e (mu sigma : Q) : sale e (Np.normal mu sigma) (fun _ => True).
Proof.
  unfold Np.normal. eapply sale_bind; [apply sale_np_next |].
  intros x _. apply sale_ret. exact I.
Qed.

Lemma sale_np_exponential e (scale : Q) :
  (0 <= scale)%Q -> sale e (Np.exponential scale) (fun x => (0 <= x)%Q).
Proof.
  intros Hs. unfold Np.exponential. eapply sale_bind; [apply sale_np_next |].
  intros x _. apply sale_ret.
  apply mul_nonneg; apply rnd_nonneg; [exact Hs | apply Qabs_nonneg].
Qed.

Lemma sale_np_poisson e (lam : Q) : sale e (Np.poisson lam) (fun n => 0 <= n).
Proof.
  unfold Np.poisson. eapply sale_bind; [apply sale_np_next |].
  intros x _. apply sale_ret. apply Z.abs_nonneg.
Qed.

Lemma sale_np_randint e (lo hi : Z) :
  lo < hi -> sale e (Np.randint lo hi) (fun n => lo <= n < hi).
Proof.
  intros Hlt. unfold Np.randint.
  destruct (lo <? hi) eqn:E; [| apply Z.ltb_ge in E; lia].
  eapply sale_bind; [apply sale_np_next |].
  intros x _. apply sale_ret.
  pose proof (Z.mod_pos_bound (Qfloor x) (hi - lo)). lia.
Qed.

Lemma sale_np_choice {A} e (a : list A) :
  a <> [] -> sale e (Np.choice a) (fun x => x ∈ a).
Proof.
  intros Hne. unfold Np.choice.
  eapply sale_bind.
  - apply sale_np_randint. destruct a; [congruence | cbn [length]; lia].
  - intros j Hj. cbn beta in Hj.
    destruct (lookup_lt_is_Some_2 a (Z.to_nat j)) as [x Hx]; [lia |].
    eapply sale_lift; [exact Hx |].
    apply list_elem_of_lookup. eauto.
Qed.

Lemma searchsorted_right_lt (p : list Q) (acc u : Q) :
  (acc <= u)%Q -> (u < acc + Np.Qsum p)%Q ->
  (Np.searchsorted_right (Np.cumsum acc p) u < length p)%nat.
Proof.
  revert acc. induction p as [| x rest IH]; intros acc Hlo Hhi.
  - unfold Np.Qsum in Hhi. cbn [fold_right] in Hhi. lra.
  - cbn [Np.cumsum Np.searchsorted_right length].
    destruct (Qle_bool (acc + x) u) eqn:E; [| lia].
    apply Qle_bool_iff in E.
    apply -> Nat.succ_lt_mono. apply IH; [exact E |].
    unfold Np.Qsum in *. cbn [fold_right] in Hhi. lra.
Qed.

Lemma sale_np_choice_p {A} e (a : list A) (p : list Q) :
  length a = length p ->
  forallb (Qle_bool 0) p = true ->
  Qeq_bool (Np.Qsum p) 1 = true ->
  sale e (Np.choice_p a p) (fun x => x ∈ a).
Proof.
  intros Hlen Hpos Hsum. unfold Np.choice_p.
  rewrite Hlen, Nat.eqb_refl, Hpos, Hsum. cbn [negb].
  eapply sale_bind; [apply sale_np_random |].
  intros u [H0 H1].
  apply Qeq_bool_iff in Hsum.
  assert (Np.searchsorted_right (Np.cumsum 0 p) u < length a)%nat as Hlt.
  { rewrite Hlen. apply searchsorted_right_lt; [exact H0 |]. rewrite Hsum. lra. }
  destruct (lookup_lt_is_Some_2 a _ Hlt) as [x Hx].
  eapply sale_lift; [exact Hx |].
  apply list_elem_of_lookup. eauto.
Qed.

Lemma sale_draw_without_replacement {A} e (size : nat) :
  forall pool : list A,
    (size <= length pool)%nat ->
    sale e (Np.draw_without_replacement pool size)
         (fun xs => length xs = size /\ exists resto, pool ≡ₚ xs ++ resto).
Proof.
  induction size as [| size IH]; intros pool Hle.
  - apply sale_ret. split; [reflexivity |]. exists pool. reflexivity.
  - cbn [Np.draw_without_replacement].
    eapply sale_bind.
    { apply sale_np_randint. lia. }
    intros j Hj. cbn beta in Hj.
    destruct (lookup_lt_is_Some_2 pool (Z.to_nat j)) as [x Hx]; [lia |].
    apply sale_bind with (P := fun y => y = x);
      [eapply sale_lift; [exact Hx | reflexivity] |].
    intros x' ->.
    eapply sale_bind.
    { apply IH. rewrite length_delete; [lia | eauto]. }
    intros rest [Hlen [resto Hperm]].
    apply sale_ret. split; [cbn; lia |].
    exists resto. rewrite (delete_Permutation pool _ _ Hx).
    cbn. rewrite Hperm. reflexivity.
Qed.

Lemma sale_np_choice_no_replace {A} e (a : list A) (size : Z) :
  0 <= size <= Z.of_nat (length a) ->
  sale e (Np.choice_no_replace a size)
       (fun xs => length xs = Z.to_nat size /\ exists resto, a ≡ₚ xs ++ resto).
Proof.
  intros [H0 H1]. unfold Np.choice_no_replace.
  destruct (size <? 0) eqn:E0; [apply Z.ltb_lt in E0; lia |].
  destruct (_ <? size) eqn:E1; [apply Z.ltb_lt in E1; lia |].
  apply sale_draw_without_replacement. lia.
Qed.

Lemma sale_fk_random_int e (lo hi : Z) :
  lo <= hi -> sale e (Fk.random_int lo hi) (fun n => lo <= n <= hi).
Proof.
  intros Hle. unfold Fk.random_int.
  destruct (lo <=? hi) eqn:E; [| apply Z.leb_gt in E; lia].
  apply sale_bind with (P := fun _ => True).
  - intros st. eexists _, _. split; [reflexivity |]. cbn. auto.
  - intros x _. apply sale_ret.
    pose proof (Z.mod_pos_bound x (hi - lo + 1)). lia.
Qed.

Lemma sale_date_time_between_last_year e :
  sale e Fk.date_time_between_last_year
       (fun t => exists k, reloj e k - Fk.un_anio <= t <= reloj e k).
Proof.
  unfold Fk.date_time_between_last_year.
  intros st. apply wp_bind.
  eexists _, _. split; [reflexivity |].
  eapply wp_mono.
  - apply sale_fk_random_int. unfold Fk.un_anio. lia.
  - cbn. intros t st' (Ht & Ho & Ha). split; [eauto | auto].
Qed.

(** ** The reference tables *)

(** Case analysis on membership in a literal list. *)
Ltac casos H :=
  repeat (apply elem_of_cons in H as [-> | H]);
  [.. | apply elem_of_nil in H; destruct H].

Lemma transportistas_total (t : string) :
  t ∈ dict_keys transportistas ->
  exists info, dict_get transportistas t = Some info.
Proof.
  intros H. unfold dict_keys, transportistas in H. cbn [map fst] in H.
  casos H; eexists; reflexivity.
Qed.

Lemma tiempos_base_total (t tipo : string) :
  t ∈ dict_keys transportistas -> tipo ∈ tipos_distancia ->
  exists por_tipo base,
    dict_get tiempos_base t = Some por_tipo
    /\ dict_get por_tipo tipo = Some base /\ 1 <= base.
Proof.
  intros H Htipo. unfold dict_keys, transportistas in H. cbn [map fst] in H.
  unfold tipos_distancia in Htipo.
  casos H; casos Htipo; eexists _, _; (split; [reflexivity |]);
    (split; [reflexivity | lia]).
Qed.

Lemma categorias_total (c : string) :
  c ∈ dict_keys categorias ->
  exists info,
    dict_get categorias c = Some info
    /\ 50 <= precio_min info /\ precio_min info <= precio_max info.
Proof.
  intros H. unfold dict_keys, categorias in H. cbn [map fst] in H.
  casos H; eexists; (split; [reflexivity | cbn; lia]).
Qed.

Lemma categorias_precio_max (c : string) (info : categoria_info) :
  dict_get categorias c = Some info -> precio_max info <= 35000.
Proof.
  intros H. unfold categorias in H. cbn [dict_get] in H.
  repeat (destruct (String.eqb c _); [injection H as <-; cbn; lia |]).
  discriminate.
Qed.

Lemma transportistas_costo_base (t : string) (info : transportista_info) :
  dict_get transportistas t = Some info -> 80 <= costo_base info <= 180.
Proof.
  intros H. unfold transportistas in H. cbn [dict_get] in H.
  repeat (destruct (String.eqb t _); [injection H as <-; cbn; lia |]).
  discriminate.
Qed.

Lemma tipo_envio_de_tipo (origen destino : string) :
  tipo_envio_de origen destino ∈ tipos_distancia.
Proof.
  unfold tipo_envio_de, tipos_distancia.
  destruct (String.eqb origen destino); [repeat constructor |].
  destruct (String.eqb _ _); repeat constructor.
Qed.

(** ** The steps of the synthesizer *)

Lemma sale__get_random_transportista e :
  sale e _get_random_transportista (fun t => t ∈ dict_keys transportistas).
Proof. apply sale_np_choice_p; reflexivity. Qed.

Lemma sale__get_random_categoria e :
  sale e _get_random_categoria (fun c => c ∈ dict_keys categorias).
Proof. apply sale_np_choice_p; reflexivity. Qed.

Lemma sale__calcular_tiempo_entrega e transportista origen destino alta :
  transportista ∈ dict_keys transportistas ->
  sale e (_calcular_tiempo_entrega transportista origen destino alta)
       (fun t => 1 <= t).
Proof.
  intros Ht. unfold _calcular_tiempo_entrega.
  destruct (tiempos_base_total transportista (tipo_envio_de origen destino) Ht
              (tipo_envio_de_tipo origen destino))
    as (por_tipo & base & H1 & H2 & _).
  apply sale_bind with (P := fun x => x = por_tipo);
    [eapply sale_lift; [exact H1 | reflexivity] |].
  intros ? ->.
  apply sale_bind with (P := fun x => x = base);
    [eapply sale_lift; [exact H2 | reflexivity] |].
  intros ? ->.
  eapply sale_bind; [apply sale_np_normal |]. intros variabilidad _.
  apply sale_bind with (P := fun _ => True).
  { destruct alta.
    - eapply sale_mono; [apply sale_np_uniform; lra | auto].
    - apply sale_ret. exact I. }
  intros impacto _. apply sale_ret. lia.
Qed.

Lemma sale__generar_fechas_realistas e transportista estado_destino :
  transportista ∈ dict_keys transportistas ->
  sale e (_generar_fechas_realistas transportista estado_destino)
       (fun f =>
          (exists k, reloj e k - Fk.un_anio <= f_order_date f <= reloj e k)
          /\ 1 <= f_processing_days f <= 3
          /\ f_shipped_date f = f_order_date f + Py.timedelta (f_processing_days f)
          /\ 0 <= f_delivery_days f
          /\ f_delivered_date f
             = f_shipped_date f + Py.timedelta (Z.max 1 (f_delivery_days f))).
Proof.
  intros Ht. unfold _generar_fechas_realistas.
  eapply sale_bind; [apply sale_date_time_between_last_year |].
  intros fecha_pedido Hfecha.
  eapply sale_bind; [apply sale_np_choice_p; reflexivity |].
  intros dias_procesamiento Hdias.
  eapply sale_bind; [apply sale__calcular_tiempo_entrega; exact Ht |].
  intros dias0 Hdias0.
  eapply sale_bind; [apply sale_np_randint; lia |].
  intros ajuste Hajuste.
  apply sale_ret. cbn [f_order_date f_processing_days f_shipped_date
                       f_delivery_days f_delivered_date].
  cbn beta in *.
  repeat split; try lia; try exact Hfecha; casos Hdias; lia.
Qed.

Lemma int_of_float_nonneg (x : Q) : (0 <= x)%Q -> 0 <= Py.int_of_float x.
Proof.
  intros H. unfold Py.int_of_float.
  destruct (Qlt_le_dec x 0) as [Hneg | _]; [lra |].
  change 0 with (Qfloor 0). apply Qfloor_resp_le. exact H.
Qed.

Lemma sale__generar_datos_cliente e :
  sale e _generar_datos_cliente
       (fun c => 0 <= c_customer_loyalty_months c <= 60
                 /\ 0 <= c_purchase_frequency c).
Proof.
  unfold _generar_datos_cliente.
  eapply sale_bind; [apply sale_np_choice_p; reflexivity |].
  intros edad _.
  eapply sale_bind; [apply sale_np_exponential; lra |].
  intros lealtad Hl.
  eapply sale_bind; [apply sale_np_poisson |].
  intros frecuencia Hf.
  apply sale_ret. cbn [c_customer_loyalty_months c_purchase_frequency].
  pose proof (int_of_float_nonneg lealtad Hl). cbn beta in *. lia.
Qed.

Lemma sale__generar_datos_producto_rango e categoria :
  categoria ∈ dict_keys categorias ->
  sale e (_generar_datos_producto categoria)
       (fun p =>
          exists info,
            dict_get categorias categoria = Some info
            /\ (inject_Z (precio_min info) <= p_product_price_mxn p)%Q
            /\ (p_product_price_mxn p <= inject_Z (precio_max info))%Q
            /\ (fst (rango_peso categoria) <= p_product_weight_kg p)%Q
            /\ (p_product_weight_kg p <= snd (rango_peso categoria))%Q
            /\ 1 <= p_quantity p <= 10
            /\ exists x, p_product_price_mxn p = Py.round_nd x 2).
Proof.
  intros Hc. unfold _generar_datos_producto.
  destruct (categorias_total categoria Hc) as (info & Hinfo & Hmin & Hle).
  pose proof (categorias_precio_max _ _ Hinfo) as Hmax.
  apply sale_bind with (P := fun x => x = info);
    [eapply sale_lift; [exact Hinfo | reflexivity] |].
  intros ? ->.
  eapply sale_bind.
  { apply sale_np_uniform. rewrite <- Zle_Qle. exact Hle. }
  intros precio (Hplo & Hphi & _).
  rewrite rnd_inject_Z in Hplo by lia.
  rewrite uniform_upper_Z in Hphi by lia.
  apply sale_bind with
    (P := fun peso => (fst (rango_peso categoria) <= Py.round_nd peso 2)%Q
                      /\ (Py.round_nd peso 2 <= snd (rango_peso categoria))%Q).
  { unfold rango_peso.
    repeat (destruct (String.eqb categoria _));
      cbn [fst snd];
      (eapply sale_mono; [apply sale_np_uniform; lra |]);
      intros peso (Hlo & Hhi & _); cbn beta;
      (split;
       [eapply Qle_trans; [| apply round_nd_mono; exact Hlo]
       | eapply Qle_trans; [apply round_nd_mono; exact Hhi |]]);
      vm_compute; discriminate. }
  intros peso [Hwlo Hwhi].
  eapply sale_bind; [apply sale_np_random |]. intros u _.
  apply sale_bind with (P := fun n => 1 <= n <= 10).
  { destruct (Qltb u _);
      (eapply sale_mono; [apply sale_np_randint; lia | cbn beta; intros; lia]). }
  intros cantidad Hq.
  apply sale_ret. cbn [p_product_price_mxn p_product_weight_kg p_quantity].
  exists info. split; [exact Hinfo |].
  split; [apply round_nd_ge; exact Hplo |].
  split; [apply round_nd_le_Z; exact Hphi |].
  split; [exact Hwlo |]. split; [exact Hwhi |].
  split; [exact Hq | exists precio; reflexivity].
Qed.

Lemma rango_peso_cotas (categoria : string) :
  (1 # 10 <= fst (rango_peso categoria))%Q /\ (snd (rango_peso categoria) <= 15)%Q.
Proof.
  unfold rango_peso.
  repeat (destruct (String.eqb categoria _)); cbn [fst snd]; split; lra.
Qed.

Lemma sale__generar_datos_producto e categoria :
  categoria ∈ dict_keys categorias ->
  sale e (_generar_datos_producto categoria)
       (fun p => (50 <= p_product_price_mxn p)%Q
                 /\ (p_product_price_mxn p <= 35000)%Q
                 /\ (1 # 10 <= p_product_weight_kg p)%Q
                 /\ (p_product_weight_kg p <= 15)%Q
                 /\ 1 <= p_quantity p <= 10
                 /\ exists x, p_product_price_mxn p = Py.round_nd x 2).
Proof.
  intros Hc.
  eapply sale_mono; [apply sale__generar_datos_producto_rango; exact Hc |].
  intros p (info & Hinfo & Hplo & Hphi & Hwlo & Hwhi & Hq & Hdec). cbn beta.
  destruct (categorias_total categoria Hc) as (info' & Hinfo' & Hmin & _).
  rewrite Hinfo in Hinfo'. injection Hinfo' as <-.
  pose proof (categorias_precio_max _ _ Hinfo) as Hmax.
  destruct (rango_peso_cotas categoria) as [Hr1 Hr2].
  rewrite Zle_Qle in Hmin, Hmax.
  change (inject_Z 50) with 50%Q in Hmin.
  change (inject_Z 35000) with 35000%Q in Hmax.
  repeat split; try lra; try lia. exact Hdec.
Qed.

Lemma sale__generar_datos_pago e monto_total :
  sale e (_generar_datos_pago monto_total) (fun _ => True).
Proof.
  unfold _generar_datos_pago.
  eapply sale_bind; [apply sale_np_choice_p; reflexivity |].
  intros metodo _.
  eapply sale_bind; [apply sale_np_random |]. intros u _.
  apply sale_bind with (P := fun _ => True).
  { destruct (Qltb u _); [apply sale_ret; exact I |].
    eapply sale_bind; [apply sale_np_random |]. intros u2 _.
    destruct (Qltb u2 _); apply sale_ret; exact I. }
  intros status _.
  apply sale_bind with (P := fun _ => True).
  { destruct (_ && _).
    - eapply sale_mono; [apply sale_np_choice_p; reflexivity | auto].
    - apply sale_ret. exact I. }
  intros msi _. apply sale_ret. exact I.
Qed.

Lemma sale__calcular_costo_envio e transportista peso distancia es_express :
  transportista ∈ dict_keys transportistas ->
  sale e (_calcular_costo_envio transportista peso distancia es_express)
       (fun c =>
          exists info variacion,
            dict_get transportistas transportista = Some info
            /\ (F64.rnd (9 # 10) <= variacion)%Q
            /\ (variacion <= F64.rnd (11 # 10))%Q
            /\ (F64.rnd variacion == variacion)%Q
            /\ c = Py.round_nd
                     (F64.mul
                        (F64.mul
                           (F64.mul (F64.add (inject_Z (costo_base info))
                                             (F64.mul peso 15))
                                    (ajuste_distancia distancia))
                           (ajuste_express es_express))
                        variacion) 2).
Proof.
  intros Ht. unfold _calcular_costo_envio.
  destruct (transportistas_total transportista Ht) as (info & Hinfo).
  apply sale_bind with (P := fun x => x = info);
    [eapply sale_lift; [exact Hinfo | reflexivity] |].
  intros ? ->.
  eapply sale_bind; [apply sale_np_uniform; lra |].
  intros variacion (Hlo & Hhi & Hdoble).
  apply sale_ret. exists info, variacion.
  split; [exact Hinfo |]. split; [exact Hlo |].
  split; [| split; [exact Hdoble | reflexivity]].
  eapply Qle_trans; [exact Hhi |]. vm_compute. discriminate.
Qed.

(** ** One record *)

Lemma ajuste_distancia_rango (distancia : string) :
  (1 <= ajuste_distancia distancia)%Q /\ (ajuste_distancia distancia <= 2)%Q.
Proof.
  unfold ajuste_distancia.
  repeat (destruct (String.eqb distancia _)); split; lra.
Qed.

Lemma ajuste_express_rango (es_express : bool) :
  (1 <= ajuste_express es_express)%Q /\ (ajuste_express es_express <= 2)%Q.
Proof. destruct es_express; cbn; split; lra. Qed.

Lemma tier_express (es_express : bool) :
  String.eqb (if es_express then "Express" else "Estándar") "Express" = es_express.
Proof. destruct es_express; reflexivity. Qed.

Lemma price_nonzero (p : Q) : (50 <= p)%Q -> Qeq_bool p 0 = false.
Proof.
  intros H. destruct (Qeq_bool p 0) eqn:E; [| reflexivity].
  apply Qeq_bool_iff in E. lra.
Qed.

Lemma sale_generar_registro e (i : nat) :
  sale e (generar_registro i) (registro_limpio e i).
Proof.
  unfold generar_registro.
  eapply sale_bind; [apply sale_fk_random_int; lia |].
  intros cust _.
  eapply sale_bind; [apply sale__generar_datos_cliente |].
  intros datos_cliente [Hlealtad Hfrecuencia].
  eapply sale_bind; [apply sale_np_choice; discriminate |].
  intros estado_cliente Hestado.
  eapply sale_bind; [apply sale__get_random_categoria |].
  intros categoria Hcategoria.
  eapply sale_bind; [apply sale__generar_datos_producto; exact Hcategoria |].
  intros datos_producto (Hprecio & Hprecio_max & Hpeso1 & Hpeso2 & Hcantidad & Hcent).
  eapply sale_bind; [apply sale__get_random_transportista |].
  intros transportista Htransportista.
  eapply sale_bind; [apply sale_np_random |].
  intros u _.
  eapply sale_bind;
    [apply sale__generar_fechas_realistas; exact Htransportista |].
  intros fechas (Hpedido & Hproc & Henvio & Hdias & Hentrega).
  apply sale_bind with
    (P := fun dt : Z * string =>
            0 <= fst dt < 1500
            /\ snd dt
               = (if String.eqb estado_cliente "Ciudad de México" then "local"
                  else if String.eqb (_get_region_from_estado estado_cliente) "Centro"
                       then "regional" else "nacional")).
  { destruct (String.eqb estado_cliente _);
      [| destruct (String.eqb (_get_region_from_estado estado_cliente) _)];
      (eapply sale_bind; [apply sale_np_randint; lia |]);
      intros d Hd; apply sale_ret; cbn [fst snd]; cbn beta in Hd;
      (split; [lia | reflexivity]). }
  intros [distancia_km_ tipo_distancia] [Hdist Htipo]. cbn [fst snd] in Hdist, Htipo.
  assert (tipo_distancia ∈ tipos_distancia) as Htipo_in.
  { rewrite Htipo. unfold tipos_distancia.
    destruct (String.eqb estado_cliente _); [repeat constructor |].
    destruct (String.eqb _ _); repeat constructor. }
  eapply sale_bind; [apply sale__calcular_costo_envio; exact Htransportista |].
  intros costo_envio (info & variacion & Hinfo & Hvlo & Hvhi & Hvd & Hcosto).
  destruct (costo_rango (costo_base info) (p_product_weight_kg datos_producto)
              (ajuste_distancia tipo_distancia)
              (ajuste_express (Qltb u (15 # 100))) variacion
              (transportistas_costo_base _ _ Hinfo) Hpeso1 Hpeso2
              (proj1 (ajuste_distancia_rango _)) (proj2 (ajuste_distancia_rango _))
              (proj1 (ajuste_express_rango _)) (proj2 (ajuste_express_rango _))
              Hvlo Hvhi) as [Hcosto1 Hcosto2].
  rewrite <- Hcosto in Hcosto1, Hcosto2.
  eapply sale_bind; [apply sale__generar_datos_pago |].
  intros datos_pago _.
  eapply sale_bind; [apply sale_np_choice_p; reflexivity |].
  intros canal_venta _.
  destruct (tiempos_base_total transportista tipo_distancia Htransportista Htipo_in)
    as (por_tipo & base & Hpt & Hbase & _).
  apply sale_bind with (P := fun x => x = por_tipo);
    [eapply sale_lift; [exact Hpt | reflexivity] |].
  intros ? ->.
  apply sale_bind with (P := fun x => x = base);
    [eapply sale_lift; [exact Hbase | reflexivity] |].
  intros ? ->.
  eapply sale_bind; [apply sale_np_randint; lia |].
  intros jitter Hjitter.
  apply sale_bind with (P := fun _ => True).
  { destruct (2 <? _);
      (eapply sale_mono; [apply sale_np_choice_p; reflexivity | auto]). }
  intros problema_entrega _.
  eapply sale_bind; [apply sale_np_random |].
  intros u_urbano _.
  rewrite (price_nonzero _ Hprecio).
  apply sale_ret.
  constructor; cbn [order_id order_date processing_days shipped_date
                    delivery_days delivered_date customer_state customer_region
                    shipping_carrier shipping_tier shipping_type
                    promised_delivery_days actual_delivery_days
                    delivery_delay_days delivery_met_promise product_price_mxn
                    quantity shipping_cost_mxn total_amount_mxn distance_km
                    customer_loyalty_months customer_delivery_rating
                    product_weight_kg];
    rewrite ?tier_express.
  - reflexivity.
  - exact Hpedido.
  - exact Hproc.
  - exact Henvio.
  - exact Hdias.
  - exact Hentrega.
  - exact Hestado.
  - reflexivity.
  - exact Htransportista.
  - destruct (Qltb u _); auto.
  - exact Htipo.
  - exists por_tipo, base. auto.
  - reflexivity.
  - reflexivity.
  - reflexivity.
  - eexists. split; [reflexivity | exact Hprecio].
  - exact Hcantidad.
  - exists info, variacion.
    split; [exact Hinfo |]. split; [exact Hvlo |]. split; [exact Hvhi |].
    split; [exact Hvd |]. rewrite Hcosto. reflexivity.
  - split; assumption.
  - eexists _, _. split; [reflexivity |]. split; [reflexivity |].
    destruct Hcent as [x Hx].
    eapply total_exacto; [exact Hx | exact Hcosto | | | | | exact Hcantidad];
      assumption.
  - eexists _, _. repeat split.
  - eexists. split; [reflexivity | exact Hdist].
  - eexists. split; [reflexivity | exact Hlealtad].
  - cbn beta in Hjitter. lia.
Qed.

Lemma sale_generar_datos e (n : nat) :
  forall i,
    sale e (generar_datos i n)
         (fun datos =>
            length datos = n
            /\ forall j r, datos !! j = Some r -> registro_limpio e (i + j) r).
Proof.
  induction n as [| n IH]; intros i.
  - apply sale_ret. split; [reflexivity |]. intros j r H. discriminate.
  - cbn [generar_datos].
    eapply sale_bind; [apply sale_generar_registro |].
    intros r Hr.
    eapply sale_bind; [apply IH |].
    intros resto [Hlen Hresto].
    apply sale_ret. split; [cbn; lia |].
    intros [| j] r' H; cbn in H.
    + injection H as <-. rewrite Nat.add_0_r. exact Hr.
    + replace (i + S j)%nat with (S i + j)%nat by lia. apply Hresto. exact H.
Qed.

(* ===================================================================== *)
(** * Region lookup *)
(* ===================================================================== *)

(** C1. The region table does not cover the 32-state list: its 5 regions
    list 29 states, no state twice, and Durango, San Luis Potosí and
    Zacatecas appear in none.  For each of these three
    [_get_region_from_estado] falls through its loop to the default
    ['Centro'], which does not list them. *)
Theorem region_table_misses_three_states :
  length estados_mexico = 32%nat
  /\ length regiones = 5%nat
  /\ length (concat (dict_values regiones)) = 29%nat
  /\ NoDup (concat (dict_values regiones))
  /\ estados_sin_region = ["Durango"; "San Luis Potosí"; "Zacatecas"]
  /\ Forall (fun estado =>
               estado ∈ estados_mexico
               /\ region_loop regiones estado = None
               /\ _get_region_from_estado estado = "Centro"
               /\ (forall estados, dict_get regiones "Centro" = Some estados ->
                                   estado ∉ estados))
            estados_sin_region.
Proof.
  split; [reflexivity |]. split; [reflexivity |]. split; [reflexivity |].
  split; [apply (bool_decide_unpack _); vm_compute; reflexivity |].
  split; [reflexivity |].
  change estados_sin_region with ["Durango"; "San Luis Potosí"; "Zacatecas"].
  repeat (apply List.Forall_cons;
          [split; [repeat constructor |];
           split; [reflexivity |]; split; [reflexivity |];
           intros estados Hc; injection Hc as <-;
           intros Hin; apply list_elem_of_In in Hin; cbn [In] in Hin;
           intuition discriminate |]).
  apply List.Forall_nil.
Qed.

(* ===================================================================== *)
(** * Delivery timing and cost of a record *)
(* ===================================================================== *)

Lemma days_between_timedelta (t d : Z) :
  Py.days_between (t + Py.timedelta d) t = d.
Proof.
  unfold Py.days_between, Py.timedelta.
  replace (t + d * 86400 - t) with (d * 86400) by lia.
  apply Z.div_mul. lia.
Qed.

(** C6. Every record the synthesizer builds has: promised days = the base
    transit time of (carrier, distance class), lowered by 2 and floored at 1
    for an express shipment; actual days = delivered - shipped in whole days;
    delay = actual - promised; on-time flag = 1 exactly when delay <= 0. *)
Theorem promised_actual_delay_consistent (e : entorno) (st : estado) (i : nat) :
  wp (generar_registro i) e st (fun r _ =>
    (exists por_tipo base,
        dict_get tiempos_base (shipping_carrier r) = Some por_tipo
        /\ dict_get por_tipo (shipping_type r) = Some base
        /\ promised_delivery_days r
           = (if String.eqb (shipping_tier r) "Express"
              then Z.max 1 (base - 2) else base))
    /\ actual_delivery_days r
       = Py.days_between (delivered_date r) (shipped_date r)
    /\ delivery_delay_days r
       = actual_delivery_days r - promised_delivery_days r
    /\ (delivery_met_promise r = 1 <-> delivery_delay_days r <= 0)
    /\ (delivery_met_promise r = 1 \/ delivery_met_promise r = 0)).
Proof.
  eapply wp_mono; [apply sale_generar_registro |].
  intros r st' (H & _). cbn beta.
  split; [exact (rl_promised _ _ _ H) |].
  split; [exact (rl_actual _ _ _ H) |].
  split; [exact (rl_delay _ _ _ H) |].
  rewrite (rl_met _ _ _ H).
  destruct (delivery_delay_days r <=? 0) eqn:E.
  - apply Z.leb_le in E. split; [tauto | auto].
  - apply Z.leb_gt in E. split; [| auto]. split; [discriminate | lia].
Qed.

Lemma registro_limpio_ordenado e (i : nat) (r : registro) :
  registro_limpio e i r ->
  order_date r <= shipped_date r
  /\ shipped_date r <= delivered_date r
  /\ shipped_date r = order_date r + Py.timedelta (processing_days r)
  /\ 1 <= processing_days r <= 3
  /\ exists dias, 1 <= dias
                  /\ delivered_date r = shipped_date r + Py.timedelta dias.
Proof.
  intros H.
  pose proof (rl_processing _ _ _ H) as Hp.
  pose proof (rl_shipped _ _ _ H) as Hs.
  pose proof (rl_delivered _ _ _ H) as Hd.
  unfold Py.timedelta in *.
  repeat split; try lia.
  exists (Z.max 1 (delivery_days r)). split; [lia | exact Hd].
Qed.

(** C8. Every record the synthesizer builds has shipping cost = (carrier
    base cost + weight x 15) x distance multiplier (local 1, regional 1.5,
    national 2) x express multiplier (2 if express, else 1) x a noise factor
    of [0.9, 1.1], rounded to 2 decimals; and total amount = price x quantity
    + shipping cost, rounded to 2 decimals.  The products and sums are those
    of the program: binary64, evaluated from left to right, the noise a
    double between the doubles 0.9 and 1.1.  The rounding of the total
    changes nothing: the double sum rounds to the exact sum of the
    two-decimal price times the quantity and the two-decimal cost. *)
Theorem shipping_cost_formula (e : entorno) (st : estado) (i : nat) :
  wp (generar_registro i) e st (fun r _ =>
    exists info ruido m_distancia m_express precio costo,
      dict_get transportistas (shipping_carrier r) = Some info
      /\ (F64.rnd (9 # 10) <= ruido)%Q /\ (ruido <= F64.rnd (11 # 10))%Q
      /\ (F64.rnd ruido == ruido)%Q
      /\ (shipping_type r = "local" /\ m_distancia = 1%Q
          \/ shipping_type r = "regional" /\ m_distancia = (15 # 10)%Q
          \/ shipping_type r = "nacional" /\ m_distancia = 2%Q)
      /\ (shipping_tier r = "Express" /\ m_express = 2%Q
          \/ shipping_tier r = "Estándar" /\ m_express = 1%Q)
      /\ shipping_cost_mxn r = Some costo
      /\ costo = Py.round_nd
                   (F64.mul
                      (F64.mul
                         (F64.mul (F64.add (inject_Z (costo_base info))
                                           (F64.mul (product_weight_kg r) 15))
                                  m_distancia)
                         m_express)
                      ruido) 2
      /\ product_price_mxn r = Some precio
      /\ total_amount_mxn r
         = Py.round_nd (F64.add (F64.mul precio (inject_Z (quantity r))) costo) 2
      /\ total_amount_mxn r
         = Py.round_nd (precio * inject_Z (quantity r) + costo) 2).
Proof.
  eapply wp_mono; [apply sale_generar_registro |].
  intros r st' (H & _). cbn beta.
  destruct (rl_cost _ _ _ H) as (info & ruido & Hinfo & Hlo & Hhi & Hd & Hcosto).
  destruct (rl_total _ _ _ H) as (precio & costo & Hprecio & Hc & Htotal).
  destruct (rl_total_f64 _ _ _ H) as (precio' & costo' & Hprecio' & Hc' & Htotal').
  rewrite Hprecio in Hprecio'. injection Hprecio' as <-.
  rewrite Hc in Hc'. injection Hc' as <-.
  exists info, ruido, (ajuste_distancia (shipping_type r)),
    (ajuste_express (String.eqb (shipping_tier r) "Express")), precio, costo.
  split; [exact Hinfo |]. split; [exact Hlo |]. split; [exact Hhi |].
  split; [exact Hd |].
  split.
  { rewrite (rl_type _ _ _ H).
    destruct (String.eqb (customer_state r) _); [left; split; reflexivity |].
    destruct (String.eqb (customer_region r) _);
      [right; left | right; right]; split; reflexivity. }
  split.
  { destruct (rl_tier _ _ _ H) as [-> | ->]; [left | right]; split; reflexivity. }
  split; [exact Hc |].
  split; [congruence |].
  split; [exact Hprecio |]. split; [exact Htotal' | exact Htotal].
Qed.

(** C10. In every record the synthesizer builds, actual days = max(1,
    delivery_days) and so is at least 1; the stored delivery_days is the
    unfloored estimate, at least 0, and it is 0 for some draws. *)
Theorem actual_days_floor_delivery_days :
  (forall (e : entorno) (st : estado) (i : nat),
      wp (generar_registro i) e st (fun r _ =>
        actual_delivery_days r = Z.max 1 (delivery_days r)
        /\ 1 <= actual_delivery_days r
        /\ 0 <= delivery_days r))
  /\ wp (generar_registro 0) e_cero st_inicial (fun r _ =>
       delivery_days r = 0 /\ actual_delivery_days r = 1).
Proof.
  split.
  - intros e st i.
    eapply wp_mono; [apply sale_generar_registro |].
    intros r st' (H & _). cbn beta.
    pose proof (rl_delivery_days _ _ _ H) as Hdd.
    rewrite (rl_actual _ _ _ H), (rl_delivered _ _ _ H).
    rewrite days_between_timedelta. lia.
  - unfold wp.
    destruct (generar_registro 0 e_cero st_inicial) as [[r st'] |] eqn:E;
      [| vm_compute in E; discriminate].
    exists r, st'. split; [reflexivity |].
    vm_compute in E. injection E as <- _. split; reflexivity.
Qed.

(* ===================================================================== *)
(** * Table objects *)
(* ===================================================================== *)

Lemma wp_deref e st (l : loc) (rows : DataFrame) (Q : DataFrame -> estado -> Prop) :
  objetos st !! l = Some rows -> Q rows st -> wp (Pd.deref l) e st Q.
Proof.
  intros Hl HQ. exists rows, st. split; [| exact HQ].
  unfold Pd.deref. rewrite Hl. reflexivity.
Qed.

Lemma wp_store e st (l : loc) (old rows : DataFrame) (Q : unit -> estado -> Prop) :
  objetos st !! l = Some old ->
  Q tt (Pd.set_objetos (<[l := rows]> (objetos st)) st) ->
  wp (Pd.store l rows) e st Q.
Proof.
  intros Hl HQ. eexists tt, _. split; [| exact HQ].
  unfold Pd.store. rewrite Hl. reflexivity.
Qed.

Lemma wp_alloc e st (rows : DataFrame) (Q : loc -> estado -> Prop) :
  Q (length (objetos st)) (Pd.set_objetos (objetos st ++ [rows]) st) ->
  wp (Pd.alloc rows) e st Q.
Proof. intros HQ. eexists _, _. split; [reflexivity | exact HQ]. Qed.

Lemma wp_copy e st (l : loc) (rows : DataFrame) (Q : loc -> estado -> Prop) :
  objetos st !! l = Some rows ->
  Q (length (objetos st)) (Pd.set_objetos (objetos st ++ [rows]) st) ->
  wp (Pd.copy l) e st Q.
Proof.
  intros Hl HQ. unfold Pd.copy. apply wp_bind.
  eapply wp_deref; [exact Hl |]. apply wp_alloc. exact HQ.
Qed.

Lemma wp_len e st (l : loc) (rows : DataFrame) (Q : nat -> estado -> Prop) :
  objetos st !! l = Some rows -> Q (length rows) st -> wp (Pd.len l) e st Q.
Proof.
  intros Hl HQ. unfold Pd.len. apply wp_bind.
  eapply wp_deref; [exact Hl |]. apply wp_ret. exact HQ.
Qed.

Lemma wp_index e st (l : loc) (rows : DataFrame) (Q : list nat -> estado -> Prop) :
  objetos st !! l = Some rows -> Q (seq 0 (length rows)) st -> wp (Pd.index l) e st Q.
Proof.
  intros Hl HQ. unfold Pd.index. apply wp_bind.
  eapply wp_deref; [exact Hl |]. apply wp_ret. exact HQ.
Qed.

Lemma wp_iloc e st (l : loc) (rows : DataFrame) (idx : nat) (r : registro)
    (Q : registro -> estado -> Prop) :
  objetos st !! l = Some rows -> rows !! idx = Some r -> Q r st ->
  wp (Pd.iloc l idx) e st Q.
Proof.
  intros Hl Hr HQ. unfold Pd.iloc. apply wp_bind.
  eapply wp_deref; [exact Hl |]. eapply wp_lift; [exact Hr | exact HQ].
Qed.

Lemma wp_at {A} e st (l : loc) (rows : DataFrame) (idx : nat) (r : registro)
    (col : registro -> A) (Q : A -> estado -> Prop) :
  objetos st !! l = Some rows -> rows !! idx = Some r -> Q (col r) st ->
  wp (Pd.at_ l idx col) e st Q.
Proof.
  intros Hl Hr HQ. unfold Pd.at_. apply wp_bind.
  eapply wp_iloc; [exact Hl | exact Hr |]. apply wp_ret. exact HQ.
Qed.

Lemma wp_at_set e st (l : loc) (rows : DataFrame) (idx : nat)
    (poner : registro -> registro) (Q : unit -> estado -> Prop) :
  objetos st !! l = Some rows -> (idx < length rows)%nat ->
  Q tt (Pd.set_objetos (<[l := alter poner idx rows]> (objetos st)) st) ->
  wp (Pd.at_set l idx poner) e st Q.
Proof.
  intros Hl Hidx HQ. unfold Pd.at_set. apply wp_bind.
  eapply wp_deref; [exact Hl |].
  apply Nat.ltb_lt in Hidx. rewrite Hidx.
  eapply wp_store; [exact Hl | exact HQ].
Qed.

Lemma wp_iloc_set e st (l : loc) (rows : DataFrame) (idx : nat) (r : registro)
    (Q : unit -> estado -> Prop) :
  objetos st !! l = Some rows -> (idx < length rows)%nat ->
  Q tt (Pd.set_objetos (<[l := <[idx := r]> rows]> (objetos st)) st) ->
  wp (Pd.iloc_set l idx r) e st Q.
Proof.
  intros Hl Hidx HQ. unfold Pd.iloc_set. apply wp_bind.
  eapply wp_deref; [exact Hl |].
  apply Nat.ltb_lt in Hidx. rewrite Hidx.
  eapply wp_store; [exact Hl | exact HQ].
Qed.

Lemma alter_as_insert {A} (f : A -> A) (l : list A) (i : nat) (x : A) :
  l !! i = Some x -> alter f i l = <[i := f x]> l.
Proof.
  intros Hx. apply list_eq. intros j.
  destruct (decide (i = j)) as [<- | Hne].
  - rewrite list_lookup_alter_eq, Hx.
    rewrite list_lookup_insert_eq; [reflexivity |].
    apply lookup_lt_Some in Hx. exact Hx.
  - rewrite list_lookup_alter_ne, list_lookup_insert_ne by exact Hne. reflexivity.
Qed.

(* ===================================================================== *)
(** * One pass of the injector's loop *)
(* ===================================================================== *)

Lemma length_con_defecto (d : defecto) (idx : nat) (rows : DataFrame) :
  length (con_defecto d idx rows) = length rows.
Proof.
  destruct d; cbn [con_defecto]; try apply length_alter.
  - destruct (set_nan columna); [apply length_alter | reflexivity].
  - destruct idx as [| i]; [reflexivity |].
    destruct (rows !! i); [apply length_insert | reflexivity].
Qed.

Lemma lookup_con_defecto_ne (d : defecto) (idx j : nat) (rows : DataFrame) :
  idx <> j -> con_defecto d idx rows !! j = rows !! j.
Proof.
  intros Hne.
  destruct d; cbn [con_defecto]; try (apply list_lookup_alter_ne; exact Hne).
  - destruct (set_nan columna); [apply list_lookup_alter_ne; exact Hne | reflexivity].
  - destruct idx as [| i]; [reflexivity |].
    destruct (rows !! i); [apply list_lookup_insert_ne; exact Hne | reflexivity].
Qed.

Section Paso.

Context (e : entorno) (l : loc) (idx : nat) (rows : DataFrame) (r : registro).
Context (st : estado).
Hypothesis Hl : objetos st !! l = Some rows.
Hypothesis Hr : rows !! idx = Some r.

Lemma paso_idx : (idx < length rows)%nat.
Proof. apply lookup_lt_Some in Hr. exact Hr. Qed.

Lemma wp_error_missing :
  wp (error_missing l idx) e st (fun _ st' =>
    exists columna, tras_defecto l idx rows st (Missing columna) st').
Proof.
  unfold error_missing.
  eapply wp_sale_bind; [apply sale_np_choice; discriminate |].
  intros columna st1 Hc Ho Ha. cbn beta in Hc.
  assert (exists poner, set_nan columna = Some poner) as [poner Hp].
  { casos Hc; eexists; reflexivity. }
  apply wp_bind. eapply wp_lift; [exact Hp |].
  eapply wp_at_set; [rewrite Ho; exact Hl | exact paso_idx |].
  exists columna. split; [exact Hc |].
  cbn [con_defecto objetos archivos Pd.set_objetos]. rewrite Hp, Ho.
  split; [reflexivity | exact Ha].
Qed.

Lemma wp_error_outlier :
  wp (error_outlier l idx) e st (fun _ st' =>
    tras_defecto l idx rows st OutlierPrecio st'
    \/ exists d, tras_defecto l idx rows st (OutlierDistancia d) st').
Proof.
  unfold error_outlier.
  eapply wp_sale_bind; [apply sale_np_random |].
  intros u st1 _ Ho Ha.
  destruct (Qltb (1 # 2) u).
  - apply wp_bind.
    eapply wp_at; [rewrite Ho; exact Hl | exact Hr |].
    eapply wp_at_set; [rewrite Ho; exact Hl | exact paso_idx |].
    left. split; [exact I |].
    cbn [con_defecto objetos archivos Pd.set_objetos]. rewrite Ho.
    split; [| exact Ha].
    rewrite !(alter_as_insert _ _ _ _ Hr). reflexivity.
  - eapply wp_sale_bind; [apply sale_np_randint; lia |].
    intros d st2 Hd Ho2 Ha2. cbn beta in Hd.
    eapply wp_at_set; [rewrite Ho2, Ho; exact Hl | exact paso_idx |].
    right. exists d. split; [exact Hd |].
    cbn [con_defecto objetos archivos Pd.set_objetos]. rewrite Ho2, Ho.
    split; [reflexivity | congruence].
Qed.

Lemma wp_error_typo :
  wp (error_typo l idx) e st (fun _ st' =>
    tras_defecto l idx rows st TypoTransportista st'
    \/ tras_defecto l idx rows st TypoEstado st').
Proof.
  unfold error_typo.
  eapply wp_sale_bind; [apply sale_np_random |].
  intros u st1 _ Ho Ha.
  destruct (Qltb (1 # 2) u); apply wp_bind;
    (eapply wp_at; [rewrite Ho; exact Hl | exact Hr |]);
    (eapply wp_at_set; [rewrite Ho; exact Hl | exact paso_idx |]);
    [left | right]; (split; [exact I |]);
    cbn [con_defecto objetos archivos Pd.set_objetos]; rewrite Ho;
    (split; [| exact Ha]);
    rewrite !(alter_as_insert _ _ _ _ Hr); reflexivity.
Qed.

Lemma wp_error_duplicate :
  wp (error_duplicate l idx) e st (fun _ st' =>
    tras_defecto l idx rows st Duplicado st').
Proof.
  unfold error_duplicate. pose proof paso_idx as Hidx.
  destruct idx as [| i] eqn:Eidx.
  - apply wp_ret. split; [exact I |].
    cbn [con_defecto]. split; [| reflexivity].
    symmetry. apply list_insert_id. exact Hl.
  - cbn [Nat.ltb Nat.leb]. replace (S i - 1)%nat with i by lia.
    destruct (lookup_lt_is_Some_2 rows i) as [anterior Hant]; [lia |].
    apply wp_bind. eapply wp_iloc; [exact Hl | exact Hant |].
    apply wp_bind. eapply wp_iloc_set; [exact Hl | exact Hidx |].
    assert (objetos (Pd.set_objetos (<[l := <[S i := anterior]> rows]> (objetos st)) st)
            !! l = Some (<[S i := anterior]> rows)) as Hl2.
    { cbn [objetos Pd.set_objetos]. apply list_lookup_insert_eq.
      apply lookup_lt_Some in Hl. exact Hl. }
    assert (<[S i := anterior]> rows !! S i = Some anterior) as Hr2.
    { apply list_lookup_insert_eq. exact Hidx. }
    apply wp_bind. eapply wp_at; [exact Hl2 | exact Hr2 |].
    eapply wp_at_set; [exact Hl2 | rewrite length_insert; exact Hidx |].
    split; [exact I |].
    cbn [con_defecto objetos archivos Pd.set_objetos]. rewrite Hant.
    split; [| reflexivity].
    rewrite list_insert_insert_eq.
    rewrite (alter_as_insert _ _ _ _ Hr2), list_insert_insert_eq. reflexivity.
Qed.

Lemma wp_error_inconsistent :
  wp (error_inconsistent l idx) e st (fun _ st' =>
    tras_defecto l idx rows st FechaEntrega st'
    \/ tras_defecto l idx rows st FechaEnvio st').
Proof.
  unfold error_inconsistent.
  eapply wp_sale_bind; [apply sale_np_random |].
  intros u st1 _ Ho Ha.
  destruct (Qltb (1 # 2) u); apply wp_bind;
    (eapply wp_at; [rewrite Ho; exact Hl | exact Hr |]);
    (eapply wp_at_set; [rewrite Ho; exact Hl | exact paso_idx |]);
    [left | right]; (split; [exact I |]);
    cbn [con_defecto objetos archivos Pd.set_objetos]; rewrite Ho;
    (split; [| exact Ha]);
    rewrite !(alter_as_insert _ _ _ _ Hr); reflexivity.
Qed.

End Paso.

Lemma wp_aplicar_error e st (l : loc) (idx : nat) (rows : DataFrame) (r : registro) :
  objetos st !! l = Some rows -> rows !! idx = Some r ->
  wp (aplicar_error l idx) e st (fun _ st' =>
    exists d, tras_defecto l idx rows st d st').
Proof.
  intros Hl Hr. unfold aplicar_error.
  eapply wp_sale_bind; [apply sale_np_choice; discriminate |].
  intros tipo st1 Htipo Ho Ha. cbn beta in Htipo.
  assert (objetos st1 !! l = Some rows) as Hl1 by (rewrite Ho; exact Hl).
  unfold tras_defecto. rewrite <- Ho, <- Ha.
  unfold tipos_error in Htipo. casos Htipo; cbn [String.eqb Ascii.eqb Bool.eqb].
  - eapply wp_mono; [apply (wp_error_missing e l idx rows r st1 Hl1 Hr) |].
    intros u st' [c H]. eexists; exact H.
  - eapply wp_mono; [apply (wp_error_outlier e l idx rows r st1 Hl1 Hr) |].
    intros u st' [H | [d H]]; eexists; exact H.
  - eapply wp_mono; [apply (wp_error_typo e l idx rows r st1 Hl1 Hr) |].
    intros u st' [H | H]; eexists; exact H.
  - eapply wp_mono; [apply (wp_error_duplicate e l idx rows r st1 Hl1 Hr) |].
    intros u st' H; eexists; exact H.
  - eapply wp_mono; [apply (wp_error_inconsistent e l idx rows r st1 Hl1 Hr) |].
    intros u st' [H | H]; eexists; exact H.
Qed.

(** ** The whole pass *)

Lemma length_aplicar_defectos (plan : list (nat * defecto)) :
  forall rows : DataFrame, length (aplicar_defectos plan rows) = length rows.
Proof.
  induction plan as [| [idx d] plan IH]; intros rows; [reflexivity |].
  cbn [aplicar_defectos fold_left fst snd].
  change (fold_left _ plan ?x) with (aplicar_defectos plan x).
  rewrite IH. apply length_con_defecto.
Qed.

Lemma lookup_aplicar_defectos_ne (plan : list (nat * defecto)) (j : nat) :
  forall rows : DataFrame,
    j ∉ map fst plan -> aplicar_defectos plan rows !! j = rows !! j.
Proof.
  induction plan as [| [idx d] plan IH]; intros rows Hj; [reflexivity |].
  cbn [aplicar_defectos fold_left fst snd].
  change (fold_left _ plan ?x) with (aplicar_defectos plan x).
  cbn [map fst] in Hj. apply not_elem_of_cons in Hj as [Hne Hj].
  rewrite IH by exact Hj. apply lookup_con_defecto_ne. congruence.
Qed.

Lemma wp_for_each_aplicar_error e (l : loc) (indices : list nat) :
  forall st (rows : DataFrame),
    objetos st !! l = Some rows ->
    (forall idx, idx ∈ indices -> (idx < length rows)%nat) ->
    wp (for_each indices (aplicar_error l)) e st (fun _ st' =>
      exists plan,
        map fst plan = indices
        /\ Forall (fun p => defecto_valido (snd p)) plan
        /\ objetos st' = <[l := aplicar_defectos plan rows]> (objetos st)
        /\ archivos st' = archivos st).
Proof.
  induction indices as [| idx indices IH]; intros st rows Hl Hin.
  - apply wp_ret. exists []. split; [reflexivity |].
    split; [apply List.Forall_nil |].
    split; [| reflexivity].
    cbn. symmetry. apply list_insert_id. exact Hl.
  - cbn [for_each]. apply wp_bind.
    destruct (lookup_lt_is_Some_2 rows idx) as [r Hr];
      [apply Hin; apply list_elem_of_here |].
    eapply wp_mono; [apply (wp_aplicar_error e st l idx rows r Hl Hr) |].
    intros u st1 (d & Hd & Ho & Ha). cbn beta.
    assert (objetos st1 !! l = Some (con_defecto d idx rows)) as Hl1.
    { rewrite Ho. apply list_lookup_insert_eq. apply lookup_lt_Some in Hl. exact Hl. }
    eapply wp_mono.
    { apply (IH st1 _ Hl1). intros j Hj. rewrite length_con_defecto.
      apply Hin. apply list_elem_of_further. exact Hj. }
    intros u2 st2 (plan & Hplan & Hval & Ho2 & Ha2). cbn beta.
    exists ((idx, d) :: plan).
    split; [cbn; congruence |].
    split; [apply List.Forall_cons; [exact Hd | exact Hval] |].
    split; [| congruence].
    rewrite Ho2, Ho, list_insert_insert_eq. reflexivity.
Qed.

Lemma n_errores_de_range (n : nat) (porcentaje : Q) :
  (0 <= porcentaje)%Q -> (porcentaje <= 1)%Q ->
  0 <= n_errores_de n porcentaje <= Z.of_nat n.
Proof.
  intros H0 H1. unfold n_errores_de.
  set (x := (inject_Z (Z.of_nat n) * porcentaje)%Q).
  assert (0 <= inject_Z (Z.of_nat n))%Q as Hn.
  { change 0%Q with (inject_Z 0). rewrite <- Zle_Qle. lia. }
  assert (0 <= x)%Q as Hx0 by (unfold x; nra).
  assert (x <= inject_Z (Z.of_nat n))%Q as Hx1 by (unfold x; nra).
  split; [apply int_of_float_nonneg; exact Hx0 |].
  unfold Py.int_of_float. destruct (Qlt_le_dec x 0) as [Hneg | _]; [lra |].
  rewrite <- (Qfloor_Z (Z.of_nat n)). apply Qfloor_resp_le. exact Hx1.
Qed.

Lemma n_errores_de_5_por_ciento (n : nat) :
  n_errores_de n (5 # 100) = Z.of_nat n / 20.
Proof.
  unfold n_errores_de, Py.int_of_float.
  destruct (Qlt_le_dec _ 0) as [Hneg | _].
  - exfalso.
    assert (0 <= inject_Z (Z.of_nat n))%Q as Hn.
    { change 0%Q with (inject_Z 0). rewrite <- Zle_Qle. lia. }
    revert Hneg. generalize (inject_Z (Z.of_nat n)) Hn. intros q Hq Hneg. lra.
  - unfold Qfloor, inject_Z, Qmult. cbn [Qnum Qden].
    change (Z.pos (1 * 100)) with (20 * 5).
    apply Z.div_mul_cancel_r; lia.
Qed.

(** The pass copies the table, draws the selection and the defects, and
    returns the copy; [plan] lists the selected labels with their defects. *)
Lemma wp__agregar_errores_controlados e st (df : loc) (rows : DataFrame)
    (porcentaje : Q) :
  objetos st !! df = Some rows ->
  (0 <= porcentaje)%Q -> (porcentaje <= 1)%Q ->
  wp (_agregar_errores_controlados df porcentaje) e st (fun df' st' =>
    exists plan,
      df' = length (objetos st)
      /\ NoDup (map fst plan)
      /\ length plan = Z.to_nat (n_errores_de (length rows) porcentaje)
      /\ (forall idx, idx ∈ map fst plan -> (idx < length rows)%nat)
      /\ Forall (fun p => defecto_valido (snd p)) plan
      /\ objetos st' = (objetos st ++ [aplicar_defectos plan rows])%list
      /\ archivos st' = archivos st).
Proof.
  intros Hdf H0 H1. unfold _agregar_errores_controlados.
  apply wp_bind. eapply wp_copy; [exact Hdf |].
  set (st1 := Pd.set_objetos (objetos st ++ [rows]) st).
  assert (objetos st1 !! df = Some rows) as Hdf1.
  { cbn. apply lookup_app_l_Some. exact Hdf. }
  assert (objetos st1 !! length (objetos st) = Some rows) as Hcopia.
  { cbn. apply list_lookup_middle. reflexivity. }
  apply wp_bind. eapply wp_len; [exact Hdf1 |].
  apply wp_bind. eapply wp_index; [exact Hdf1 |].
  pose proof (n_errores_de_range (length rows) porcentaje H0 H1) as Hn.
  fold (n_errores_de (length rows) porcentaje).
  eapply wp_sale_bind.
  { apply sale_np_choice_no_replace. rewrite length_seq. exact Hn. }
  intros indices st2 [Hlen [resto Hperm]] Ho2 Ha2.
  assert (NoDup indices /\ forall idx, idx ∈ indices -> (idx < length rows)%nat)
    as [Hnd Hlt].
  { pose proof (NoDup_seq 0 (length rows)) as Hs. rewrite Hperm in Hs.
    apply NoDup_app in Hs as (Hs & _ & _). split; [exact Hs |].
    intros idx Hidx.
    assert (idx ∈ seq 0 (length rows)) as Hseq.
    { rewrite Hperm. apply elem_of_app. left. exact Hidx. }
    apply elem_of_seq in Hseq. lia. }
  apply wp_bind.
  eapply wp_mono.
  { apply (wp_for_each_aplicar_error e (length (objetos st)) indices st2 rows).
    - rewrite Ho2. exact Hcopia.
    - exact Hlt. }
  intros u st3 (plan & Hplan & Hval & Ho3 & Ha3). cbn beta.
  apply wp_ret. exists plan.
  split; [reflexivity |].
  split; [rewrite Hplan; exact Hnd |].
  split; [rewrite <- Hlen, <- Hplan, length_map; reflexivity |].
  split; [rewrite Hplan; exact Hlt |].
  split; [exact Hval |].
  split; [| rewrite Ha3, Ha2; reflexivity].
  rewrite Ho3, Ho2. cbn [st1 objetos Pd.set_objetos].
  rewrite insert_app_r_alt by lia.
  rewrite Nat.sub_diag. reflexivity.
Qed.

(** ** A defect on a clean row is visible *)

Lemma fila_eqb_campos (a b : registro) :
  fila_eqb a b = true ->
  String.eqb (order_id a) (order_id b) = true
  /\ Z.eqb (shipped_date a) (shipped_date b) = true
  /\ Z.eqb (delivered_date a) (delivered_date b) = true
  /\ float_eqb (product_price_mxn a) (product_price_mxn b) = true
  /\ String.eqb (shipping_carrier a) (shipping_carrier b) = true
  /\ float_eqb (shipping_cost_mxn a) (shipping_cost_mxn b) = true
  /\ int_eqb (distance_km a) (distance_km b) = true
  /\ String.eqb (customer_state a) (customer_state b) = true
  /\ int_eqb (customer_loyalty_months a) (customer_loyalty_months b) = true.
Proof.
  unfold fila_eqb. rewrite !andb_true_iff. tauto.
Qed.

Lemma lower_estado_distinto (estado : string) :
  estado ∈ estados_mexico -> String.eqb estado (Py.lower estado) = false.
Proof.
  intros H. unfold estados_mexico in H. casos H; reflexivity.
Qed.

Lemma espacio_distinto (c : string) : String.eqb c (String.append " " c) = false.
Proof.
  destruct (String.eqb c (String.append " " c)) eqn:E; [| reflexivity].
  apply String.eqb_eq in E. apply (f_equal String.length) in E.
  change (String.append " " c) with (String " " c) in E.
  cbn [String.length] in E. lia.
Qed.

Lemma registro_limpio_fila_limpia e (i : nat) (r : registro) :
  registro_limpio e i r -> fila_limpia r.
Proof.
  intros H.
  pose proof (rl_processing _ _ _ H) as Hp.
  pose proof (rl_shipped _ _ _ H) as Hs.
  pose proof (rl_delivered _ _ _ H) as Hd.
  unfold Py.timedelta in *.
  constructor.
  - rewrite (rl_order_id _ _ _ H). eexists. reflexivity.
  - exact (rl_price _ _ _ H).
  - destruct (rl_total _ _ _ H) as (p & c & _ & Hc & _). eauto.
  - destruct (rl_loyalty _ _ _ H) as (m & Hm & _). eauto.
  - exact (rl_distance _ _ _ H).
  - exact (rl_state _ _ _ H).
  - lia.
  - lia.
Qed.

(** A price multiplied by 100 in doubles is a larger price. *)
Lemma outlier_mayor (p : Q) : (50 <= p)%Q -> (p < F64.mul p 100)%Q.
Proof.
  intros Hp. unfold F64.mul.
  assert (F64.rnd 100 == 100)%Q as -> by reflexivity.
  destruct (rnd_rel_1 p ltac:(lra)) as [P1 _].
  assert (F64.eps <= 1 # 1000)%Q as He by (vm_compute; discriminate).
  assert (0 < F64.eps)%Q as He0 by reflexivity.
  assert (1 <= F64.rnd p * 100)%Q as Hy by nra.
  destruct (rnd_rel_1 _ Hy) as [Y1 _].
  set (p1 := F64.rnd p) in *. set (y := F64.rnd (p1 * 100)) in *. nra.
Qed.

Lemma con_defecto_visible (d : defecto) (idx : nat) (cur : DataFrame) (a : registro) :
  cur !! idx = Some a -> fila_limpia a -> defecto_valido d -> idx <> 0%nat ->
  exists b, con_defecto d idx cur !! idx = Some b /\ fila_eqb a b = false.
Proof.
  intros Ha Hlimpia Hd Hidx.
  pose proof (lookup_lt_Some _ _ _ Ha) as Hlt.
  destruct (fl_order_id _ Hlimpia) as (resto & Hid).
  destruct (fl_price _ Hlimpia) as (p & Hp & Hp50).
  destruct (fl_cost _ Hlimpia) as (c & Hc).
  destruct (fl_loyalty _ Hlimpia) as (m & Hm).
  destruct (fl_distance _ Hlimpia) as (km & Hkm & Hkm_range).
  pose proof (fl_state _ Hlimpia) as Hestado.
  pose proof (fl_shipped _ Hlimpia) as Hs.
  pose proof (fl_delivered _ Hlimpia) as Hdel.
  assert (forall f : registro -> registro,
             fila_eqb a (f a) = false ->
             exists b, alter f idx cur !! idx = Some b /\ fila_eqb a b = false)
    as Halter.
  { intros f Hf. exists (f a). split; [| exact Hf].
    rewrite list_lookup_alter_eq, Ha. reflexivity. }
  assert (forall b, (fila_eqb a b = true -> False) -> fila_eqb a b = false) as Hno.
  { intros b Hb. destruct (fila_eqb a b); [exfalso; auto | reflexivity]. }
  destruct d; cbn [con_defecto].
  - cbn [defecto_valido] in Hd.
    casos Hd; cbn [set_nan String.eqb Ascii.eqb Bool.eqb];
      apply Halter; apply Hno; intros E; apply fila_eqb_campos in E;
      cbn in E; rewrite ?Hp, ?Hc, ?Hm, ?Hkm in E; cbn in E;
      intuition discriminate.
  - apply Halter. apply Hno. intros E. apply fila_eqb_campos in E.
    destruct E as (_ & _ & _ & E & _).
    cbn [product_price_mxn set_product_price_mxn] in E. rewrite Hp in E.
    cbn [option_map float_eqb] in E.
    apply Qeq_bool_iff in E. pose proof (outlier_mayor p Hp50) as Hm100. lra.
  - apply Halter. apply Hno. intros E. apply fila_eqb_campos in E.
    destruct E as (_ & _ & _ & _ & _ & _ & E & _). cbn in E. rewrite Hkm in E.
    cbn in E, Hd. apply Z.eqb_eq in E. lia.
  - apply Halter. apply Hno. intros E. apply fila_eqb_campos in E.
    destruct E as (_ & _ & _ & _ & E & _). cbn [shipping_carrier set_shipping_carrier] in E.
    rewrite espacio_distinto in E. discriminate.
  - apply Halter. apply Hno. intros E. apply fila_eqb_campos in E.
    destruct E as (_ & _ & _ & _ & _ & _ & _ & E & _).
    cbn [customer_state set_customer_state] in E.
    rewrite (lower_estado_distinto _ Hestado) in E. discriminate.
  - destruct idx as [| i]; [congruence |].
    destruct (lookup_lt_is_Some_2 cur i) as [anterior Hant]; [lia |].
    rewrite Hant. eexists. split; [apply list_lookup_insert_eq; exact Hlt |].
    apply Hno. intros E. apply fila_eqb_campos in E.
    destruct E as (E & _). cbn [order_id set_order_id] in E. rewrite Hid in E.
    cbn in E. discriminate.
  - apply Halter. apply Hno. intros E. apply fila_eqb_campos in E.
    destruct E as (_ & _ & E & _). cbn [delivered_date set_delivered_date] in E.
    apply Z.eqb_eq in E. unfold Py.timedelta in E. lia.
  - apply Halter. apply Hno. intros E. apply fila_eqb_campos in E.
    destruct E as (_ & E & _). cbn [shipped_date set_shipped_date] in E.
    apply Z.eqb_eq in E. unfold Py.timedelta in E. lia.
Qed.

Lemma aplicar_defectos_visible (rows0 : DataFrame) (plan : list (nat * defecto)) :
  forall cur : DataFrame,
    NoDup (map fst plan) ->
    Forall (fun p => defecto_valido (snd p)) plan ->
    (forall idx, idx ∈ map fst plan ->
                 exists a, cur !! idx = Some a /\ rows0 !! idx = Some a
                           /\ fila_limpia a) ->
    forall idx, idx ∈ map fst plan -> idx <> 0%nat ->
      exists a b, rows0 !! idx = Some a
                  /\ aplicar_defectos plan cur !! idx = Some b
                  /\ fila_eqb a b = false.
Proof.
  induction plan as [| [i d] plan IH]; intros cur Hnd Hval Hcur idx Hidx Hne.
  - cbn in Hidx. apply elem_of_nil in Hidx. destruct Hidx.
  - cbn [map fst] in Hnd, Hidx, Hcur.
    apply NoDup_cons in Hnd as [Hi Hnd].
    apply List.Forall_cons_iff in Hval as [Hd Hval]. cbn [snd] in Hd.
    cbn [aplicar_defectos fold_left fst snd].
    change (fold_left _ plan ?x) with (aplicar_defectos plan x).
    apply elem_of_cons in Hidx as [-> | Hidx].
    + destruct (Hcur i (list_elem_of_here _ _)) as (a & Ha & Ha0 & Hlimpia).
      destruct (con_defecto_visible d i cur a Ha Hlimpia Hd Hne) as (b & Hb & Hab).
      exists a, b. split; [exact Ha0 |]. split; [| exact Hab].
      rewrite lookup_aplicar_defectos_ne by exact Hi. exact Hb.
    + apply (IH (con_defecto d i cur) Hnd Hval); [| exact Hidx | exact Hne].
      intros j Hj.
      destruct (Hcur j (list_elem_of_further _ _ _ Hj)) as (a & Ha & Ha0 & Hlimpia).
      exists a. split; [| auto].
      rewrite lookup_con_defecto_ne; [exact Ha |].
      intros ->. contradiction.
Qed.

(** ** The assembled dataset *)

(** [generate_dataset] with the injector on: the clean table [datos], then
    its corrupted copy, are the two objects the call creates. *)
Lemma wp_generate_dataset_errores e st (self : MexicoEcommerceGenerator) :
  wp (generate_dataset self true) e st (fun df st' =>
    exists datos plan,
      length datos = n_records self
      /\ (forall j r, datos !! j = Some r -> registro_limpio e j r)
      /\ NoDup (map fst plan)
      /\ length plan = Z.to_nat (n_errores_de (n_records self) (5 # 100))
      /\ (forall idx, idx ∈ map fst plan -> (idx < n_records self)%nat)
      /\ Forall (fun p => defecto_valido (snd p)) plan
      /\ df = S (length (objetos st))
      /\ objetos st' = (objetos st ++ [datos; aplicar_defectos plan datos])%list
      /\ archivos st' = archivos st).
Proof.
  unfold generate_dataset.
  eapply wp_sale_bind; [apply sale_generar_datos |].
  intros datos st0 [Hlen Hlimpio] Ho Ha.
  apply wp_bind. apply wp_alloc.
  set (st1 := Pd.set_objetos (objetos st0 ++ [datos]) st0).
  assert (objetos st1 !! length (objetos st0) = Some datos) as Hdf.
  { cbn. apply list_lookup_middle. reflexivity. }
  eapply wp_mono.
  { apply (wp__agregar_errores_controlados e st1 _ datos (5 # 100) Hdf); lra. }
  intros df st' (plan & Hdf' & Hnd & Hplan & Hlt & Hval & Ho' & Ha'). cbn beta.
  exists datos, plan.
  split; [exact Hlen |].
  split; [intros j r Hr; apply (Hlimpio j r Hr) |].
  split; [exact Hnd |].
  split; [rewrite <- Hlen; exact Hplan |].
  split; [rewrite <- Hlen; exact Hlt |].
  split; [exact Hval |].
  split.
  { rewrite Hdf'. cbn [st1 objetos Pd.set_objetos].
    rewrite length_app, Ho. cbn. lia. }
  split; [| rewrite Ha'; exact Ha].
  rewrite Ho'. cbn [st1 objetos Pd.set_objetos]. rewrite Ho, <- app_assoc.
  reflexivity.
Qed.

(** C7. Every record the synthesizer builds has its three timestamps in
    order: shipped = order + 1 to 3 processing days, delivered = shipped +
    at least one day, hence order <= shipped <= delivered.  In the table
    [generate_dataset] returns with the injector on, this holds of every row
    outside the injector's selection. *)
Theorem timestamps_ordered :
  (forall (e : entorno) (st : estado) (i : nat),
      wp (generar_registro i) e st (fun r _ =>
        order_date r <= shipped_date r
        /\ shipped_date r <= delivered_date r
        /\ shipped_date r = order_date r + Py.timedelta (processing_days r)
        /\ 1 <= processing_days r <= 3
        /\ exists dias, 1 <= dias
                        /\ delivered_date r = shipped_date r + Py.timedelta dias))
  /\ (forall (e : entorno) (st : estado) (self : MexicoEcommerceGenerator),
        wp (generate_dataset self true) e st (fun df st' =>
          exists tabla seleccion,
            objetos st' !! df = Some tabla
            /\ length tabla = n_records self
            /\ NoDup seleccion
            /\ Z.of_nat (length seleccion) = Z.of_nat (n_records self) / 20
            /\ forall i r, i ∉ seleccion -> tabla !! i = Some r ->
                  order_date r <= shipped_date r
                  /\ shipped_date r <= delivered_date r)).
Proof.
  split.
  - intros e st i.
    eapply wp_mono; [apply sale_generar_registro |].
    intros r st' (H & _). cbn beta.
    apply (registro_limpio_ordenado e i r H).
  - intros e st self.
    eapply wp_mono; [apply wp_generate_dataset_errores |].
    intros df st' (datos & plan & Hlen & Hlimpio & Hnd & Hplan & Hlt & Hval
                   & Hdf & Ho & Ha). cbn beta.
    exists (aplicar_defectos plan datos), (map fst plan).
    split.
    { rewrite Ho, Hdf. rewrite lookup_app_r by lia.
      replace (S (length (objetos st)) - length (objetos st))%nat with 1%nat by lia.
      reflexivity. }
    split; [rewrite length_aplicar_defectos; exact Hlen |].
    split; [exact Hnd |].
    split.
    { rewrite length_map, Hplan.
      rewrite <- n_errores_de_5_por_ciento.
      apply Z2Nat.id.
      apply (n_errores_de_range (n_records self) (5 # 100)); lra. }
    intros i r Hi Hr.
    rewrite lookup_aplicar_defectos_ne in Hr by exact Hi.
    destruct (registro_limpio_ordenado e i r (Hlimpio i r Hr)) as (H1 & H2 & _).
    split; assumption.
Qed.

(* ===================================================================== *)
(** * The error-injection pass *)
(* ===================================================================== *)

(** C3, as stated, fails: on a 39-row dataset the pass selects int(1.95) = 1
    row, and one row differs from the clean table, not the round(1.95) = 2
    the claim counts. *)
Lemma corruption_count_is_not_rounded :
  exists distintas,
    resumen_corrida 42 39 e_demo st_inicial = Some (39%nat, 39%nat, distintas)
    /\ distintas = 1%nat
    /\ n_errores_redondeado 39 = 2
    /\ Z.of_nat distintas <> n_errores_redondeado 39.
Proof.
  exists 1%nat.
  split; [vm_compute; reflexivity |]. split; [reflexivity |].
  split; [vm_compute; reflexivity |].
  vm_compute. discriminate.
Qed.

(** C3, amended. On the table the synthesizer builds, the pass selects
    exactly int(N x 0.05) = N div 20 distinct rows; a row outside the
    selection is left as it was in every field; a selected row other than
    the first row of the table differs from its clean value in at least one
    field.  (On the first row the duplicate defect does nothing.) *)
Theorem error_injection_coverage (e : entorno) (st : estado)
    (self : MexicoEcommerceGenerator) :
  wp (generate_dataset self true) e st (fun df st' =>
    exists limpio sucio seleccion,
      objetos st' = (objetos st ++ [limpio; sucio])%list
      /\ df = S (length (objetos st))
      /\ length limpio = n_records self
      /\ length sucio = n_records self
      /\ NoDup seleccion
      /\ Z.of_nat (length seleccion) = Z.of_nat (n_records self) / 20
      /\ (forall i, i ∈ seleccion -> (i < n_records self)%nat)
      /\ (forall i, i ∉ seleccion -> sucio !! i = limpio !! i)
      /\ (forall i, i ∈ seleccion -> i <> 0%nat ->
            exists a b, limpio !! i = Some a /\ sucio !! i = Some b
                        /\ fila_eqb a b = false)).
Proof.
  eapply wp_mono; [apply wp_generate_dataset_errores |].
  intros df st' (datos & plan & Hlen & Hlimpio & Hnd & Hplan & Hlt & Hval
                 & Hdf & Ho & Ha). cbn beta.
  exists datos, (aplicar_defectos plan datos), (map fst plan).
  split; [exact Ho |]. split; [exact Hdf |].
  split; [exact Hlen |].
  split; [rewrite length_aplicar_defectos; exact Hlen |].
  split; [exact Hnd |].
  split.
  { rewrite length_map, Hplan.
    rewrite <- n_errores_de_5_por_ciento.
    apply Z2Nat.id.
    apply (n_errores_de_range (n_records self) (5 # 100)); lra. }
  split; [exact Hlt |].
  split; [intros i Hi; apply lookup_aplicar_defectos_ne; exact Hi |].
  intros i Hi Hne.
  apply (aplicar_defectos_visible datos plan datos Hnd Hval); [| exact Hi | exact Hne].
  intros idx Hidx.
  destruct (lookup_lt_is_Some_2 datos idx) as [a Ha0];
    [rewrite Hlen; apply Hlt; exact Hidx |].
  exists a. split; [exact Ha0 |]. split; [exact Ha0 |].
  apply (registro_limpio_fila_limpia e idx a). apply Hlimpio. exact Ha0.
Qed.

(** C4, as stated, fails: after the duplicate defect on row 1, the order id
    of the row is "DUPE-" followed by the id of row 0, not by the id row 1
    had. *)
Lemma duplicate_id_is_not_own_id :
  exists st' original sucio nueva,
    objetos st_demo !! 0%nat = Some tabla_demo
    /\ tabla_demo !! 1%nat = Some original
    /\ error_duplicate 0%nat 1%nat e_demo st_demo = Some (tt, st')
    /\ objetos st' !! 0%nat = Some sucio
    /\ sucio !! 1%nat = Some nueva
    /\ order_id original = "ECOMMX-2024-00001"
    /\ order_id nueva = "DUPE-ECOMMX-2024-00000"
    /\ order_id nueva <> String.append "DUPE-" (order_id original).
Proof.
  eexists _, _, _, _.
  split; [reflexivity |]. split; [reflexivity |]. split; [reflexivity |].
  split; [reflexivity |]. split; [reflexivity |]. split; [reflexivity |].
  split; [reflexivity |]. discriminate.
Qed.

(** C4, amended. The duplicate defect on a row that is not the first
    replaces the row by its predecessor's current contents, except for the
    order id, which becomes "DUPE-" followed by the predecessor's order id;
    no other row changes.  On the first row it does nothing. *)
Theorem duplicate_defect_effect (e : entorno) (st : estado) (l : loc)
    (idx : nat) (rows : DataFrame) (r : registro) :
  objetos st !! l = Some rows -> rows !! idx = Some r ->
  wp (error_duplicate l idx) e st (fun _ st' =>
    match idx with
    | O => st' = st
    | S i =>
        exists anterior nueva rows',
          rows !! i = Some anterior
          /\ objetos st' = <[l := rows']> (objetos st)
          /\ rows' !! idx = Some nueva
          /\ nueva = set_order_id (String.append "DUPE-" (order_id anterior)) anterior
          /\ order_id nueva = String.append "DUPE-" (order_id anterior)
          /\ (forall j, j <> idx -> rows' !! j = rows !! j)
          /\ length rows' = length rows
    end).
Proof.
  intros Hl Hr. destruct idx as [| i].
  - unfold error_duplicate. cbn. apply wp_ret. reflexivity.
  - eapply wp_mono; [apply (wp_error_duplicate e l (S i) rows r st Hl Hr) |].
    intros u st' (_ & Ho & _). cbn beta.
    pose proof (lookup_lt_Some _ _ _ Hr) as Hlt.
    destruct (lookup_lt_is_Some_2 rows i) as [anterior Hant]; [lia |].
    cbn [con_defecto] in Ho. rewrite Hant in Ho.
    eexists anterior, _, _. split; [exact Hant |]. split; [exact Ho |].
    split; [apply list_lookup_insert_eq; exact Hlt |].
    split; [reflexivity |]. split; [reflexivity |].
    split; [intros j Hj; apply list_lookup_insert_ne; congruence |].
    apply length_insert.
Qed.

Lemma duplicate_defect_effect_witness :
  objetos st_demo !! 0%nat = Some tabla_demo
  /\ (exists r, tabla_demo !! 1%nat = Some r)
  /\ wp (error_duplicate 0%nat 1%nat) e_demo st_demo (fun _ st' =>
       exists anterior nueva rows',
         tabla_demo !! 0%nat = Some anterior
         /\ objetos st' = <[0%nat := rows']> (objetos st_demo)
         /\ rows' !! 1%nat = Some nueva
         /\ nueva = set_order_id (String.append "DUPE-" (order_id anterior)) anterior
         /\ order_id nueva = String.append "DUPE-" (order_id anterior)
         /\ (forall j, j <> 1%nat -> rows' !! j = tabla_demo !! j)
         /\ length rows' = length tabla_demo).
Proof.
  split; [reflexivity |].
  destruct (tabla_demo !! 1%nat) as [r |] eqn:Hr; [| discriminate].
  split; [exists r; reflexivity |].
  exact (duplicate_defect_effect e_demo st_demo 0%nat 1%nat tabla_demo r eq_refl Hr).
Defined.

(** C5, as stated, fails: the pass leaves the table object it is given
    exactly as it was and returns another object, which holds the
    corrupted rows. *)
Lemma input_table_not_mutated :
  exists df' st',
    _agregar_errores_controlados 0%nat (5 # 100) e_demo st_demo = Some (df', st')
    /\ df' <> 0%nat
    /\ objetos st' !! 0%nat = objetos st_demo !! 0%nat
    /\ objetos st' !! df' <> objetos st_demo !! 0%nat.
Proof.
  destruct (_agregar_errores_controlados 0%nat (5 # 100) e_demo st_demo)
    as [[df' st'] |] eqn:E; [| vm_compute in E; discriminate].
  vm_compute in E. injection E as <- <-.
  eexists _, _. split; [reflexivity |].
  split; [discriminate |]. split; [reflexivity |].
  vm_compute. discriminate.
Qed.

(** C5, amended. The pass works on a copy: the table object passed in, and
    every other existing object, is left as it was, and the pass returns a
    new object with the same row count and the same columns as the input. *)
Theorem error_injection_returns_copy (e : entorno) (st : estado) (df : loc)
    (rows : DataFrame) (porcentaje : Q) :
  objetos st !! df = Some rows ->
  (0 <= porcentaje)%Q -> (porcentaje <= 1)%Q ->
  wp (_agregar_errores_controlados df porcentaje) e st (fun df' st' =>
    df' <> df
    /\ objetos st' !! df = Some rows
    /\ (forall l, (l < length (objetos st))%nat -> objetos st' !! l = objetos st !! l)
    /\ archivos st' = archivos st
    /\ exists rows',
         objetos st' !! df' = Some rows'
         /\ length rows' = length rows
         /\ df_columns rows' = df_columns rows).
Proof.
  intros Hdf H0 H1.
  eapply wp_mono; [apply (wp__agregar_errores_controlados e st df rows porcentaje Hdf H0 H1) |].
  intros df' st' (plan & Hdf' & Hnd & Hplan & Hlt & Hval & Ho & Ha). cbn beta.
  pose proof (lookup_lt_Some _ _ _ Hdf) as Hlive.
  split; [lia |].
  split; [rewrite Ho; apply lookup_app_l_Some; exact Hdf |].
  split; [intros l Hl; rewrite Ho; apply lookup_app_l; exact Hl |].
  split; [exact Ha |].
  exists (aplicar_defectos plan rows).
  split; [rewrite Ho, Hdf'; apply list_lookup_middle; reflexivity |].
  pose proof (length_aplicar_defectos plan rows) as Hlen.
  split; [exact Hlen |].
  unfold df_columns.
  destruct (aplicar_defectos plan rows), rows; cbn in Hlen; congruence.
Qed.

Lemma error_injection_returns_copy_witness :
  objetos st_demo !! 0%nat = Some tabla_demo
  /\ (0 <= 5 # 100)%Q /\ (5 # 100 <= 1)%Q
  /\ wp (_agregar_errores_controlados 0%nat (5 # 100)) e_demo st_demo (fun df' st' =>
       df' <> 0%nat
       /\ objetos st' !! 0%nat = Some tabla_demo
       /\ (forall l, (l < length (objetos st_demo))%nat ->
                     objetos st' !! l = objetos st_demo !! l)
       /\ archivos st' = archivos st_demo
       /\ exists rows',
            objetos st' !! df' = Some rows'
            /\ length rows' = length tabla_demo
            /\ df_columns rows' = df_columns tabla_demo).
Proof.
  assert (0 <= 5 # 100)%Q as H0 by (intros H; discriminate H).
  assert (5 # 100 <= 1)%Q as H1 by (intros H; discriminate H).
  split; [reflexivity |]. split; [exact H0 |]. split; [exact H1 |].
  exact (error_injection_returns_copy e_demo st_demo 0%nat tabla_demo (5 # 100)
           eq_refl H0 H1).
Defined.

(* ===================================================================== *)
(** * The sample file *)
(* ===================================================================== *)

(** A draw without replacement depends on the state only through the
    variate stream in use and the position in it. *)
Lemma draw_without_replacement_stream {A} (size : nat) :
  forall (pool : list A) e1 e2 st1 st2,
    (forall k, mt19937 e1 (np_seed st1) k = mt19937 e2 (np_seed st2) k) ->
    np_pos st1 = np_pos st2 ->
    option_map fst (Np.draw_without_replacement pool size e1 st1)
    = option_map fst (Np.draw_without_replacement pool size e2 st2).
Proof.
  induction size as [| size IH]; intros pool e1 e2 st1 st2 Hmt Hpos;
    [reflexivity |].
  cbn [Np.draw_without_replacement].
  unfold bind, Np.randint.
  destruct (0 <? Z.of_nat (length pool)); [| reflexivity].
  unfold bind, Np.next, ret. rewrite Hmt, Hpos.
  set (j := Z.to_nat (0 + Qfloor _ mod _)).
  unfold lift. destruct (pool !! j) as [x |]; [| reflexivity].
  unfold ret.
  match goal with
  | |- option_map fst (match ?d1 with _ => _ end)
       = option_map fst (match ?d2 with _ => _ end) =>
      assert (option_map fst d1 = option_map fst d2) as Hrec
        by (apply IH; [exact Hmt | reflexivity]);
      destruct d1 as [[r1 s1] |], d2 as [[r2 s2] |]; cbn in Hrec |- *;
      congruence
  end.
Qed.

Lemma muestra_de_stream (e1 e2 : entorno) (rows : DataFrame) :
  (forall k, mt19937 e1 42 k = mt19937 e2 42 k) ->
  muestra_de e1 rows = muestra_de e2 rows.
Proof.
  intros Hmt. unfold muestra_de, Np.choice_no_replace.
  destruct (1000 <? 0); [reflexivity |].
  destruct (Z.of_nat _ <? 1000); [reflexivity |].
  pose proof (draw_without_replacement_stream (Z.to_nat 1000)
                (seq 0 (length rows)) e1 e2
                (Pd.random_state 42 st_inicial) (Pd.random_state 42 st_inicial)
                Hmt eq_refl) as H.
  destruct (Np.draw_without_replacement _ _ e1 _) as [[l1 s1] |],
           (Np.draw_without_replacement _ _ e2 _) as [[l2 s2] |];
    cbn [option_map fst] in H; try discriminate;
    [inversion H; subst |]; reflexivity.
Qed.

Lemma length_omap_lookup (rows : DataFrame) (locs : list nat) :
  (forall i, i ∈ locs -> (i < length rows)%nat) ->
  length (omap (fun i => rows !! i) locs) = length locs.
Proof.
  induction locs as [| i locs IH]; intros H; [reflexivity |].
  cbn [omap list_omap].
  destruct (lookup_lt_is_Some_2 rows i (H i (list_elem_of_here _ _))) as [r Hr].
  rewrite Hr. cbn [length]. f_equal. apply IH.
  intros j Hj. apply H. apply list_elem_of_further. exact Hj.
Qed.

Lemma wp_to_csv e st (l : loc) (rows : DataFrame) (path : string)
    (Q : unit -> estado -> Prop) :
  objetos st !! l = Some rows ->
  Q tt (Pd.set_archivos (<[path := rows]> (archivos st)) st) ->
  wp (Pd.to_csv l path) e st Q.
Proof.
  intros Hl HQ. unfold Pd.to_csv. apply wp_bind.
  eapply wp_deref; [exact Hl |].
  eexists tt, _. split; [reflexivity | exact HQ].
Qed.

Lemma wp_getitem {A} e st (l : loc) (rows : DataFrame) (col : string)
    (campo : registro -> A) (Q : list A -> estado -> Prop) :
  objetos st !! l = Some rows -> str_in col (df_columns rows) = true ->
  Q (map campo rows) st -> wp (Pd.getitem l col campo) e st Q.
Proof.
  intros Hl Hcol HQ. unfold Pd.getitem. apply wp_bind.
  eapply wp_deref; [exact Hl |]. rewrite Hcol. apply wp_ret. exact HQ.
Qed.

(** The statistics of [main] need the five columns they read: they return,
    changing nothing, on a table that has rows. *)
Lemma wp_estadisticas_basicas e st (df : loc) (rows : DataFrame)
    (Q : unit -> estado -> Prop) :
  objetos st !! df = Some rows -> rows <> [] -> Q tt st ->
  wp (estadisticas_basicas df) e st Q.
Proof.
  intros Hdf Hne HQ. unfold estadisticas_basicas.
  assert (df_columns rows = columnas) as Hcols by (destruct rows; [contradiction | reflexivity]).
  repeat (apply wp_bind; eapply wp_getitem;
          [exact Hdf | rewrite Hcols; reflexivity |]).
  apply wp_ret. exact HQ.
Qed.


Lemma wp_save_dataset e st (df : loc) (rows : DataFrame)
    (Q : string -> estado -> Prop) :
  objetos st !! df = Some rows ->
  Q raw_path (Pd.set_archivos (<[raw_path := rows]> (archivos st)) st) ->
  wp (save_dataset df "data/raw/dataset_raw.csv") e st Q.
Proof.
  intros Hdf HQ. unfold save_dataset. apply wp_bind.
  eexists tt, st. split; [reflexivity |].
  apply wp_bind. eapply wp_to_csv; [exact Hdf |]. apply wp_ret. exact HQ.
Qed.

(** The sample: 1000 distinct row positions of the table, in a new object. *)
Lemma wp_sample e st (df : loc) (rows : DataFrame) :
  objetos st !! df = Some rows -> (1000 <= length rows)%nat ->
  wp (Pd.sample df 1000 42) e st (fun l st' =>
    exists locs,
      muestra_de e rows = Some (omap (fun i => rows !! i) locs)
      /\ NoDup locs /\ length locs = 1000%nat
      /\ (forall i, i ∈ locs -> (i < length rows)%nat)
      /\ l = length (objetos st)
      /\ st' = Pd.set_objetos (objetos st ++ [omap (fun i => rows !! i) locs]) st).
Proof.
  intros Hdf Hlen. unfold Pd.sample. apply wp_bind.
  eapply wp_deref; [exact Hdf |].
  assert (0 <= 1000 <= Z.of_nat (length (seq 0 (length rows)))) as Hn
    by (rewrite length_seq; lia).
  destruct (sale_np_choice_no_replace e (seq 0 (length rows)) 1000 Hn
              (Pd.random_state 42 st))
    as (locs & stl & Hrun & (Hl & resto & Hperm) & _).
  assert (muestra_de e rows = Some (omap (fun i => rows !! i) locs)) as Hm.
  { unfold muestra_de.
    pose proof (draw_without_replacement_stream (Z.to_nat 1000)
                  (seq 0 (length rows)) e e
                  (Pd.random_state 42 st_inicial) (Pd.random_state 42 st)
                  (fun _ => eq_refl) eq_refl) as H.
    unfold Np.choice_no_replace in Hrun |- *.
    destruct (1000 <? 0); [discriminate |].
    destruct (Z.of_nat _ <? 1000); [discriminate |].
    rewrite Hrun in H.
    destruct (Np.draw_without_replacement _ _ e (Pd.random_state 42 st_inicial))
      as [[l1 s1] |]; cbn [option_map fst] in H; [| discriminate].
    injection H as ->. reflexivity. }
  unfold wp. rewrite Hrun.
  eexists _, _. split; [reflexivity |].
  exists locs. split; [exact Hm |].
  pose proof (NoDup_seq 0 (length rows)) as Hs. rewrite Hperm in Hs.
  apply NoDup_app in Hs as (Hs & _ & _).
  split; [exact Hs |].
  split; [rewrite Hl; reflexivity |].
  split; [| split; reflexivity].
  intros i Hi.
  assert (i ∈ seq 0 (length rows)) as Hseq.
  { rewrite Hperm. apply elem_of_app. left. exact Hi. }
  apply elem_of_seq in Hseq. lia.
Qed.

Lemma wp_guardar_muestra e st (df : loc) (rows : DataFrame) :
  objetos st !! df = Some rows ->
  wp (guardar_muestra df) e st (fun _ st' =>
    if (1000 <? length rows)%nat then
      exists locs,
        muestra_de e rows = Some (omap (fun i => rows !! i) locs)
        /\ NoDup locs /\ length locs = 1000%nat
        /\ (forall i, i ∈ locs -> (i < length rows)%nat)
        /\ archivos st'
           = <[sample_path := omap (fun i => rows !! i) locs]> (archivos st)
    else st' = st).
Proof.
  intros Hdf. unfold guardar_muestra. apply wp_bind.
  eapply wp_len; [exact Hdf |].
  destruct (1000 <? length rows)%nat eqn:E; [| apply wp_ret; reflexivity].
  apply Nat.ltb_lt in E.
  apply wp_bind.
  eapply wp_mono; [apply (wp_sample e st df rows Hdf); lia |].
  intros l st1 (locs & Hm & Hnd & Hl & Hlt & -> & ->). cbn beta.
  eapply wp_to_csv.
  { cbn [objetos Pd.set_objetos]. apply list_lookup_middle. reflexivity. }
  exists locs. repeat split; assumption.
Qed.

(** C9, as stated, fails: for a 20-row table no sample file is written,
    where the claim expects one of min(1000, 20) = 20 rows. *)
Lemma no_sample_for_small_table :
  exists st',
    objetos st_demo !! 0%nat = Some tabla_demo
    /\ length tabla_demo = 20%nat
    /\ Nat.min 1000 (length tabla_demo) = 20%nat
    /\ archivos st_demo !! sample_path = None
    /\ guardar_muestra 0%nat e_demo st_demo = Some (tt, st')
    /\ archivos st' !! sample_path = None.
Proof.
  eexists. split; [reflexivity |]. split; [reflexivity |].
  split; [reflexivity |].
  split; [reflexivity |]. split; [reflexivity |]. reflexivity.
Qed.

(** C9, amended. For a table of more than 1000 rows, [main] writes a
    secondary file of exactly 1000 rows taken at distinct positions of the
    table, so every order id of the sample is an order id of the table; the
    file is a function of the table and of the generator seeded with 42: any
    run on the same table writes the same file.  For a table of at most 1000
    rows no secondary file is written. *)
Theorem sample_file_written (e : entorno) (st : estado) (df : loc)
    (rows : DataFrame) :
  objetos st !! df = Some rows ->
  wp (guardar_muestra df) e st (fun _ st' =>
    if (1000 <? length rows)%nat then
      exists locs muestra,
        archivos st' = <[sample_path := muestra]> (archivos st)
        /\ muestra = omap (fun i => rows !! i) locs
        /\ length muestra = Nat.min 1000 (length rows)
        /\ length muestra = 1000%nat
        /\ NoDup locs
        /\ (forall r, r ∈ muestra -> r ∈ rows)
        /\ (forall r, r ∈ muestra -> order_id r ∈ map order_id rows)
        /\ (forall e2 st2 df2,
              objetos st2 !! df2 = Some rows ->
              (forall k, mt19937 e2 42 k = mt19937 e 42 k) ->
              wp (guardar_muestra df2) e2 st2 (fun _ st2' =>
                archivos st2' !! sample_path = Some muestra))
    else st' = st).
Proof.
  intros Hdf.
  eapply wp_mono; [apply (wp_guardar_muestra e st df rows Hdf) |].
  intros u st'. cbn beta.
  destruct (1000 <? length rows)%nat eqn:E; [| auto].
  intros (locs & Hm & Hnd & Hl & Hlt & Ha).
  apply Nat.ltb_lt in E.
  assert (forall r, r ∈ omap (fun i => rows !! i) locs -> r ∈ rows) as Hsub.
  { intros r Hr. apply list_elem_of_omap in Hr as (i & _ & Hi).
    apply list_elem_of_lookup. eauto. }
  exists locs, (omap (fun i => rows !! i) locs).
  split; [exact Ha |]. split; [reflexivity |].
  split; [rewrite length_omap_lookup by exact Hlt; lia |].
  split; [rewrite length_omap_lookup by exact Hlt; exact Hl |].
  split; [exact Hnd |].
  split; [exact Hsub |].
  split.
  { intros r Hr. apply list_elem_of_In, in_map, list_elem_of_In. auto. }
  intros e2 st2 df2 Hdf2 Hmt.
  eapply wp_mono; [apply (wp_guardar_muestra e2 st2 df2 rows Hdf2) |].
  intros u2 st2'. cbn beta.
  apply Nat.ltb_lt in E. rewrite E.
  intros (locs2 & Hm2 & _ & _ & _ & Ha2).
  rewrite Ha2, lookup_insert_eq.
  rewrite (muestra_de_stream e2 e rows Hmt) in Hm2. congruence.
Qed.

Lemma sample_file_written_witness :
  objetos st_grande !! 0%nat = Some tabla_grande
  /\ length tabla_grande = 1001%nat
  /\ wp (guardar_muestra 0%nat) e_demo st_grande (fun _ st' =>
       if (1000 <? length tabla_grande)%nat then
         exists locs muestra,
           archivos st' = <[sample_path := muestra]> (archivos st_grande)
           /\ muestra = omap (fun i => tabla_grande !! i) locs
           /\ length muestra = Nat.min 1000 (length tabla_grande)
           /\ length muestra = 1000%nat
           /\ NoDup locs
           /\ (forall r, r ∈ muestra -> r ∈ tabla_grande)
           /\ (forall r, r ∈ muestra -> order_id r ∈ map order_id tabla_grande)
           /\ (forall e2 st2 df2,
                 objetos st2 !! df2 = Some tabla_grande ->
                 (forall k, mt19937 e2 42 k = mt19937 e_demo 42 k) ->
                 wp (guardar_muestra df2) e2 st2 (fun _ st2' =>
                   archivos st2' !! sample_path = Some muestra))
       else st' = st_grande).
Proof.
  split; [reflexivity |]. split; [reflexivity |].
  exact (sample_file_written e_demo st_grande 0%nat tabla_grande eq_refl).
Defined.

(* ===================================================================== *)
(** * Reproducibility *)
(* ===================================================================== *)

Lemma set_nan_order_date (columna : string) (poner : registro -> registro)
    (r : registro) :
  set_nan columna = Some poner -> order_date (poner r) = order_date r.
Proof.
  unfold set_nan. intros H.
  repeat (destruct (String.eqb columna _);
          [injection H as <-; reflexivity |]).
  discriminate.
Qed.

(** No defect changes the order date of the first row. *)
Lemma order_date_primera_con_defecto (d : defecto) (idx : nat) (rows : DataFrame) :
  option_map order_date (con_defecto d idx rows !! 0%nat)
  = option_map order_date (rows !! 0%nat).
Proof.
  destruct idx as [| i].
  - destruct d; cbn [con_defecto]; try reflexivity;
      try (rewrite list_lookup_alter_eq; destruct (rows !! 0%nat); reflexivity).
    destruct (set_nan columna) as [poner |] eqn:E; [| reflexivity].
    rewrite list_lookup_alter_eq. destruct (rows !! 0%nat) as [r |]; [| reflexivity].
    cbn. rewrite (set_nan_order_date _ _ r E). reflexivity.
  - rewrite lookup_con_defecto_ne by lia. reflexivity.
Qed.

Lemma order_date_primera_aplicar_defectos (plan : list (nat * defecto)) :
  forall rows : DataFrame,
    option_map order_date (aplicar_defectos plan rows !! 0%nat)
    = option_map order_date (rows !! 0%nat).
Proof.
  induction plan as [| [idx d] plan IH]; intros rows; [reflexivity |].
  cbn [aplicar_defectos fold_left fst snd].
  change (fold_left _ plan ?x) with (aplicar_defectos plan x).
  rewrite IH. apply order_date_primera_con_defecto.
Qed.

Lemma wp___init__ e st (seed : Z) (n : nat) :
  wp (__init__ seed n) e st (fun g st' =>
    g = {| self_seed := seed; n_records := n |}
    /\ np_seed st' = seed /\ np_pos st' = 0%nat
    /\ objetos st' = objetos st /\ archivos st' = archivos st).
Proof.
  eexists _, _. split; [reflexivity |]. cbn. auto.
Qed.

(** A run of [main]: the main file holds the returned table, whose first
    row carries an order date of the year before a clock reading. *)
Lemma wp_main_con e st (seed : Z) (n : nat) :
  (0 < n)%nat ->
  wp (main_con seed n) e st (fun df st' =>
    exists tabla,
      archivos st' !! raw_path = Some tabla
      /\ length tabla = n
      /\ ((0 < n)%nat ->
          exists r k, tabla !! 0%nat = Some r
                      /\ reloj e k - Fk.un_anio <= order_date r <= reloj e k)).
Proof.
  intros Hpos. unfold main_con. apply wp_bind.
  eapply wp_mono; [apply wp___init__ |].
  intros g st0 (-> & _ & _ & Ho0 & Ha0). cbn beta.
  apply wp_bind.
  eapply wp_mono; [apply wp_generate_dataset_errores |].
  intros df st1 (datos & plan & Hlen & Hlimpio & _ & _ & _ & _ & Hdf & Ho1 & Ha1).
  cbn beta. cbn [n_records] in Hlen.
  set (sucio := aplicar_defectos plan datos) in *.
  assert (objetos st1 !! df = Some sucio) as Hsucio.
  { rewrite Ho1, Hdf.
    rewrite lookup_app_r by lia.
    replace (S (length (objetos st0)) - length (objetos st0))%nat with 1%nat by lia.
    reflexivity. }
  assert (sucio <> []) as Hfilas.
  { intros E. apply (f_equal length) in E. unfold sucio in E.
    rewrite length_aplicar_defectos, Hlen in E. cbn in E. lia. }
  apply wp_bind. eapply wp_estadisticas_basicas; [exact Hsucio | exact Hfilas |].
  apply wp_bind. eapply wp_save_dataset; [exact Hsucio |].
  set (st2 := Pd.set_archivos _ st1).
  apply wp_bind.
  eapply wp_mono; [apply (wp_guardar_muestra e st2 df sucio Hsucio) |].
  intros u st3 Hst3. cbn beta. apply wp_ret.
  exists sucio.
  assert (archivos st3 !! raw_path = Some sucio) as Hfile.
  { destruct (1000 <? length sucio)%nat.
    - destruct Hst3 as (locs & _ & _ & _ & _ & ->).
      rewrite lookup_insert_ne by discriminate.
      cbn [st2 archivos Pd.set_archivos]. apply lookup_insert_eq.
    - rewrite Hst3. cbn [st2 archivos Pd.set_archivos]. apply lookup_insert_eq. }
  split; [exact Hfile |].
  split; [unfold sucio; rewrite length_aplicar_defectos; exact Hlen |].
  intros Hn.
  destruct (lookup_lt_is_Some_2 datos 0) as [r0 Hr0]; [lia |].
  pose proof (order_date_primera_aplicar_defectos plan datos) as Hfecha.
  fold sucio in Hfecha. rewrite Hr0 in Hfecha.
  destruct (sucio !! 0%nat) as [r |] eqn:Hr; [| discriminate].
  cbn in Hfecha. injection Hfecha as Hfecha.
  destruct (rl_order_date _ _ _ (Hlimpio 0%nat r0 Hr0)) as (k & Hk).
  exists r, k. split; [reflexivity |]. rewrite Hfecha. exact Hk.
Qed.

(** C2. Two runs with the same seed and row count, on the same numpy
    generator and even the same Faker stream, write different main files
    when the second run starts more than a year after the first: the order
    dates are drawn in the year before the wall-clock time of the run. *)
Theorem same_seed_runs_differ (e1 e2 : entorno) (st : estado) (seed : Z) (n : nat) :
  (0 < n)%nat ->
  (forall s k, mt19937 e1 s k = mt19937 e2 s k) ->
  (forall k, fk_draws e1 k = fk_draws e2 k) ->
  (forall j k, reloj e1 j + Fk.un_anio < reloj e2 k) ->
  exists df1 st1 df2 st2 f1 f2,
    main_con seed n e1 st = Some (df1, st1)
    /\ main_con seed n e2 st = Some (df2, st2)
    /\ archivos st1 !! raw_path = Some f1
    /\ archivos st2 !! raw_path = Some f2
    /\ length f1 = n /\ length f2 = n
    /\ f1 <> f2.
Proof.
  intros Hn _ _ Hreloj.
  destruct (wp_main_con e1 st seed n Hn) as (df1 & st1 & Hrun1 & f1 & Hf1 & Hl1 & Hd1).
  destruct (wp_main_con e2 st seed n Hn) as (df2 & st2 & Hrun2 & f2 & Hf2 & Hl2 & Hd2).
  exists df1, st1, df2, st2, f1, f2.
  repeat (split; [assumption |]).
  destruct (Hd1 Hn) as (r1 & k1 & Hr1 & Hk1).
  destruct (Hd2 Hn) as (r2 & k2 & Hr2 & Hk2).
  intros Heq. subst f2. rewrite Hr1 in Hr2. injection Hr2 as <-.
  specialize (Hreloj k1 k2). lia.
Qed.

Lemma same_seed_runs_differ_witness :
  exists df1 st1 df2 st2 f1 f2,
    main_con 42 1 e_demo st_inicial = Some (df1, st1)
    /\ main_con 42 1 e_demo_tarde st_inicial = Some (df2, st2)
    /\ archivos st1 !! raw_path = Some f1
    /\ archivos st2 !! raw_path = Some f2
    /\ length f1 = 1%nat /\ length f2 = 1%nat
    /\ f1 <> f2.
Proof.
  apply (same_seed_runs_differ e_demo e_demo_tarde st_inicial 42 1).
  - lia.
  - reflexivity.
  - reflexivity.
  - intros j k. unfold Fk.un_anio. cbn. lia.
Defined.

(* ===================================================================== *)
(** * Further properties of the synthesizer *)
(* ===================================================================== *)

(** ** The steps of the synthesizer, in more detail *)

Lemma sale__generar_datos_cliente_grupo e :
  sale e _generar_datos_cliente
       (fun c => c_customer_age_group c ∈ ["18-24"; "25-34"; "35-44"; "45-54"; "55+"]
                 /\ 0 <= c_customer_loyalty_months c <= 60
                 /\ 0 <= c_purchase_frequency c).
Proof.
  unfold _generar_datos_cliente.
  eapply sale_bind; [apply sale_np_choice_p; reflexivity |].
  intros edad Hedad.
  eapply sale_bind; [apply sale_np_exponential; lra |].
  intros lealtad Hl.
  eapply sale_bind; [apply sale_np_poisson |].
  intros frecuencia Hf.
  apply sale_ret.
  cbn [c_customer_age_group c_customer_loyalty_months c_purchase_frequency].
  pose proof (int_of_float_nonneg lealtad Hl). cbn beta in *.
  split; [exact Hedad | lia].
Qed.

Lemma sale__generar_datos_pago_msi e monto_total :
  sale e (_generar_datos_pago monto_total)
       (fun g =>
          g_payment_method g ∈ dict_keys metodos_pago
          /\ g_transaction_status g ∈ ["Autorizada"; "En revisión"; "Rechazada"]
          /\ g_payment_installments g ∈ [1; 3; 6; 12; 18]
          /\ (g_payment_installments g <> 1 ->
              g_payment_method g = "Tarjeta de Crédito"
              /\ g_transaction_status g = "Autorizada")).
Proof.
  unfold _generar_datos_pago.
  eapply sale_bind; [apply sale_np_choice_p; reflexivity |].
  intros metodo Hmetodo.
  eapply sale_bind; [apply sale_np_random |]. intros u _.
  apply sale_bind with
    (P := fun s => s ∈ ["Autorizada"; "En revisión"; "Rechazada"]).
  { destruct (Qltb u _); [apply sale_ret; repeat constructor |].
    eapply sale_bind; [apply sale_np_random |]. intros u2 _.
    destruct (Qltb u2 _); apply sale_ret; repeat constructor. }
  intros status Hstatus.
  apply sale_bind with
    (P := fun msi => msi ∈ [1; 3; 6; 12; 18]
                     /\ (msi <> 1 -> metodo = "Tarjeta de Crédito"
                                     /\ status = "Autorizada")).
  { destruct (_ && _) eqn:E.
    - apply andb_true_iff in E as [E1 E2].
      apply String.eqb_eq in E1, E2.
      eapply sale_mono; [apply sale_np_choice_p; reflexivity |].
      intros msi Hmsi. cbn beta. auto.
    - apply sale_ret. split; [repeat constructor | intros H; congruence]. }
  intros msi [Hmsi Hcredito]. apply sale_ret.
  cbn [g_payment_method g_transaction_status g_payment_installments]. auto.
Qed.

Lemma calificacion_base_de_eq (d : Z) :
  (if d <=? 0 then 5
   else if d <=? 2 then 4 else if d <=? 5 then 3 else if d <=? 10 then 2 else 1)
  = calificacion_base_de d.
Proof. reflexivity. Qed.

Lemma sale_generar_registro_detalle e (i : nat) :
  sale e (generar_registro i) registro_detalle.
Proof.
  unfold generar_registro.
  eapply sale_bind; [apply sale_fk_random_int; lia |].
  intros cust _.
  eapply sale_bind; [apply sale__generar_datos_cliente_grupo |].
  intros datos_cliente (Hedad & Hlealtad & Hfrecuencia).
  eapply sale_bind; [apply sale_np_choice; discriminate |].
  intros estado_cliente Hestado.
  eapply sale_bind; [apply sale__get_random_categoria |].
  intros categoria Hcategoria.
  eapply sale_bind; [apply sale__generar_datos_producto_rango; exact Hcategoria |].
  intros datos_producto (info & Hinfo & Hpmin & Hpmax & Hwlo & Hwhi & Hcantidad).
  eapply sale_bind; [apply sale__get_random_transportista |].
  intros transportista Htransportista.
  eapply sale_bind; [apply sale_np_random |].
  intros u _.
  eapply sale_bind;
    [apply sale__generar_fechas_realistas; exact Htransportista |].
  intros fechas _.
  apply sale_bind with
    (P := fun dt : Z * string =>
            (snd dt = "local" /\ 0 <= fst dt < 50
             \/ snd dt = "regional" /\ 50 <= fst dt < 300
             \/ snd dt = "nacional" /\ 300 <= fst dt < 1500)).
  { destruct (String.eqb estado_cliente _);
      [| destruct (String.eqb (_get_region_from_estado estado_cliente) _)];
      (eapply sale_bind; [apply sale_np_randint; lia |]);
      intros d Hd; apply sale_ret; cbn [fst snd]; cbn beta in Hd; auto. }
  intros [distancia_km_ tipo_distancia] Hdist. cbn [fst snd] in Hdist.
  assert (tipo_distancia ∈ tipos_distancia) as Htipo_in.
  { unfold tipos_distancia.
    destruct Hdist as [[-> _] | [[-> _] | [-> _]]]; repeat constructor. }
  eapply sale_bind; [apply sale__calcular_costo_envio; exact Htransportista |].
  intros costo_envio _.
  eapply sale_bind; [apply sale__generar_datos_pago_msi |].
  intros datos_pago (Hmetodo & Hstatus & Hmsi & Hcredito).
  eapply sale_bind; [apply sale_np_choice_p; reflexivity |].
  intros canal_venta Hcanal.
  destruct (tiempos_base_total transportista tipo_distancia Htransportista Htipo_in)
    as (por_tipo & base & Hpt & Hbase & _).
  apply sale_bind with (P := fun x => x = por_tipo);
    [eapply sale_lift; [exact Hpt | reflexivity] |].
  intros ? ->.
  apply sale_bind with (P := fun x => x = base);
    [eapply sale_lift; [exact Hbase | reflexivity] |].
  intros ? ->.
  eapply sale_bind; [apply sale_np_randint; lia |].
  intros jitter Hjitter.
  apply sale_bind with
    (P := fun p => p ∈ ["Ninguno"; "Retraso"; "Paquete dañado"; "Extraviado";
                        "Entregado en lugar equivocado"]).
  { destruct (2 <? _); apply sale_np_choice_p; reflexivity. }
  intros problema_entrega Hproblema.
  eapply sale_bind; [apply sale_np_random |].
  intros u_urbano _.
  assert (50 <= p_product_price_mxn datos_producto)%Q as Hprecio.
  { destruct (categorias_total categoria Hcategoria) as (info' & Hinfo' & Hmin & _).
    rewrite Hinfo in Hinfo'. injection Hinfo' as <-.
    eapply Qle_trans; [| exact Hpmin].
    change 50%Q with (inject_Z 50). rewrite <- Zle_Qle. exact Hmin. }
  rewrite (price_nonzero _ Hprecio).
  apply sale_ret.
  rewrite calificacion_base_de_eq.
  constructor;
    cbn [product_category product_price_mxn product_weight_kg
         customer_age_group customer_loyalty_months is_loyal_customer
         purchase_frequency is_frequent_customer is_urban quantity
         shipping_cost_mxn high_value_order distance_km shipping_type
         payment_method transaction_status payment_installments
         platform_name sales_channel customer_delivery_rating
         delivery_delay_days delivery_issue].
  - exists info, (p_product_price_mxn datos_producto). auto.
  - auto.
  - exact Hedad.
  - eexists. split; reflexivity.
  - split; [lia | reflexivity].
  - destruct (Qltb u_urbano _); auto.
  - eexists _, _. repeat split.
  - exists distancia_km_. split; [reflexivity | exact Hdist].
  - exact Hmetodo.
  - exact Hstatus.
  - exact Hmsi.
  - exact Hcredito.
  - exact Hcanal.
  - destruct (String.eqb canal_venta _); reflexivity.
  - exists jitter. cbn beta in Hjitter. split; [lia | reflexivity].
  - exact Hproblema.
Qed.

Lemma wp_generar_registro_todo e st (i : nat) :
  wp (generar_registro i) e st (fun r _ =>
    registro_limpio e i r /\ registro_detalle r).
Proof.
  destruct (sale_generar_registro e i st) as (r & st' & Hrun & Hl & _).
  destruct (sale_generar_registro_detalle e i st) as (r2 & st2 & Hrun2 & Hd & _).
  rewrite Hrun in Hrun2. injection Hrun2 as <- <-.
  exists r, st'. auto.
Qed.

Lemma tiempos_base_rango (t tipo : string) (por_tipo : list (string * Z)) (base : Z) :
  dict_get tiempos_base t = Some por_tipo -> dict_get por_tipo tipo = Some base ->
  1 <= base <= 12.
Proof.
  intros H1 H2. unfold tiempos_base in H1. cbn [dict_get] in H1.
  repeat (destruct (String.eqb t _);
          [injection H1 as <-; cbn [dict_get] in H2;
           repeat (destruct (String.eqb tipo _); [injection H2 as <-; lia |]);
           discriminate |]).
  discriminate.
Qed.

(** ** Product, customer, payment and channel fields *)

(** X1. The price of every record lies in the price band of its category,
    its weight in the weight range of the category, and its quantity
    between 1 and 10. *)
Theorem product_within_category_ranges (e : entorno) (st : estado) (i : nat) :
  wp (generar_registro i) e st (fun r _ =>
    exists info precio,
      dict_get categorias (product_category r) = Some info
      /\ product_price_mxn r = Some precio
      /\ (inject_Z (precio_min info) <= precio)%Q
      /\ (precio <= inject_Z (precio_max info))%Q
      /\ (fst (rango_peso (product_category r)) <= product_weight_kg r)%Q
      /\ (product_weight_kg r <= snd (rango_peso (product_category r)))%Q
      /\ (1 # 10 <= product_weight_kg r)%Q /\ (product_weight_kg r <= 15)%Q
      /\ 1 <= quantity r <= 10).
Proof.
  eapply wp_mono; [apply wp_generar_registro_todo |].
  intros r st' [Hl Hd]. cbn beta.
  destruct (rd_category _ Hd) as (info & precio & Hinfo & Hp & Hmin & Hmax).
  destruct (rd_weight _ Hd) as [Hwlo Hwhi].
  exists info, precio.
  repeat (split; [assumption |]).
  split; [| split; [| exact (rl_quantity _ _ _ Hl)]].
  - eapply Qle_trans; [| exact Hwlo]. unfold rango_peso.
    repeat (destruct (String.eqb _ _)); cbn [fst]; lra.
  - eapply Qle_trans; [exact Hwhi |]. unfold rango_peso.
    repeat (destruct (String.eqb _ _)); cbn [snd]; lra.
Qed.

(** X2. In every record the loyalty tenure lies in 0..60 months and the
    purchase frequency is not negative; the loyal, frequent and high-value
    flags are 1 exactly when tenure > 12, frequency > 3 and price x
    quantity + shipping cost > 5000, the amount being the double sum the
    program compares (it can exceed 5000 when the exact sum of the
    two-decimal values is 5000); the urban flag is 0 or 1. *)
Theorem customer_flags_consistent (e : entorno) (st : estado) (i : nat) :
  wp (generar_registro i) e st (fun r _ =>
    customer_age_group r ∈ ["18-24"; "25-34"; "35-44"; "45-54"; "55+"]
    /\ (exists m, customer_loyalty_months r = Some m /\ 0 <= m <= 60
                  /\ (is_loyal_customer r = 1 <-> 12 < m)
                  /\ (is_loyal_customer r = 0 <-> m <= 12))
    /\ 0 <= purchase_frequency r
    /\ (is_frequent_customer r = 1 <-> 3 < purchase_frequency r)
    /\ (is_frequent_customer r = 0 <-> purchase_frequency r <= 3)
    /\ (is_urban r = 1 \/ is_urban r = 0)
    /\ (exists precio costo,
          product_price_mxn r = Some precio /\ shipping_cost_mxn r = Some costo
          /\ (high_value_order r = 1 <->
              (5000 < F64.add (F64.mul precio (inject_Z (quantity r))) costo)%Q)
          /\ (high_value_order r = 0 <->
              (F64.add (F64.mul precio (inject_Z (quantity r))) costo <= 5000)%Q))).
Proof.
  eapply wp_mono; [apply wp_generar_registro_todo |].
  intros r st' [Hl Hd]. cbn beta.
  split; [exact (rd_age _ Hd) |].
  split.
  { destruct (rd_loyal _ Hd) as (m & Hm & Hflag).
    destruct (rl_loyalty _ _ _ Hl) as (m' & Hm' & Hrange).
    rewrite Hm in Hm'. injection Hm' as <-.
    exists m. split; [exact Hm |]. split; [exact Hrange |].
    rewrite Hflag. destruct (12 <? m) eqn:E;
      [apply Z.ltb_lt in E | apply Z.ltb_ge in E];
      (split; split; intros; try lia; try reflexivity; try discriminate). }
  destruct (rd_frequent _ Hd) as [Hf Hflag].
  split; [exact Hf |].
  split.
  { rewrite Hflag. destruct (3 <? _) eqn:E;
      [apply Z.ltb_lt in E | apply Z.ltb_ge in E];
      (split; intros; try lia; try reflexivity; try discriminate). }
  split.
  { rewrite Hflag. destruct (3 <? _) eqn:E;
      [apply Z.ltb_lt in E | apply Z.ltb_ge in E];
      (split; intros; try lia; try reflexivity; try discriminate). }
  split; [exact (rd_urban _ Hd) |].
  destruct (rd_high_value _ Hd) as (p & c & Hp & Hc & Hflag2).
  exists p, c. split; [exact Hp |]. split; [exact Hc |].
  rewrite Hflag2.
  destruct (Qltb 5000 _) eqn:E.
  - apply Qltb_true in E.
    split; split; intros H; try reflexivity; try discriminate; try exact E.
    exfalso. lra.
  - assert (~ (5000 < F64.add (F64.mul p (inject_Z (quantity r))) c)%Q) as Hn.
    { intros H. apply Qltb_true in H. congruence. }
    split; split; intros H; try reflexivity; try discriminate.
    + contradiction.
    + apply Qnot_lt_le. exact Hn.
Qed.

(** X3. In every record the payment method is one of the five of the table,
    the status one of three, the installment count one of 1, 3, 6, 12, 18;
    an installment count other than 1 occurs only with an authorised credit
    card payment. *)
Theorem installments_only_for_authorised_credit (e : entorno) (st : estado) (i : nat) :
  wp (generar_registro i) e st (fun r _ =>
    payment_method r ∈ dict_keys metodos_pago
    /\ transaction_status r ∈ ["Autorizada"; "En revisión"; "Rechazada"]
    /\ payment_installments r ∈ [1; 3; 6; 12; 18]
    /\ (payment_method r <> "Tarjeta de Crédito" -> payment_installments r = 1)
    /\ (transaction_status r <> "Autorizada" -> payment_installments r = 1)).
Proof.
  eapply wp_mono; [apply wp_generar_registro_todo |].
  intros r st' [_ Hd]. cbn beta.
  split; [exact (rd_method _ Hd) |].
  split; [exact (rd_status _ Hd) |].
  split; [exact (rd_installments _ Hd) |].
  pose proof (rd_installments_credit _ Hd) as Hc.
  split; intros Hne;
    (destruct (Z.eq_dec (payment_installments r) 1) as [H1 | H1];
     [exact H1 | destruct (Hc H1); contradiction]).
Qed.

(** X4. In every record the platform is one of the six sales channels, and
    the channel type is "D2C" exactly for the own web site, "Marketplace"
    for the other five. *)
Theorem sales_channel_type (e : entorno) (st : estado) (i : nat) :
  wp (generar_registro i) e st (fun r _ =>
    platform_name r ∈ dict_keys canales_venta
    /\ (sales_channel r = "D2C" <-> platform_name r = "Sitio Web Propio")
    /\ (sales_channel r = "Marketplace" <-> platform_name r <> "Sitio Web Propio")).
Proof.
  eapply wp_mono; [apply wp_generar_registro_todo |].
  intros r st' [_ Hd]. cbn beta.
  split; [exact (rd_platform _ Hd) |].
  rewrite (rd_channel _ Hd).
  destruct (String.eqb (platform_name r) _) eqn:E.
  - apply String.eqb_eq in E.
    split; split; intros H; try reflexivity; try assumption;
      try discriminate; contradiction.
  - apply String.eqb_neq in E.
    split; split; intros H; try reflexivity; try assumption;
      try discriminate; contradiction.
Qed.

Lemma calificacion_base_de_casos (d : Z) :
  d <= 0 /\ calificacion_base_de d = 5
  \/ 0 < d <= 2 /\ calificacion_base_de d = 4
  \/ 2 < d <= 5 /\ calificacion_base_de d = 3
  \/ 5 < d <= 10 /\ calificacion_base_de d = 2
  \/ 10 < d /\ calificacion_base_de d = 1.
Proof.
  unfold calificacion_base_de.
  destruct (d <=? 0) eqn:E0; [apply Z.leb_le in E0; auto |].
  destruct (d <=? 2) eqn:E2; [apply Z.leb_le in E2; apply Z.leb_gt in E0; auto |].
  destruct (d <=? 5) eqn:E5;
    [apply Z.leb_le in E5; apply Z.leb_gt in E2; right; right; left; auto |].
  destruct (d <=? 10) eqn:E10;
    [apply Z.leb_le in E10; apply Z.leb_gt in E5; right; right; right; left; auto |].
  apply Z.leb_gt in E10. right; right; right; right. auto.
Qed.

(** X5. The rating of every record lies in 1..5 and within one point of the
    step function of the delay: 4 or 5 for a delivery on time, 1 or 2 for a
    delay of more than 10 days; the delivery issue is one of the five
    categories. *)
Theorem rating_follows_delay (e : entorno) (st : estado) (i : nat) :
  wp (generar_registro i) e st (fun r _ =>
    1 <= customer_delivery_rating r <= 5
    /\ calificacion_base_de (delivery_delay_days r) - 1
       <= customer_delivery_rating r
       <= calificacion_base_de (delivery_delay_days r) + 1
    /\ (delivery_delay_days r <= 0 -> 4 <= customer_delivery_rating r)
    /\ (0 < delivery_delay_days r <= 2 -> 3 <= customer_delivery_rating r)
    /\ (2 < delivery_delay_days r <= 5 -> 2 <= customer_delivery_rating r <= 4)
    /\ (5 < delivery_delay_days r <= 10 -> customer_delivery_rating r <= 3)
    /\ (10 < delivery_delay_days r -> customer_delivery_rating r <= 2)
    /\ delivery_issue r ∈ ["Ninguno"; "Retraso"; "Paquete dañado"; "Extraviado";
                           "Entregado en lugar equivocado"]).
Proof.
  eapply wp_mono; [apply wp_generar_registro_todo |].
  intros r st' [_ Hd]. cbn beta.
  destruct (rd_rating _ Hd) as (j & Hj & Hr).
  pose proof (calificacion_base_de_casos (delivery_delay_days r)) as Hb.
  split; [lia |]. split; [lia |].
  split; [intros H; lia |]. split; [intros H; lia |].
  split; [intros H; lia |]. split; [intros H; lia |].
  split; [intros H; lia |].
  exact (rd_issue _ Hd).
Qed.

(** ** Logistics fields *)

Lemma tipo_envio_de_cdmx (estado : string) :
  tipo_envio_de "Ciudad de México" estado
  = (if String.eqb estado "Ciudad de México" then "local"
     else if String.eqb (_get_region_from_estado estado) "Centro" then "regional"
     else "nacional").
Proof.
  unfold tipo_envio_de.
  rewrite (String.eqb_sym "Ciudad de México" estado).
  change (_get_region_from_estado "Ciudad de México") with "Centro".
  rewrite (String.eqb_sym "Centro" (_get_region_from_estado estado)).
  reflexivity.
Qed.

(** X6. The distance class stored in a record is the class the transit-time
    computation used for the same destination; it is "local" exactly for the
    origin state; and the distance lies in the range of the class: under 50
    km local, 50 to 299 regional, 300 to 1499 national. *)
Theorem distance_class_and_range (e : entorno) (st : estado) (i : nat) :
  wp (generar_registro i) e st (fun r _ =>
    shipping_type r = tipo_envio_de "Ciudad de México" (customer_state r)
    /\ (shipping_type r = "local" <-> customer_state r = "Ciudad de México")
    /\ exists d,
         distance_km r = Some d
         /\ (shipping_type r = "local" /\ 0 <= d < 50
             \/ shipping_type r = "regional" /\ 50 <= d < 300
             \/ shipping_type r = "nacional" /\ 300 <= d < 1500)).
Proof.
  eapply wp_mono; [apply wp_generar_registro_todo |].
  intros r st' [Hl Hd]. cbn beta.
  pose proof (rl_type _ _ _ Hl) as Htipo.
  rewrite (rl_region _ _ _ Hl) in Htipo.
  split; [rewrite tipo_envio_de_cdmx; exact Htipo |].
  split; [| exact (rd_distance _ Hd)].
  rewrite Htipo.
  destruct (String.eqb (customer_state r) _) eqn:E.
  - apply String.eqb_eq in E. split; auto.
  - apply String.eqb_neq in E.
    destruct (String.eqb _ "Centro"); split; intros H;
      try discriminate; contradiction.
Qed.

(** X7. The promised days of every record lie between 1 and the base
    transit time of its carrier and distance class, which is at most 12;
    a standard shipment is promised exactly the base time; so the delay is
    never below 1 - base. *)
Theorem promised_days_bounds (e : entorno) (st : estado) (i : nat) :
  wp (generar_registro i) e st (fun r _ =>
    exists por_tipo base,
      dict_get tiempos_base (shipping_carrier r) = Some por_tipo
      /\ dict_get por_tipo (shipping_type r) = Some base
      /\ 1 <= base <= 12
      /\ 1 <= promised_delivery_days r <= base
      /\ (shipping_tier r = "Estándar" -> promised_delivery_days r = base)
      /\ 1 - base <= delivery_delay_days r).
Proof.
  eapply wp_mono; [apply wp_generar_registro_todo |].
  intros r st' [Hl _]. cbn beta.
  destruct (rl_promised _ _ _ Hl) as (por_tipo & base & Hpt & Hbase & Hprom).
  pose proof (tiempos_base_rango _ _ _ _ Hpt Hbase) as Hrange.
  exists por_tipo, base.
  split; [exact Hpt |]. split; [exact Hbase |]. split; [exact Hrange |].
  assert (1 <= actual_delivery_days r) as Hactual.
  { rewrite (rl_actual _ _ _ Hl), (rl_delivered _ _ _ Hl).
    rewrite days_between_timedelta. lia. }
  pose proof (rl_delay _ _ _ Hl) as Hdelay.
  destruct (rl_tier _ _ _ Hl) as [Ht | Ht]; rewrite Ht in Hprom; cbn in Hprom.
  - split; [lia |]. split; [rewrite Ht; discriminate | lia].
  - split; [lia |]. split; [intros _; exact Hprom | lia].
Qed.

Lemma costo_envio_rango e (i : nat) (r : registro) :
  registro_limpio e i r -> registro_detalle r ->
  exists costo,
    shipping_cost_mxn r = Some costo
    /\ (72 <= costo)%Q /\ (costo <= 1782)%Q.
Proof.
  intros Hl Hd.
  destruct (rl_cost _ _ _ Hl) as (info & v & Hinfo & Hvlo & Hvhi & _ & Hcosto).
  destruct (rl_weight _ _ _ Hl) as [Hw1 Hw2].
  eexists. split; [exact Hcosto |].
  apply costo_rango; try assumption.
  - exact (transportistas_costo_base _ _ Hinfo).
  - exact (proj1 (ajuste_distancia_rango _)).
  - exact (proj2 (ajuste_distancia_rango _)).
  - exact (proj1 (ajuste_express_rango _)).
  - exact (proj2 (ajuste_express_rango _)).
Qed.

(** X8. The shipping cost of every record lies between 72 and 1782 pesos:
    the cheapest carrier at minimum weight, at least 0.9 x 80, and the
    dearest at 15 kg, national and express, at most 1.1 x 405 x 4. *)
Theorem shipping_cost_bounds (e : entorno) (st : estado) (i : nat) :
  wp (generar_registro i) e st (fun r _ =>
    exists costo,
      shipping_cost_mxn r = Some costo
      /\ (72 <= costo)%Q /\ (costo <= 1782)%Q).
Proof.
  eapply wp_mono; [apply wp_generar_registro_todo |].
  intros r st' [Hl Hd]. cbn beta.
  exact (costo_envio_rango e i r Hl Hd).
Qed.

(** X17. The order total of every record is the unit price times the
    quantity plus the shipping cost, rounded to two places; it lies between
    122 and 351782 pesos and is never below the unrounded unit price. *)
Theorem order_total_bounds (e : entorno) (st : estado) (i : nat) :
  wp (generar_registro i) e st (fun r _ =>
    exists precio costo,
      product_price_mxn r = Some precio
      /\ shipping_cost_mxn r = Some costo
      /\ total_amount_mxn r
         = Py.round_nd (precio * inject_Z (quantity r) + costo) 2
      /\ (122 <= total_amount_mxn r)%Q
      /\ (total_amount_mxn r <= 351782)%Q
      /\ (Py.round_nd precio 2 <= total_amount_mxn r)%Q).
Proof.
  eapply wp_mono; [apply wp_generar_registro_todo |].
  intros r st' [Hl Hd]. cbn beta.
  destruct (rl_total _ _ _ Hl) as (p & c & Hp & Hc & Htotal).
  destruct (costo_envio_rango e i r Hl Hd) as (c' & Hc' & Hclo & Hchi).
  rewrite Hc in Hc'. injection Hc' as <-.
  destruct (rd_category _ Hd) as (info & p' & Hinfo & Hp' & Hplo & Hphi).
  rewrite Hp in Hp'. injection Hp' as <-.
  destruct (rl_price _ _ _ Hl) as (p' & Hp' & Hp50).
  rewrite Hp in Hp'. injection Hp' as <-.
  pose proof (categorias_precio_max _ _ Hinfo) as Hmax.
  rewrite Zle_Qle in Hmax. change (inject_Z 35000) with 35000%Q in Hmax.
  pose proof (rl_quantity _ _ _ Hl) as [Hq1 Hq10].
  rewrite Zle_Qle in Hq1, Hq10.
  change (inject_Z 1) with 1%Q in Hq1. change (inject_Z 10) with 10%Q in Hq10.
  set (q := inject_Z (quantity r)) in *. clearbody q.
  exists p, c.
  split; [exact Hp |]. split; [exact Hc |]. split; [exact Htotal |].
  rewrite Htotal.
  change 122%Q with (inject_Z 122). change 351782%Q with (inject_Z 351782).
  split; [apply round_nd_ge; change (inject_Z 122) with 122%Q; nra |].
  split; [apply round_nd_le_Z; change (inject_Z 351782) with 351782%Q; nra |].
  apply round_nd_mono. nra.
Qed.

(* ===================================================================== *)
(** * Order ids *)
(* ===================================================================== *)

Lemma of_uint_string_of_uint (d : Decimal.uint) :
  option_map Nat.of_uint (NilEmpty.uint_of_string (NilZero.string_of_uint d))
  = Some (Nat.of_uint d).
Proof.
  destruct d; try reflexivity;
    unfold NilZero.string_of_uint; rewrite NilEmpty.usu; reflexivity.
Qed.

Lemma uint_of_string_zeros (k : nat) (s : string) :
  option_map Nat.of_uint (NilEmpty.uint_of_string (String.append (Py.zeros k) s))
  = option_map Nat.of_uint (NilEmpty.uint_of_string s).
Proof.
  induction k as [| k IH]; [reflexivity |].
  cbn [Py.zeros].
  change (String.append (String "0" (Py.zeros k)) s)
    with (String "0" (String.append (Py.zeros k) s)).
  cbn [NilEmpty.uint_of_string]. rewrite <- IH.
  destruct (NilEmpty.uint_of_string (String.append (Py.zeros k) s)) as [d |];
    reflexivity.
Qed.

Lemma str_of_nat_nonempty (n : nat) : Py.str_of_nat n <> "".
Proof.
  unfold Py.str_of_nat, NilZero.string_of_uint.
  destruct (Nat.to_uint n); discriminate.
Qed.

(** The digits of an order id read back as the row index. *)
Lemma int_of_str_zfill (w n : nat) : int_of_str (Py.zfill w n) = Some n.
Proof.
  unfold int_of_str, Py.zfill.
  assert (NilZero.uint_of_string
            (String.append (Py.zeros (w - String.length (Py.str_of_nat n)))
                           (Py.str_of_nat n))
          = NilEmpty.uint_of_string
              (String.append (Py.zeros (w - String.length (Py.str_of_nat n)))
                             (Py.str_of_nat n))) as ->.
  { pose proof (str_of_nat_nonempty n) as Hne.
    destruct (Py.zeros _) as [| c z]; cbn [String.append]; [| reflexivity].
    destruct (Py.str_of_nat n); [congruence | reflexivity]. }
  rewrite uint_of_string_zeros.
  unfold Py.str_of_nat. rewrite of_uint_string_of_uint.
  f_equal. apply DecimalNat.Unsigned.of_to.
Qed.

Lemma append_inj_l (p x y : string) :
  String.append p x = String.append p y -> x = y.
Proof.
  induction p as [| c p IH]; cbn [String.append]; intros H; [exact H |].
  injection H as H. auto.
Qed.

Lemma clean_id_inj (i j : nat) : clean_id i = clean_id j -> i = j.
Proof.
  unfold clean_id. intros H. apply append_inj_l in H.
  apply (f_equal int_of_str) in H. rewrite !int_of_str_zfill in H.
  congruence.
Qed.

Lemma dupes_clean_id_inj (m m' a b : nat) :
  dupes m (clean_id a) = dupes m' (clean_id b) -> m = m' /\ a = b.
Proof.
  revert m'. induction m as [| m IH]; intros [| m'] H.
  - split; [reflexivity | apply clean_id_inj; exact H].
  - unfold clean_id in H. cbn [dupes String.append] in H. discriminate.
  - unfold clean_id in H. cbn [dupes String.append] in H. discriminate.
  - cbn [dupes] in H. apply append_inj_l in H.
    destruct (IH m' H) as [-> ->]. auto.
Qed.

Lemma ids_con_dupes_distintos (rows : DataFrame) :
  ids_con_dupes rows ->
  forall i j ri rj,
    rows !! i = Some ri -> rows !! j = Some rj ->
    order_id ri = order_id rj -> i = j.
Proof.
  intros Hinv i j ri rj Hi Hj Heq.
  destruct (Hinv i ri Hi) as (m & Hm & Hidi).
  destruct (Hinv j rj Hj) as (m' & Hm' & Hidj).
  rewrite Hidi, Hidj in Heq.
  apply dupes_clean_id_inj in Heq as [-> Hsub]. lia.
Qed.

Lemma set_nan_order_id (columna : string) (poner : registro -> registro)
    (r : registro) :
  set_nan columna = Some poner -> order_id (poner r) = order_id r.
Proof.
  unfold set_nan. intros H.
  repeat (destruct (String.eqb columna _);
          [injection H as <-; reflexivity |]).
  discriminate.
Qed.

Lemma ids_con_dupes_alter (f : registro -> registro) (idx : nat) (rows : DataFrame) :
  (forall r, order_id (f r) = order_id r) ->
  ids_con_dupes rows -> ids_con_dupes (alter f idx rows).
Proof.
  intros Hf Hinv i r Hr.
  destruct (decide (idx = i)) as [<- | Hne].
  - rewrite list_lookup_alter_eq in Hr.
    destruct (rows !! idx) as [r0 |] eqn:Hr0; [| discriminate].
    cbn in Hr. injection Hr as <-. rewrite Hf. apply Hinv. exact Hr0.
  - rewrite list_lookup_alter_ne in Hr by exact Hne. apply Hinv. exact Hr.
Qed.

Lemma ids_con_dupes_con_defecto (d : defecto) (idx : nat) (rows : DataFrame) :
  ids_con_dupes rows -> ids_con_dupes (con_defecto d idx rows).
Proof.
  intros Hinv.
  destruct d; cbn [con_defecto];
    try (apply ids_con_dupes_alter; [intros r; reflexivity | exact Hinv]).
  - destruct (set_nan columna) as [poner |] eqn:E; [| exact Hinv].
    apply ids_con_dupes_alter; [| exact Hinv].
    intros r. apply (set_nan_order_id _ _ r E).
  - destruct idx as [| k]; [exact Hinv |].
    destruct (rows !! k) as [anterior |] eqn:Hant; [| exact Hinv].
    intros i r Hr.
    destruct (decide (S k = i)) as [<- | Hne].
    + destruct (lookup_lt_is_Some_2 rows (S k)) as [viejo Hviejo].
      { apply lookup_lt_Some in Hr. rewrite length_insert in Hr. exact Hr. }
      rewrite list_lookup_insert_eq in Hr by (apply lookup_lt_Some in Hviejo; exact Hviejo).
      injection Hr as <-. cbn [order_id set_order_id].
      destruct (Hinv k anterior Hant) as (m & Hm & Hid).
      exists (S m). split; [lia |].
      rewrite Hid. replace (S k - S m)%nat with (k - m)%nat by lia. reflexivity.
    + rewrite list_lookup_insert_ne in Hr by exact Hne. apply Hinv. exact Hr.
Qed.

Lemma ids_con_dupes_aplicar_defectos (plan : list (nat * defecto)) :
  forall rows : DataFrame,
    ids_con_dupes rows -> ids_con_dupes (aplicar_defectos plan rows).
Proof.
  induction plan as [| [idx d] plan IH]; intros rows Hinv; [exact Hinv |].
  cbn [aplicar_defectos fold_left fst snd].
  change (fold_left _ plan ?x) with (aplicar_defectos plan x).
  apply IH. apply ids_con_dupes_con_defecto. exact Hinv.
Qed.

Lemma length_append (a b : string) :
  String.length (String.append a b) = (String.length a + String.length b)%nat.
Proof.
  induction a as [| c a IH]; [reflexivity |].
  change (S (String.length (String.append a b))
          = S (String.length a + String.length b)).
  rewrite IH. reflexivity.
Qed.

Lemma length_zeros (k : nat) : String.length (Py.zeros k) = k.
Proof. induction k as [| k IH]; cbn; [reflexivity | rewrite IH; reflexivity]. Qed.

Lemma length_zfill (w n : nat) : (w <= String.length (Py.zfill w n))%nat.
Proof. unfold Py.zfill. rewrite length_append, length_zeros. lia. Qed.

Lemma datos_ids_con_dupes e (datos : DataFrame) :
  (forall j r, datos !! j = Some r -> registro_limpio e j r) ->
  ids_con_dupes datos.
Proof.
  intros H i r Hr. exists 0%nat. split; [lia |].
  rewrite Nat.sub_0_r. exact (rl_order_id _ _ _ (H i r Hr)).
Qed.

Lemma wp_generate_dataset_limpio e st (self : MexicoEcommerceGenerator) :
  wp (generate_dataset self false) e st (fun df st' =>
    exists datos,
      length datos = n_records self
      /\ (forall j r, datos !! j = Some r -> registro_limpio e j r)
      /\ df = length (objetos st)
      /\ objetos st' = (objetos st ++ [datos])%list
      /\ archivos st' = archivos st).
Proof.
  unfold generate_dataset.
  eapply wp_sale_bind; [apply sale_generar_datos |].
  intros datos st0 [Hlen Hlimpio] Ho Ha.
  apply wp_bind. apply wp_alloc. apply wp_ret.
  exists datos. split; [exact Hlen |].
  split; [intros j r Hr; apply (Hlimpio j r Hr) |].
  cbn [objetos archivos Pd.set_objetos]. rewrite Ho.
  split; [reflexivity |]. split; [reflexivity | exact Ha].
Qed.

(** X9. With the injector off, [generate_dataset] creates one table object
    of [n_records] rows and writes no file; the order id of row i is
    "ECOMMX-2024-" followed by at least five digits that read back as i, so
    no two rows share an order id. *)
Theorem clean_dataset_order_ids (e : entorno) (st : estado)
    (self : MexicoEcommerceGenerator) :
  wp (generate_dataset self false) e st (fun df st' =>
    exists tabla,
      objetos st' = (objetos st ++ [tabla])%list
      /\ df = length (objetos st)
      /\ archivos st' = archivos st
      /\ length tabla = n_records self
      /\ (forall i r, tabla !! i = Some r ->
            exists digitos,
              order_id r = String.append "ECOMMX-2024-" digitos
              /\ (5 <= String.length digitos)%nat
              /\ int_of_str digitos = Some i)
      /\ (forall i j ri rj,
            tabla !! i = Some ri -> tabla !! j = Some rj ->
            order_id ri = order_id rj -> i = j)).
Proof.
  eapply wp_mono; [apply wp_generate_dataset_limpio |].
  intros df st' (datos & Hlen & Hlimpio & Hdf & Ho & Ha). cbn beta.
  exists datos. repeat (split; [assumption |]).
  split.
  - intros i r Hr. exists (Py.zfill 5 i).
    split; [exact (rl_order_id _ _ _ (Hlimpio i r Hr)) |].
    split; [apply length_zfill | apply int_of_str_zfill].
  - apply ids_con_dupes_distintos. apply (datos_ids_con_dupes e). exact Hlimpio.
Qed.

(** X10. With the injector on, the order ids of the returned table are
    still pairwise distinct: the id of row i is the clean id of row i - m
    behind m "DUPE-" prefixes, for some m <= i. *)
Theorem corrupted_dataset_order_ids_distinct (e : entorno) (st : estado)
    (self : MexicoEcommerceGenerator) :
  wp (generate_dataset self true) e st (fun df st' =>
    exists tabla,
      objetos st' !! df = Some tabla
      /\ length tabla = n_records self
      /\ (forall i r, tabla !! i = Some r ->
            exists m, (m <= i)%nat
                      /\ order_id r = dupes m (clean_id (i - m)))
      /\ (forall i j ri rj,
            tabla !! i = Some ri -> tabla !! j = Some rj ->
            order_id ri = order_id rj -> i = j)).
Proof.
  eapply wp_mono; [apply wp_generate_dataset_errores |].
  intros df st' (datos & plan & Hlen & Hlimpio & _ & _ & _ & _ & Hdf & Ho & _).
  cbn beta.
  assert (ids_con_dupes (aplicar_defectos plan datos)) as Hinv.
  { apply ids_con_dupes_aplicar_defectos. apply (datos_ids_con_dupes e).
    exact Hlimpio. }
  exists (aplicar_defectos plan datos).
  split.
  { rewrite Ho, Hdf. rewrite lookup_app_r by lia.
    replace (S (length (objetos st)) - length (objetos st))%nat with 1%nat by lia.
    reflexivity. }
  split; [rewrite length_aplicar_defectos; exact Hlen |].
  split; [exact Hinv | apply ids_con_dupes_distintos; exact Hinv].
Qed.

(* ===================================================================== *)
(** * Edge behaviour of the error-injection pass *)
(* ===================================================================== *)

Lemma bind_Some {A B} (m : M A) (k : A -> M B) e st (b : B) st' :
  bind m k e st = Some (b, st') ->
  exists a st1, m e st = Some (a, st1) /\ k a e st1 = Some (b, st').
Proof.
  unfold bind. destruct (m e st) as [[a st1] |]; [| discriminate].
  intros H. exists a, st1. auto.
Qed.

(** The pass, for any fraction that selects between 0 and N rows. *)
Lemma wp__agregar_errores_controlados_n e st (df : loc) (rows : DataFrame)
    (porcentaje : Q) :
  objetos st !! df = Some rows ->
  0 <= n_errores_de (length rows) porcentaje <= Z.of_nat (length rows) ->
  wp (_agregar_errores_controlados df porcentaje) e st (fun df' st' =>
    exists plan,
      df' = length (objetos st)
      /\ NoDup (map fst plan)
      /\ length plan = Z.to_nat (n_errores_de (length rows) porcentaje)
      /\ (forall idx, idx ∈ map fst plan -> (idx < length rows)%nat)
      /\ Forall (fun p => defecto_valido (snd p)) plan
      /\ objetos st' = (objetos st ++ [aplicar_defectos plan rows])%list
      /\ archivos st' = archivos st).
Proof.
  intros Hdf Hn. unfold _agregar_errores_controlados.
  apply wp_bind. eapply wp_copy; [exact Hdf |].
  set (st1 := Pd.set_objetos (objetos st ++ [rows]) st).
  assert (objetos st1 !! df = Some rows) as Hdf1.
  { cbn. apply lookup_app_l_Some. exact Hdf. }
  assert (objetos st1 !! length (objetos st) = Some rows) as Hcopia.
  { cbn. apply list_lookup_middle. reflexivity. }
  apply wp_bind. eapply wp_len; [exact Hdf1 |].
  apply wp_bind. eapply wp_index; [exact Hdf1 |].
  fold (n_errores_de (length rows) porcentaje).
  eapply wp_sale_bind.
  { apply sale_np_choice_no_replace. rewrite length_seq. exact Hn. }
  intros indices st2 [Hlen [resto Hperm]] Ho2 Ha2.
  assert (NoDup indices /\ forall idx, idx ∈ indices -> (idx < length rows)%nat)
    as [Hnd Hlt].
  { pose proof (NoDup_seq 0 (length rows)) as Hs. rewrite Hperm in Hs.
    apply NoDup_app in Hs as (Hs & _ & _). split; [exact Hs |].
    intros idx Hidx.
    assert (idx ∈ seq 0 (length rows)) as Hseq.
    { rewrite Hperm. apply elem_of_app. left. exact Hidx. }
    apply elem_of_seq in Hseq. lia. }
  apply wp_bind.
  eapply wp_mono.
  { apply (wp_for_each_aplicar_error e (length (objetos st)) indices st2 rows).
    - rewrite Ho2. exact Hcopia.
    - exact Hlt. }
  intros u st3 (plan & Hplan & Hval & Ho3 & Ha3). cbn beta.
  apply wp_ret. exists plan.
  split; [reflexivity |].
  split; [rewrite Hplan; exact Hnd |].
  split; [rewrite <- Hlen, <- Hplan, length_map; reflexivity |].
  split; [rewrite Hplan; exact Hlt |].
  split; [exact Hval |].
  split; [| rewrite Ha3, Ha2; reflexivity].
  rewrite Ho3, Ho2. cbn [st1 objetos Pd.set_objetos].
  rewrite insert_app_r_alt by lia.
  rewrite Nat.sub_diag. reflexivity.
Qed.

Lemma Qfloor_unit (x : Q) : (0 <= x)%Q -> (x < 1)%Q -> Qfloor x = 0.
Proof.
  intros H0 H1.
  pose proof (Qfloor_le x) as Hlo. pose proof (Qlt_floor x) as Hhi.
  assert (inject_Z (Qfloor x) < inject_Z 1)%Q as Ha
    by (change (inject_Z 1) with 1%Q; lra).
  assert (inject_Z 0 < inject_Z (Qfloor x + 1))%Q as Hb
    by (change (inject_Z 0) with 0%Q; lra).
  rewrite <- Zlt_Qlt in Ha, Hb. lia.
Qed.

Lemma Qfloor_entre (k : Z) (x : Q) :
  (inject_Z k <= x)%Q -> (x < inject_Z k + 1)%Q -> Qfloor x = k.
Proof.
  intros H1 H2. apply Z.le_antisymm.
  - assert (Qfloor x < k + 1); [| lia].
    rewrite Zlt_Qlt. eapply Qle_lt_trans; [apply Qfloor_le |].
    rewrite inject_Z_plus. exact H2.
  - rewrite <- (Qfloor_Z k). apply Qfloor_resp_le. exact H1.
Qed.

(** X11. At the fraction 0.05 the program passes, no row of a table of
    fewer than 20 rows is selected: the pass returns a new table object
    whose rows are exactly those of the input, and touches no file. *)
Theorem small_table_copied_unchanged (e : entorno) (st : estado) (df : loc)
    (rows : DataFrame) :
  objetos st !! df = Some rows ->
  (length rows < 20)%nat ->
  wp (_agregar_errores_controlados df (5 # 100)) e st (fun df' st' =>
    df' = length (objetos st)
    /\ objetos st' = (objetos st ++ [rows])%list
    /\ objetos st' !! df' = Some rows
    /\ archivos st' = archivos st).
Proof.
  intros Hdf Hcorta.
  assert (n_errores_de (length rows) (5 # 100) = 0) as Hn.
  { rewrite n_errores_de_5_por_ciento. apply Z.div_small. lia. }
  eapply wp_mono.
  { apply (wp__agregar_errores_controlados_n e st df rows (5 # 100) Hdf).
    rewrite Hn. lia. }
  intros df' st' (plan & Hdf' & _ & Hlen & _ & _ & Ho & Ha). cbn beta.
  rewrite Hn in Hlen. destruct plan; [| discriminate].
  cbn [aplicar_defectos fold_left] in Ho.
  split; [exact Hdf' |]. split; [exact Ho |].
  split; [rewrite Ho, Hdf'; apply list_lookup_middle; reflexivity | exact Ha].
Qed.

Lemma small_table_copied_unchanged_witness :
  objetos st_corta !! 0%nat = Some (take 19 tabla_demo)
  /\ (length (take 19 tabla_demo) < 20)%nat
  /\ wp (_agregar_errores_controlados 0%nat (5 # 100)) e_demo st_corta
       (fun df' st' =>
          df' = length (objetos st_corta)
          /\ objetos st' = (objetos st_corta ++ [take 19 tabla_demo])%list
          /\ objetos st' !! df' = Some (take 19 tabla_demo)
          /\ archivos st' = archivos st_corta).
Proof.
  assert (length (take 19 tabla_demo) < 20)%nat as H1
    by (rewrite length_take; lia).
  split; [reflexivity |]. split; [exact H1 |].
  exact (small_table_copied_unchanged e_demo st_corta 0%nat (take 19 tabla_demo)
           eq_refl H1).
Defined.

Lemma rnd_5_por_ciento :
  (F64.rnd (5 # 100) == 3602879701896397 # 72057594037927936)%Q.
Proof. reflexivity. Qed.

(** X12. The selection size of the pass at the fraction 0.05: truncating
    the double product len(df) * 0.05, as the program does, gives N div 20
    for every table of at most 2^40 rows, which is the size the exact
    product gives. *)
Theorem n_errores_binary64 (n : nat) :
  Z.of_nat n <= 2 ^ 40 ->
  Py.int_of_float (F64.mul (inject_Z (Z.of_nat n)) (5 # 100)) = Z.of_nat n / 20
  /\ n_errores_de n (5 # 100) = Z.of_nat n / 20.
Proof.
  intros Hn. split; [| apply n_errores_de_5_por_ciento].
  set (N := Z.of_nat n) in *.
  assert (0 <= N) as HN0 by (unfold N; lia).
  pose proof (Z.div_mod N 20 ltac:(lia)) as Hdm.
  pose proof (Z.mod_pos_bound N 20 ltac:(lia)) as Hr.
  set (k := N / 20) in *. set (r := N mod 20) in *.
  assert (0 <= k <= 2 ^ 36) as Hk by (change (2 ^ 36) with 68719476736;
                                       change (2 ^ 40) with 1099511627776 in Hn; lia).
  unfold F64.mul.
  assert (F64.rnd (inject_Z N) == inject_Z N)%Q as HrN
    by (apply rnd_inject_Z; change (2 ^ 53) with 9007199254740992;
        change (2 ^ 40) with 1099511627776 in Hn; lia).
  assert (inject_Z N == 20 * inject_Z k + inject_Z r)%Q as HNq.
  { rewrite Hdm, inject_Z_plus, inject_Z_mult. reflexivity. }
  assert (0 <= inject_Z k)%Q as Hk0
    by (change 0%Q with (inject_Z 0); rewrite <- Zle_Qle; lia).
  assert (inject_Z k <= 68719476736)%Q as Hk1
    by (change 68719476736%Q with (inject_Z 68719476736); rewrite <- Zle_Qle;
        change (2 ^ 36) with 68719476736 in Hk; lia).
  assert (0 <= inject_Z r)%Q as Hr0
    by (change 0%Q with (inject_Z 0); rewrite <- Zle_Qle; lia).
  assert (inject_Z r <= 19)%Q as Hr1
    by (change 19%Q with (inject_Z 19); rewrite <- Zle_Qle; lia).
  set (y := (F64.rnd (inject_Z N) * F64.rnd (5 # 100))%Q).
  assert (y == (20 * inject_Z k + inject_Z r)
               * (3602879701896397 # 72057594037927936))%Q as Hy.
  { unfold y. rewrite HrN, rnd_5_por_ciento, HNq. reflexivity. }
  assert (inject_Z k <= F64.rnd y)%Q as Hlo.
  { rewrite <- (rnd_inject_Z k)
      by (change (2 ^ 53) with 9007199254740992;
          change (2 ^ 36) with 68719476736 in Hk; lia).
    apply rnd_mono. rewrite Hy. lra. }
  assert (F64.rnd y < inject_Z k + 1)%Q as Hhi.
  { destruct (Qlt_le_dec y (1 # 100)) as [Hpeq | Hgr].
    - (* N = 0 *)
      assert (y == 0)%Q as Hy0.
      { rewrite Hy in Hpeq |- *.
        assert (inject_Z k == 0)%Q as Ek.
        { destruct (Z.eq_dec k 0) as [-> | Hk']; [reflexivity |].
          assert (1 <= inject_Z k)%Q
            by (change 1%Q with (inject_Z 1); rewrite <- Zle_Qle; lia).
          exfalso. lra. }
        assert (inject_Z r == 0)%Q as Er.
        { destruct (Z.eq_dec r 0) as [-> | Hr']; [reflexivity |].
          assert (1 <= inject_Z r)%Q
            by (change 1%Q with (inject_Z 1); rewrite <- Zle_Qle; lia).
          exfalso. lra. }
        rewrite Ek, Er. reflexivity. }
      rewrite (rnd_zero_case y Hy0). lra.
    - assert (F64.pow2 (-1022) <= y)%Q as Hnormal.
      { eapply Qle_trans; [| exact Hgr]. vm_compute. discriminate. }
      destruct (rnd_rel y Hnormal) as [_ Hrel].
      assert (F64.eps == 1 # 9007199254740992)%Q as Heps by reflexivity.
      set (z := F64.rnd y) in *. clearbody z.
      rewrite Heps, Hy in Hrel. lra. }
  unfold Py.int_of_float.
  destruct (Qlt_le_dec (F64.rnd y) 0) as [Hneg | _]; [exfalso; lra |].
  apply Qfloor_entre; assumption.
Qed.

Lemma n_errores_binary64_witness :
  Z.of_nat 39 <= 2 ^ 40
  /\ Py.int_of_float (F64.mul (inject_Z (Z.of_nat 39)) (5 # 100)) = 1
  /\ n_errores_de 39 (5 # 100) = 1.
Proof.
  assert (Z.of_nat 39 <= 2 ^ 40) as H by (vm_compute; discriminate).
  split; [exact H |]. exact (n_errores_binary64 39 H).
Defined.

Lemma con_defecto_fila (d : defecto) (idx : nat) (rows : DataFrame) (a : registro) :
  rows !! idx = Some a -> defecto_valido d ->
  exists b,
    con_defecto d idx rows !! idx = Some b
    /\ (b = a
        \/ una_celda a b
        \/ exists k anterior,
             idx = S k /\ rows !! k = Some anterior
             /\ b = set_order_id (String.append "DUPE-" (order_id anterior))
                                 anterior).
Proof.
  intros Ha Hd.
  pose proof (lookup_lt_Some _ _ _ Ha) as Hlt.
  assert (forall f : registro -> registro,
             una_celda a (f a) ->
             exists b, alter f idx rows !! idx = Some b
                       /\ (b = a \/ una_celda a b
                           \/ exists k anterior,
                                idx = S k /\ rows !! k = Some anterior
                                /\ b = set_order_id
                                         (String.append "DUPE-" (order_id anterior))
                                         anterior)) as Halter.
  { intros f Hf. exists (f a). split; [| auto].
    rewrite list_lookup_alter_eq, Ha. reflexivity. }
  unfold una_celda in Halter.
  destruct d; cbn [con_defecto].
  - cbn [defecto_valido] in Hd.
    casos Hd; cbn [set_nan String.eqb Ascii.eqb Bool.eqb]; apply Halter.
    + left. eexists. reflexivity.
    + right; left. eexists. reflexivity.
    + right; right; left. eexists. reflexivity.
    + right; right; right; left. eexists. reflexivity.
  - apply Halter. left. eexists. reflexivity.
  - apply Halter. right; right; right; left. eexists. reflexivity.
  - apply Halter. right; right; right; right; left. eexists. reflexivity.
  - apply Halter. right; right; right; right; right; left. eexists. reflexivity.
  - destruct idx as [| k]; [exists a; auto |].
    destruct (lookup_lt_is_Some_2 rows k) as [anterior Hant]; [lia |].
    rewrite Hant. eexists. split; [apply list_lookup_insert_eq; exact Hlt |].
    right; right. exists k, anterior. auto.
  - apply Halter. do 6 right. left. eexists. reflexivity.
  - apply Halter. do 7 right. eexists. reflexivity.
Qed.

(** X13. One pass of the injector's loop on row idx of a table changes no
    other row, no other table object and no file, keeps the row count, and
    leaves row idx either as it was (a duplicate on row 0), or with exactly
    one of eight cells rewritten, or as a copy of the row above with
    "DUPE-" put before that row's order id. *)
Theorem one_pass_changes_one_row (e : entorno) (st : estado) (l : loc)
    (idx : nat) (rows : DataFrame) (a : registro) :
  objetos st !! l = Some rows -> rows !! idx = Some a ->
  wp (aplicar_error l idx) e st (fun _ st' =>
    exists rows' b,
      objetos st' = <[l := rows']> (objetos st)
      /\ archivos st' = archivos st
      /\ length rows' = length rows
      /\ (forall j, j <> idx -> rows' !! j = rows !! j)
      /\ rows' !! idx = Some b
      /\ (b = a
          \/ una_celda a b
          \/ exists k anterior,
               idx = S k /\ rows !! k = Some anterior
               /\ b = set_order_id (String.append "DUPE-" (order_id anterior))
                                   anterior)).
Proof.
  intros Hl Ha.
  eapply wp_mono; [apply (wp_aplicar_error e st l idx rows a Hl Ha) |].
  intros u st' (d & Hd & Ho & Harch). cbn beta.
  destruct (con_defecto_fila d idx rows a Ha Hd) as (b & Hb & Hcases).
  exists (con_defecto d idx rows), b.
  split; [exact Ho |]. split; [exact Harch |].
  split; [apply length_con_defecto |].
  split; [intros j Hj; apply lookup_con_defecto_ne; congruence |].
  split; [exact Hb | exact Hcases].
Qed.

Lemma one_pass_changes_one_row_witness :
  objetos st_demo !! 0%nat = Some tabla_demo
  /\ exists a,
       tabla_demo !! 3%nat = Some a
       /\ wp (aplicar_error 0%nat 3%nat) e_demo st_demo (fun _ st' =>
            exists rows' b,
              objetos st' = <[0%nat := rows']> (objetos st_demo)
              /\ archivos st' = archivos st_demo
              /\ length rows' = length tabla_demo
              /\ (forall j, j <> 3%nat -> rows' !! j = tabla_demo !! j)
              /\ rows' !! 3%nat = Some b
              /\ (b = a
                  \/ una_celda a b
                  \/ exists k anterior,
                       3%nat = S k /\ tabla_demo !! k = Some anterior
                       /\ b = set_order_id
                                (String.append "DUPE-" (order_id anterior))
                                anterior)).
Proof.
  split; [reflexivity |].
  destruct (tabla_demo !! 3%nat) as [a |] eqn:Ha; [| discriminate].
  exists a. split; [reflexivity |].
  exact (one_pass_changes_one_row e_demo st_demo 0%nat 3%nat tabla_demo a eq_refl Ha).
Defined.

(* ===================================================================== *)
(** * Lookups that can fail *)
(* ===================================================================== *)

Lemma dict_get_Some_iff {V} (d : list (string * V)) (k : string) :
  is_Some (dict_get d k) <-> k ∈ dict_keys d.
Proof.
  induction d as [| [k' v] d IH]; cbn [dict_get dict_keys map fst].
  - split; [intros [x H]; discriminate | intros H; apply elem_of_nil in H; destruct H].
  - destruct (String.eqb k k') eqn:E.
    + apply String.eqb_eq in E. subst k'.
      split; [intros _; apply list_elem_of_here | intros _; eexists; reflexivity].
    + apply String.eqb_neq in E. rewrite IH. unfold dict_keys.
      split; [intros H; apply list_elem_of_further; exact H |].
      intros H. apply elem_of_cons in H as [H | H]; [contradiction | exact H].
Qed.

(** X14. The helpers keyed by a table succeed exactly on the keys of the
    table: the shipping cost and the transit time for the seven carriers,
    the product data for the seven categories; any other key raises. *)
Theorem keyed_helpers_succeed_iff_key_known (e : entorno) (st : estado) :
  (forall transportista peso distancia es_express,
      is_Some (_calcular_costo_envio transportista peso distancia es_express e st)
      <-> transportista ∈ dict_keys transportistas)
  /\ (forall transportista origen destino alta,
        is_Some (_calcular_tiempo_entrega transportista origen destino alta e st)
        <-> transportista ∈ dict_keys tiempos_base)
  /\ (forall categoria,
        is_Some (_generar_datos_producto categoria e st)
        <-> categoria ∈ dict_keys categorias).
Proof.
  split; [| split].
  - intros t peso distancia es_express. split.
    + intros [[x st'] Hrun]. apply dict_get_Some_iff.
      unfold _calcular_costo_envio in Hrun.
      apply bind_Some in Hrun as (info & st1 & Hget & _).
      destruct (dict_get transportistas t); [eexists; reflexivity | discriminate].
    + intros Ht.
      destruct (sale__calcular_costo_envio e t peso distancia es_express Ht st)
        as (c & st' & Hrun & _).
      rewrite Hrun. eexists. reflexivity.
  - intros t origen destino alta. split.
    + intros [[x st'] Hrun]. apply dict_get_Some_iff.
      unfold _calcular_tiempo_entrega in Hrun.
      apply bind_Some in Hrun as (por_tipo & st1 & Hget & _).
      destruct (dict_get tiempos_base t); [eexists; reflexivity | discriminate].
    + intros Ht.
      destruct (sale__calcular_tiempo_entrega e t origen destino alta Ht st)
        as (c & st' & Hrun & _).
      rewrite Hrun. eexists. reflexivity.
  - intros c. split.
    + intros [[x st'] Hrun]. apply dict_get_Some_iff.
      unfold _generar_datos_producto in Hrun.
      apply bind_Some in Hrun as (info & st1 & Hget & _).
      destruct (dict_get categorias c); [eexists; reflexivity | discriminate].
    + intros Hc.
      destruct (sale__generar_datos_producto e c Hc st) as (p & st' & Hrun & _).
      rewrite Hrun. eexists. reflexivity.
Qed.

Lemma region_loop_in_keys (items : list (string * list string)) (estado region : string) :
  region_loop items estado = Some region -> region ∈ dict_keys items.
Proof.
  induction items as [| [r es] items IH]; cbn [region_loop]; [discriminate |].
  destruct (str_in estado es).
  - intros [= ->]. apply list_elem_of_here.
  - intros H. apply list_elem_of_further. apply IH. exact H.
Qed.

(** X15. [_get_region_from_estado] returns one of the five region names for
    every input, and for a state listed in a region of the table it returns
    that region. *)
Theorem region_lookup_on_listed_states :
  (forall estado, _get_region_from_estado estado ∈ dict_keys regiones)
  /\ (forall region estados estado,
        (region, estados) ∈ regiones -> estado ∈ estados ->
        _get_region_from_estado estado = region).
Proof.
  split.
  - intros estado. unfold _get_region_from_estado.
    destruct (region_loop regiones estado) as [region |] eqn:E.
    + apply (region_loop_in_keys _ _ _ E).
    + repeat constructor.
  - intros region estados estado Hr He.
    unfold regiones in Hr.
    repeat (apply elem_of_cons in Hr as [Hr | Hr];
            [injection Hr as -> ->; casos He; reflexivity |]).
    apply elem_of_nil in Hr. destruct Hr.
Qed.

(* ===================================================================== *)
(** * The whole program *)
(* ===================================================================== *)









(** X19. The constructor reseeds numpy, so a run does not depend on the
    state numpy's generator or the [random] module were in before it: two
    runs that start with the same Faker position, clock position, objects
    and files behave alike, whatever the two generators held. *)
Theorem run_ignores_prior_numpy_state
    (e : entorno) (st1 st2 : estado) (seed : Z) (n : nat) :
  fk_pos st1 = fk_pos st2 ->
  reloj_pos st1 = reloj_pos st2 ->
  objetos st1 = objetos st2 ->
  archivos st1 = archivos st2 ->
  main_con seed n e st1 = main_con seed n e st2.
Proof.
  intros Hfk Hreloj Hobj Harch.
  destruct st1 as [s1 p1 y1 f1 c1 o1 a1], st2 as [s2 p2 y2 f2 c2 o2 a2].
  cbn [fk_pos reloj_pos objetos archivos] in *. subst f2 c2 o2 a2.
  reflexivity.
Qed.

Lemma run_ignores_prior_numpy_state_witness :
  main_con 42 3 e_demo st_inicial
  = main_con 42 3 e_demo
      {| np_seed := 7; np_pos := 25; py_seed := 9; fk_pos := 0;
         reloj_pos := 0; objetos := []; archivos := ∅ |}.
Proof.
  apply run_ignores_prior_numpy_state; reflexivity.
Defined.

(* ===================================================================== *)
(** * The clock *)
(* ===================================================================== *)

Lemma sin_reloj_ret {A} (a : A) : sin_reloj (ret a).
Proof. intros e st a' st' H. injection H as _ <-. reflexivity. Qed.

Lemma sin_reloj_raise {A} : sin_reloj (@raise A).
Proof. intros e st a st' H. discriminate. Qed.

Lemma sin_reloj_lift {A} (o : option A) : sin_reloj (lift o).
Proof. destruct o; [apply sin_reloj_ret | apply sin_reloj_raise]. Qed.

Lemma sin_reloj_bind {A B} (m : M A) (k : A -> M B) :
  sin_reloj m -> (forall a, sin_reloj (k a)) -> sin_reloj (bind m k).
Proof.
  intros Hm Hk e st b st' H.
  apply bind_Some in H as (a & st1 & H1 & H2).
  rewrite (Hk a e st1 b st' H2). exact (Hm e st a st1 H1).
Qed.

Lemma sin_reloj_np_next : sin_reloj Np.next.
Proof. intros e st a st' H. injection H as _ <-. reflexivity. Qed.

Lemma sin_reloj_fk_next : sin_reloj Fk.next.
Proof. intros e st a st' H. injection H as _ <-. reflexivity. Qed.

(** One step of a proof that a computation built from draws takes no
    reading. *)
Ltac sin_reloj_paso :=
  first
    [ apply sin_reloj_ret | apply sin_reloj_raise | apply sin_reloj_lift
    | apply sin_reloj_np_next | apply sin_reloj_fk_next
    | assumption
    | apply sin_reloj_bind; [| intros ?]
    | match goal with
      | |- sin_reloj (if ?b then _ else _) => destruct b
      | |- sin_reloj (match ?x with _ => _ end) => destruct x
      end ].

Lemma sin_reloj_np_random : sin_reloj Np.random.
Proof. unfold Np.random. repeat sin_reloj_paso. Qed.

Lemma sin_reloj_np_uniform (lo hi : Q) : sin_reloj (Np.uniform lo hi).
Proof.
  pose proof sin_reloj_np_random. unfold Np.uniform. repeat sin_reloj_paso.
Qed.

Lemma sin_reloj_np_normal (mu sigma : Q) : sin_reloj (Np.normal mu sigma).
Proof. unfold Np.normal. repeat sin_reloj_paso. Qed.

Lemma sin_reloj_np_exponential (scale : Q) : sin_reloj (Np.exponential scale).
Proof. unfold Np.exponential. repeat sin_reloj_paso. Qed.

Lemma sin_reloj_np_poisson (lam : Q) : sin_reloj (Np.poisson lam).
Proof. unfold Np.poisson. repeat sin_reloj_paso. Qed.

Lemma sin_reloj_np_randint (lo hi : Z) : sin_reloj (Np.randint lo hi).
Proof. unfold Np.randint. repeat sin_reloj_paso. Qed.

Lemma sin_reloj_np_choice {A} (a : list A) : sin_reloj (Np.choice a).
Proof.
  pose proof (sin_reloj_np_randint 0 (Z.of_nat (length a))).
  unfold Np.choice. repeat sin_reloj_paso.
Qed.

Lemma sin_reloj_np_choice_p {A} (a : list A) (p : list Q) :
  sin_reloj (Np.choice_p a p).
Proof.
  pose proof sin_reloj_np_random. unfold Np.choice_p. repeat sin_reloj_paso.
Qed.

Lemma sin_reloj_fk_random_int (lo hi : Z) : sin_reloj (Fk.random_int lo hi).
Proof. unfold Fk.random_int. repeat sin_reloj_paso. Qed.

Create HintDb sin_reloj.

#[local] Hint Resolve sin_reloj_np_random sin_reloj_np_uniform sin_reloj_np_normal
  sin_reloj_np_exponential sin_reloj_np_poisson sin_reloj_np_randint
  sin_reloj_np_choice sin_reloj_np_choice_p sin_reloj_fk_random_int : sin_reloj.

Ltac sin_reloj_tac :=
  repeat first [solve [auto with sin_reloj] | sin_reloj_paso].

Lemma sin_reloj__generar_datos_cliente : sin_reloj _generar_datos_cliente.
Proof. unfold _generar_datos_cliente. sin_reloj_tac. Qed.

Lemma sin_reloj__get_random_categoria : sin_reloj _get_random_categoria.
Proof. unfold _get_random_categoria. sin_reloj_tac. Qed.

Lemma sin_reloj__get_random_transportista : sin_reloj _get_random_transportista.
Proof. unfold _get_random_transportista. sin_reloj_tac. Qed.

Lemma sin_reloj__generar_datos_producto (categoria : string) :
  sin_reloj (_generar_datos_producto categoria).
Proof. unfold _generar_datos_producto. sin_reloj_tac. Qed.

Lemma sin_reloj__calcular_tiempo_entrega transportista origen destino alta :
  sin_reloj (_calcular_tiempo_entrega transportista origen destino alta).
Proof. unfold _calcular_tiempo_entrega. sin_reloj_tac. Qed.

Lemma sin_reloj__calcular_costo_envio transportista peso distancia es_express :
  sin_reloj (_calcular_costo_envio transportista peso distancia es_express).
Proof. unfold _calcular_costo_envio. sin_reloj_tac. Qed.

Lemma sin_reloj__generar_datos_pago (monto_total : Q) :
  sin_reloj (_generar_datos_pago monto_total).
Proof. unfold _generar_datos_pago. sin_reloj_tac. Qed.

#[local] Hint Resolve sin_reloj__generar_datos_cliente sin_reloj__get_random_categoria
  sin_reloj__get_random_transportista sin_reloj__generar_datos_producto
  sin_reloj__calcular_tiempo_entrega sin_reloj__calcular_costo_envio
  sin_reloj__generar_datos_pago : sin_reloj.

Lemma devuelve_ret {A} (a : A) (P : A -> Prop) : P a -> devuelve (ret a) P.
Proof. intros HP e st a' st' H. injection H as <- _. exact HP. Qed.

Lemma devuelve_raise {A} (P : A -> Prop) : devuelve (@raise A) P.
Proof. intros e st a st' H. discriminate. Qed.

Lemma devuelve_bind {A B} (m : M A) (k : A -> M B) (P : B -> Prop) :
  (forall a, devuelve (k a) P) -> devuelve (bind m k) P.
Proof.
  intros Hk e st b st' H.
  apply bind_Some in H as (a & st1 & _ & H2). exact (Hk a e st1 b st' H2).
Qed.

Ltac devuelve_tac :=
  repeat first
    [ apply devuelve_raise
    | apply devuelve_ret; reflexivity
    | apply devuelve_bind; intros ?
    | match goal with
      | |- devuelve (if ?b then _ else _) _ => destruct b
      | |- devuelve (match ?x with _ => _ end) _ => destruct x
      end ].

Lemma lee_una_vez_pre {A B} (m : M A) (k : A -> M B) (fecha : B -> Z) :
  sin_reloj m -> (forall a, lee_una_vez (k a) fecha) ->
  lee_una_vez (bind m k) fecha.
Proof.
  intros Hm Hk e st b st' H.
  apply bind_Some in H as (a & st1 & H1 & H2).
  pose proof (Hm e st a st1 H1) as Hpos.
  destruct (Hk a e st1 b st' H2) as [Hp Hf].
  rewrite Hpos in Hp, Hf. auto.
Qed.

Lemma lee_una_vez_post {A B} (m : M A) (k : A -> M B) (f0 : A -> Z)
    (fecha : B -> Z) :
  lee_una_vez m f0 ->
  (forall a, sin_reloj (k a)) ->
  (forall a, devuelve (k a) (fun b => fecha b = f0 a)) ->
  lee_una_vez (bind m k) fecha.
Proof.
  intros Hm Hk Hd e st b st' H.
  apply bind_Some in H as (a & st1 & H1 & H2).
  destruct (Hm e st a st1 H1) as [Hp Hf].
  rewrite (Hk a e st1 b st' H2), (Hd a e st1 b st' H2). auto.
Qed.

(** [date_time_between('-1y', 'now')] reads the clock once. *)
Lemma lee_una_vez_date_time_between :
  lee_una_vez Fk.date_time_between_last_year (fun t => t).
Proof.
  intros e st t st' H.
  unfold Fk.date_time_between_last_year in H.
  apply bind_Some in H as (ahora & st1 & H1 & H2).
  unfold Fk.now in H1. injection H1 as <- <-.
  unfold Fk.random_int in H2.
  assert ((reloj e (reloj_pos st) - Fk.un_anio <=? reloj e (reloj_pos st)) = true)
    as E by (apply Z.leb_le; unfold Fk.un_anio; lia).
  rewrite E in H2.
  apply bind_Some in H2 as (x & st2 & H3 & H4).
  unfold Fk.next in H3. injection H3 as <- <-.
  unfold ret in H4. injection H4 as <- <-.
  cbn [reloj_pos]. split; [reflexivity |].
  pose proof (Z.mod_pos_bound (fk_draws e (fk_pos st))
                (reloj e (reloj_pos st) - (reloj e (reloj_pos st) - Fk.un_anio) + 1)
                ltac:(unfold Fk.un_anio; lia)).
  lia.
Qed.

Lemma lee_una_vez__generar_fechas_realistas transportista estado_destino :
  lee_una_vez (_generar_fechas_realistas transportista estado_destino) f_order_date.
Proof.
  unfold _generar_fechas_realistas.
  apply lee_una_vez_post with (f0 := fun t => t).
  - apply lee_una_vez_date_time_between.
  - intros fecha_pedido. sin_reloj_tac.
  - intros fecha_pedido. devuelve_tac.
Qed.

Lemma lee_una_vez_generar_registro (i : nat) :
  lee_una_vez (generar_registro i) order_date.
Proof.
  unfold generar_registro.
  do 7 (apply lee_una_vez_pre; [sin_reloj_tac | intros ?]).
  apply lee_una_vez_post with (f0 := f_order_date).
  - apply lee_una_vez__generar_fechas_realistas.
  - intros fechas. sin_reloj_tac.
  - intros fechas. devuelve_tac.
Qed.

(** X18. Building a record takes a reading of the wall clock, and the
    order is dated within the year (31556736 seconds) before a reading
    taken while that record was built; the order is delivered at least two
    whole days after it was placed. *)
Theorem order_date_window (e : entorno) (st : estado) (i : nat) :
  wp (generar_registro i) e st (fun r st' =>
    (reloj_pos st < reloj_pos st')%nat
    /\ (exists k, (reloj_pos st <= k < reloj_pos st')%nat
                  /\ reloj e k - Fk.un_anio <= order_date r <= reloj e k)
    /\ order_date r + Py.timedelta 2 <= delivered_date r
    /\ delivered_date r
       = order_date r
         + Py.timedelta (processing_days r + Z.max 1 (delivery_days r))).
Proof.
  destruct (wp_generar_registro_todo e st i) as (r & st' & Hrun & Hl & _).
  exists r, st'. split; [exact Hrun |].
  destruct (lee_una_vez_generar_registro i e st r st' Hrun) as [Hpos Hfecha].
  split; [lia |].
  split; [exists (reloj_pos st); split; [lia | exact Hfecha] |].
  pose proof (rl_processing _ _ _ Hl) as Hproc.
  rewrite (rl_delivered _ _ _ Hl), (rl_shipped _ _ _ Hl).
  unfold Py.timedelta. lia.
Qed.
